(** * Verification of the authorization broker

  A shallow embedding of the security-critical parts of the repository:

  - [fastapi_auth/utils/_pkce.py]: the PKCE S256 check;
  - [fastapi_auth/social_providers/oauth.py]: the three handlers of
    [OAuth2Provider] ([authorize], [callback], [finalize_link]);
  - [fastapi_auth/_storage.py] and the in-memory account store of
    [tests/conftest.py];
  - [backend/app/utils.py]: the signed e-mail tokens and the device
    authorization records kept in Redis.

  Python [str] values are modelled by [string]; a character of [string] is
  an 8-bit code point, so the strings of this development are the Python
  strings whose code points are below 256 (ASCII is the range below 128).
  Python [bytes] are lists of integers in [0, 256). Instants are integers:
  seconds since the epoch, and microseconds since the epoch for the
  [datetime] values of the signed tokens, which [jwt] rounds to whole
  seconds. *)

From Stdlib Require Import ZArith NArith List String Ascii Bool Lia.
From Stdlib Require Import DecimalString DecimalZ.
From stdpp Require Import base option gmap strings list.
Import ListNotations.
Local Open Scope string_scope.
Local Open Scope Z_scope.

(** ** Python values and exceptions *)

Module Py.

(** The exceptions that the modelled code can raise. *)
Inductive exn : Type :=
| ValueError (msg : string)
| TypeError
| AttributeError
| KeyError
| UnicodeEncodeError
| JSONDecodeError
| ValidationError
| FastAPIAuthException (error error_description : string)
| OAuth2Exception (error error_description : string).

(** The result of evaluating an expression that may raise. *)
Inductive result (A : Type) : Type :=
| Ok (a : A)
| Raise (e : exn).
Arguments Ok {A} a.
Arguments Raise {A} e.

(** Truth value of an optional string: [None] and the empty string are
    falsy ([if not x]). *)
Definition truthy (x : option string) : option string :=
  match x with
  | Some s => if String.eqb s "" then None else Some s
  | None => None
  end.

(** [all(ord(c) < 128 for c in s)] *)
Definition is_ascii_char (c : ascii) : bool := (N_of_ascii c <? 128)%N.

Definition isascii (s : string) : bool :=
  forallb is_ascii_char (list_ascii_of_string s).

(** [s.encode("ascii")] *)
Definition encode_ascii (s : string) : result (list Z) :=
  if isascii s
  then Ok (List.map (fun c => Z.of_N (N_of_ascii c)) (list_ascii_of_string s))
  else Raise UnicodeEncodeError.

(** What the code uses of a pydantic model: [model_dump_json] and
    [model_validate_json], the latter giving [None] where pydantic raises
    [ValidationError]. *)
Class BaseModel (A : Type) : Type := {
  model_dump_json : A -> string;
  model_validate_json : string -> option A
}.

(** A model reads back what it wrote, and writes no empty document. *)
Definition round_trips (A : Type) `{!BaseModel A} : Prop :=
  forall a : A, model_validate_json (model_dump_json a) = Some a.

Definition dumps_nonempty (A : Type) `{!BaseModel A} : Prop :=
  forall a : A, model_dump_json a <> "".

End Py.

(** ** SHA-256 (FIPS 180-4), as computed by [hashlib.sha256(...).digest()] *)

Module Sha256.

Definition mask32 (x : Z) : Z := Z.land x 0xffffffff.
Definition add32 (x y : Z) : Z := mask32 (x + y).
Definition rotr (n x : Z) : Z :=
  Z.lor (Z.shiftr x n) (mask32 (Z.shiftl x (32 - n))).
Definition not32 (x : Z) : Z := Z.lxor x 0xffffffff.

Definition Ch (x y z : Z) : Z := Z.lxor (Z.land x y) (Z.land (not32 x) z).
Definition Maj (x y z : Z) : Z :=
  Z.lxor (Z.lxor (Z.land x y) (Z.land x z)) (Z.land y z).
Definition bsig0 (x : Z) : Z := Z.lxor (Z.lxor (rotr 2 x) (rotr 13 x)) (rotr 22 x).
Definition bsig1 (x : Z) : Z := Z.lxor (Z.lxor (rotr 6 x) (rotr 11 x)) (rotr 25 x).
Definition ssig0 (x : Z) : Z := Z.lxor (Z.lxor (rotr 7 x) (rotr 18 x)) (Z.shiftr x 3).
Definition ssig1 (x : Z) : Z := Z.lxor (Z.lxor (rotr 17 x) (rotr 19 x)) (Z.shiftr x 10).

(** The first primes, by trial division. *)
Definition is_prime (n : nat) : bool :=
  (1 <? n)%nat
  && forallb (fun d => negb (Nat.eqb (Nat.modulo n d) 0)) (seq 2 (n - 2)).

Definition primes (count : nat) : list Z :=
  List.map Z.of_nat (firstn count (List.filter is_prime (seq 2 320))).

(** The integer cube root, one bit at a time from the top. *)
Definition cube_root (n : Z) : Z :=
  fold_left
    (fun r b => let r' := r + Z.shiftl 1 (Z.of_nat b) in
                if r' * r' * r' <=? n then r' else r)
    (rev (seq 0 48)) 0.

(** The sixty-four round constants: the first thirty-two bits of the
    fractional parts of the cube roots of the first sixty-four primes. *)
Definition round_constants : list Z :=
  Eval vm_compute in
    List.map (fun p => mask32 (cube_root (Z.shiftl p 96))) (primes 64).

(** The eight working words. *)
Record words : Type := Words {
  wa : Z; wb : Z; wc : Z; wd : Z; we : Z; wf : Z; wg : Z; wh : Z
}.

(** The initial hash value: the first thirty-two bits of the fractional
    parts of the square roots of the first eight primes. *)
Definition initial_hash : words :=
  Eval vm_compute in
    match List.map (fun p => mask32 (Z.sqrt (Z.shiftl p 64))) (primes 8) with
    | [a; b; c; d; e; f; g; h] => Words a b c d e f g h
    | _ => Words 0 0 0 0 0 0 0 0
    end.

(** Padding: a one bit, zero bits up to 56 modulo 64 bytes, and the
    bit length as a 64-bit big-endian integer. *)
Definition be_bytes (n : nat) (x : Z) : list Z :=
  List.map (fun i => Z.land (Z.shiftr x (8 * Z.of_nat i)) 0xff) (rev (seq 0 n)).

Definition pad (msg : list Z) : list Z :=
  let len := Z.of_nat (length msg) in
  let zeros := Z.to_nat ((55 - len) mod 64) in
  msg ++ [0x80] ++ repeat 0 zeros ++ be_bytes 8 (8 * len).

Fixpoint be_words (b : list Z) : list Z :=
  match b with
  | b0 :: b1 :: b2 :: b3 :: rest =>
      (Z.lor (Z.shiftl b0 24) (Z.lor (Z.shiftl b1 16) (Z.lor (Z.shiftl b2 8) b3)))
        :: be_words rest
  | _ => []
  end.

(** Message schedule: the sixteen block words extended to sixty-four. *)
Fixpoint extend (n : nat) (w : list Z) : list Z :=
  match n with
  | O => w
  | S n' =>
      let i := length w in
      let at_ k := nth (i - k) w 0 in
      extend n' (w ++ [add32 (add32 (add32 (ssig1 (at_ 2%nat)) (at_ 7%nat))
                                    (ssig0 (at_ 15%nat))) (at_ 16%nat)])
  end.

Definition schedule (block : list Z) : list Z := extend 48 (be_words block).

Definition round (s : words) (kw : Z * Z) : words :=
  let '(k, w) := kw in
  let t1 := add32 (add32 (add32 (add32 (wh s) (bsig1 (we s)))
                                (Ch (we s) (wf s) (wg s))) k) w in
  let t2 := add32 (bsig0 (wa s)) (Maj (wa s) (wb s) (wc s)) in
  Words (add32 t1 t2) (wa s) (wb s) (wc s) (add32 (wd s) t1) (we s) (wf s) (wg s).

Definition compress (h : words) (block : list Z) : words :=
  let s := fold_left round (combine round_constants (schedule block)) h in
  Words (add32 (wa h) (wa s)) (add32 (wb h) (wb s))
        (add32 (wc h) (wc s)) (add32 (wd h) (wd s))
        (add32 (we h) (we s)) (add32 (wf h) (wf s))
        (add32 (wg h) (wg s)) (add32 (wh h) (wh s)).

Fixpoint blocks (n : nat) (h : words) (b : list Z) : words :=
  match n with
  | O => h
  | S n' => blocks n' (compress h (firstn 64 b)) (skipn 64 b)
  end.

Definition hash_words (msg : list Z) : words :=
  let p := pad msg in
  blocks (Nat.div (length p) 64) initial_hash p.

Definition words_list (h : words) : list Z :=
  [wa h; wb h; wc h; wd h; we h; wf h; wg h; wh h].

(** The 32-byte digest. *)
Definition digest (msg : list Z) : list Z :=
  concat (List.map (be_bytes 4) (words_list (hash_words msg))).

End Sha256.

(** ** [base64.urlsafe_b64encode] *)

Module Base64.

Definition alphabet : string :=
  "ABCDEFGHIJKLMNOPQRSTUVWXYZabcdefghijklmnopqrstuvwxyz0123456789-_".

Definition sextet (i : Z) : ascii :=
  match String.get (Z.to_nat i) alphabet with
  | Some c => c
  | None => "="%char
  end.

Fixpoint urlsafe_b64encode (b : list Z) : string :=
  match b with
  | [] => ""
  | [b0] =>
      String (sextet (Z.shiftr b0 2))
        (String (sextet (Z.land (Z.shiftl b0 4) 63)) "==")
  | [b0; b1] =>
      String (sextet (Z.shiftr b0 2))
        (String (sextet (Z.land (Z.lor (Z.shiftl b0 4) (Z.shiftr b1 4)) 63))
           (String (sextet (Z.land (Z.shiftl b1 2) 63)) "="))
  | b0 :: b1 :: b2 :: rest =>
      String (sextet (Z.shiftr b0 2))
        (String (sextet (Z.land (Z.lor (Z.shiftl b0 4) (Z.shiftr b1 4)) 63))
           (String (sextet (Z.land (Z.lor (Z.shiftl b1 2) (Z.shiftr b2 6)) 63))
              (String (sextet (Z.land b2 63)) (urlsafe_b64encode rest))))
  end.

(** [s.rstrip(b"=")] *)
Fixpoint rstrip_eq (s : string) : string :=
  match s with
  | EmptyString => EmptyString
  | String c rest =>
      match rstrip_eq rest with
      | EmptyString => if Ascii.eqb c "="%char then EmptyString else String c EmptyString
      | r => String c r
      end
  end.

End Base64.

(** ** [fastapi_auth/utils/_pkce.py] *)

Module Pkce.
Import Py.

Definition calculate_s256_challenge (verifier : string) : result string :=
  match encode_ascii verifier with
  | Raise e => Raise e
  | Ok bytes =>
      let sha256_digest := Sha256.digest bytes in
      Ok (Base64.rstrip_eq (Base64.urlsafe_b64encode sha256_digest))
  end.

(** [secrets.compare_digest] on two [str]: a [TypeError] unless both are
    ASCII, and otherwise their equality. *)
Definition compare_digest (a b : string) : result bool :=
  if isascii a && isascii b then Ok (String.eqb a b) else Raise TypeError.

Definition validate_pkce (stored_challenge stored_method received_verifier : string)
  : result bool :=
  if negb (String.eqb stored_method "S256")
  then Raise (ValueError "Unsupported code challenge method")
  else
    match calculate_s256_challenge received_verifier with
    | Raise e => Raise e
    | Ok calculated_challenge => compare_digest calculated_challenge stored_challenge
    end.

End Pkce.

(** ** [fastapi_auth/_storage.py] *)

Module Storage.
Import Py.

(** A JSON object whose members are strings: the upstream user info and the
    body of a request. *)
Abbreviation UserInfo := (gmap string string).

(** Modelled from the spec: the class [TokenResponse] of
    [fastapi_auth/models/oauth_token_response.py] is not among the
    sources. It is the upstream token triple of the spec ([access_token],
    [refresh_token], expirations, [scope]), with the attributes that the
    handlers read. *)
Record TokenResponse : Type := {
  tr_access_token : string;
  tr_refresh_token : option string;
  tr_access_token_expires_at : option Z;
  tr_refresh_token_expires_at : option Z;
  tr_scope : option string
}.

Record SocialAccount : Type := {
  sa_id : string;
  sa_user_id : string;
  sa_provider_user_id : string;
  sa_provider : string;
  sa_access_token : option string;
  sa_refresh_token : option string;
  sa_access_token_expires_at : option Z;
  sa_refresh_token_expires_at : option Z;
  sa_scope : option string
}.

Record User : Type := {
  u_id : string;
  u_email : string;
  u_hashed_password : string;
  u_social_accounts : list SocialAccount
}.

(** [class AccountsStorage(Protocol)]: the store is a value of type [S];
    the finders read it, the other methods return the store they leave
    behind together with their result or the exception they raise. *)
Class AccountsStorage (S : Type) : Type := {
  find_user_by_email : S -> string -> option User;
  find_user_by_id : S -> string -> option User;
  find_social_account : S -> string -> string -> option SocialAccount;
  create_user : S -> UserInfo -> result User * S;
  create_social_account :
    S -> string -> string -> string -> TokenResponse -> UserInfo ->
    result SocialAccount * S;
  update_social_account :
    S -> string -> TokenResponse -> UserInfo -> result SocialAccount * S
}.

(** [class SecondaryStorage(Protocol)], as [MemoryStorage] implements it:
    a dictionary from keys to values. *)
Abbreviation SecondaryStorage := (gmap string string).

Definition storage_set (key value : string) (d : SecondaryStorage) : SecondaryStorage :=
  <[key := value]> d.

Definition storage_get (key : string) (d : SecondaryStorage) : option string :=
  d !! key.

Definition storage_delete (key : string) (d : SecondaryStorage)
  : result unit * SecondaryStorage :=
  match d !! key with
  | Some _ => (Ok tt, delete key d)
  | None => (Raise KeyError, d)
  end.

End Storage.

(** ** The in-memory account store of [tests/conftest.py] *)

Module Memory.
Import Py Storage.

(** A Python [dict] with string keys, in insertion order. *)
Fixpoint dict_get {V : Type} (k : string) (d : list (string * V)) : option V :=
  match d with
  | [] => None
  | (k', v) :: rest => if String.eqb k k' then Some v else dict_get k rest
  end.

(** [d[k] = v]: an existing key keeps its place, a new one goes last. *)
Fixpoint dict_set {V : Type} (k : string) (v : V) (d : list (string * V))
  : list (string * V) :=
  match d with
  | [] => [(k, v)]
  | (k', v') :: rest =>
      if String.eqb k k' then (k, v) :: rest else (k', v') :: dict_set k v rest
  end.

Definition dict_values {V : Type} (d : list (string * V)) : list V := List.map snd d.

(** The store: the dictionary [self.data] and the number of identifiers
    drawn so far from [uuid.uuid4]. *)
Record MemoryAccountsStorage : Type := {
  data : list (string * User);
  drawn : nat
}.

Definition all_social_accounts (st : MemoryAccountsStorage) : list SocialAccount :=
  concat (List.map u_social_accounts (dict_values (data st))).

(** Replace the first element that satisfies [p]; [None] when there is none. *)
Fixpoint update_first {A : Type} (p : A -> bool) (f : A -> A) (l : list A)
  : option (list A) :=
  match l with
  | [] => None
  | x :: rest =>
      if p x then Some (f x :: rest)
      else match update_first p f rest with
           | Some rest' => Some (x :: rest')
           | None => None
           end
  end.

Definition set_tokens (t : TokenResponse) (a : SocialAccount) : SocialAccount :=
  {| sa_id := sa_id a;
     sa_user_id := sa_user_id a;
     sa_provider_user_id := sa_provider_user_id a;
     sa_provider := sa_provider a;
     sa_access_token := Some (tr_access_token t);
     sa_refresh_token := tr_refresh_token t;
     sa_access_token_expires_at := tr_access_token_expires_at t;
     sa_refresh_token_expires_at := tr_refresh_token_expires_at t;
     sa_scope := tr_scope t |}.

(** The first social account, in iteration order over the users, whose
    [id] is [account_id] gets the new token fields. *)
Fixpoint update_account_in (account_id : string) (t : TokenResponse)
    (d : list (string * User)) : option (list (string * User)) :=
  match d with
  | [] => None
  | (k, u) :: rest =>
      match update_first (fun a => String.eqb (sa_id a) account_id) (set_tokens t)
              (u_social_accounts u) with
      | Some accounts' =>
          Some ((k, {| u_id := u_id u; u_email := u_email u;
                       u_hashed_password := u_hashed_password u;
                       u_social_accounts := accounts' |}) :: rest)
      | None =>
          match update_account_in account_id t rest with
          | Some rest' => Some ((k, u) :: rest')
          | None => None
          end
      end
  end.

Section Accounts.

(** [uuid.uuid4()], by the number of identifiers drawn before, and
    [pwd_context.hash]. *)
Variable uuid4 : nat -> string.
Variable pwd_hash : string -> string.

Definition mem_find_user_by_email (st : MemoryAccountsStorage) (email : string)
  : option User :=
  List.find (fun u => String.eqb (u_email u) email) (dict_values (data st)).

Definition mem_find_user_by_id (st : MemoryAccountsStorage) (id : string)
  : option User :=
  dict_get id (data st).

Definition mem_find_social_account (st : MemoryAccountsStorage)
    (provider provider_user_id : string) : option SocialAccount :=
  List.find
    (fun a => String.eqb (sa_provider a) provider
              && String.eqb (sa_provider_user_id a) provider_user_id)
    (all_social_accounts st).

Definition mem_create_user (st : MemoryAccountsStorage) (user_info : UserInfo)
  : result User * MemoryAccountsStorage :=
  match user_info !! "email" with
  | None => (Raise KeyError, st)
  | Some email =>
      match mem_find_user_by_email st email with
      | Some _ => (Raise (ValueError "User already exists"), st)
      | None =>
          if String.eqb email "not-allowed@example.com"
          then (Raise (FastAPIAuthException "email_not_invited"
                         "This email has not yet been invited to join FastAPI Cloud"),
                st)
          else
            match user_info !! "id" with
            | None => (Raise KeyError, st)
            | Some id =>
                let user :=
                  {| u_id := id; u_email := email;
                     u_hashed_password :=
                       pwd_hash (default "" (user_info !! "password"));
                     u_social_accounts := [] |} in
                (Ok user, {| data := dict_set id user (data st); drawn := drawn st |})
            end
      end
  end.

Definition mem_create_social_account (st : MemoryAccountsStorage)
    (user_id provider provider_user_id : string) (t : TokenResponse)
    (user_info : UserInfo) : result SocialAccount * MemoryAccountsStorage :=
  match dict_get user_id (data st) with
  | None => (Raise (ValueError "User does not exist"), st)
  | Some user =>
      let social_account :=
        {| sa_id := uuid4 (drawn st);
           sa_user_id := user_id;
           sa_provider_user_id := provider_user_id;
           sa_provider := provider;
           sa_access_token := Some (tr_access_token t);
           sa_refresh_token := tr_refresh_token t;
           sa_access_token_expires_at := tr_access_token_expires_at t;
           sa_refresh_token_expires_at := tr_refresh_token_expires_at t;
           sa_scope := tr_scope t |} in
      let user' :=
        {| u_id := u_id user; u_email := u_email user;
           u_hashed_password := u_hashed_password user;
           u_social_accounts := (u_social_accounts user ++ [social_account])%list |} in
      (Ok social_account,
       {| data := dict_set user_id user' (data st); drawn := S (drawn st) |})
  end.

Definition mem_update_social_account (st : MemoryAccountsStorage)
    (social_account_id : string) (t : TokenResponse) (user_info : UserInfo)
  : result SocialAccount * MemoryAccountsStorage :=
  match List.find (fun a => String.eqb (sa_id a) social_account_id)
          (all_social_accounts st),
        update_account_in social_account_id t (data st) with
  | Some a, Some data' =>
      (Ok (set_tokens t a), {| data := data'; drawn := drawn st |})
  | _, _ => (Raise (ValueError "Social account does not exist"), st)
  end.

#[local] Instance memory_accounts : AccountsStorage MemoryAccountsStorage := {
  find_user_by_email := mem_find_user_by_email;
  find_user_by_id := mem_find_user_by_id;
  find_social_account := mem_find_social_account;
  create_user := mem_create_user;
  create_social_account := mem_create_social_account;
  update_social_account := mem_update_social_account
}.

End Accounts.

End Memory.

(** ** [fastapi_auth/social_providers/oauth.py] *)

Module OAuth.
Import Py Storage.

(** [class OAuth2AuthorizationRequestData(BaseModel)] *)
Record OAuth2AuthorizationRequestData : Type := {
  ar_redirect_uri : string;
  ar_login_hint : option string;
  ar_client_state : option string;
  ar_state : string;
  ar_code_challenge : string;
  ar_code_challenge_method : string;
  ar_link : bool
}.

(** [class OAuth2LinkCodeData(BaseModel)] *)
Record OAuth2LinkCodeData : Type := {
  lc_expires_at : Z;
  lc_client_id : string;
  lc_redirect_uri : string;
  lc_code_challenge : string;
  lc_code_challenge_method : string;
  lc_provider_code : string
}.

(** Modelled from the spec: the class [AuthorizationCodeGrantData] of
    [fastapi_auth/_issuer.py] is not among the sources. It has the fields
    of the spec's AuthorizationCodeGrant, which are the ones the handlers
    and [tests/conftest.py] give it. *)
Record AuthorizationCodeGrantData : Type := {
  cg_user_id : string;
  cg_expires_at : Z;
  cg_client_id : string;
  cg_redirect_uri : string;
  cg_code_challenge : string;
  cg_code_challenge_method : string
}.

(** Modelled from the spec: the class [OAuth2TokenEndpointResponse] of
    [fastapi_auth/models/oauth_token_response.py] is not among the
    sources. Its root is a token response or an error-shaped body, and
    [is_error] tells which. *)
Inductive OAuth2TokenEndpointResponse : Type :=
| TokenResponse_root (root : TokenResponse)
| TokenErrorResponse_root (error : string).

(** Modelled from the spec: the class [Response] of
    [fastapi_auth/utils/_response.py] is not among the sources. A
    response is one of the four ways the handlers build it:
    [Response.error] (the bare error of the spec), [Response.error_redirect]
    (the redirect to a URI that carries [error] and [error_description]),
    [Response.redirect] and the constructor. A status code left to the
    default of [Response.error] is [None]. *)
Inductive Response : Type :=
| Response_error (error : string) (error_description : option string)
    (status_code : option Z)
| Response_error_redirect (redirect_uri error error_description : string)
| Response_redirect (url : string) (query_params : list (string * string))
| Response_new (status_code : Z) (body : string).

(** A response that sends the browser to another location, and where. *)
Definition redirect_target (r : Response) : option string :=
  match r with
  | Response_error_redirect redirect_uri _ _ => Some redirect_uri
  | Response_redirect url _ => Some url
  | Response_error _ _ _ | Response_new _ _ => None
  end.

Record AsyncHTTPRequest : Type := {
  query_params : gmap string string;
  url : string;
  headers : gmap string string;
  body : string
}.

Record HttpResponse : Type := {
  http_status_code : Z;
  http_text : string
}.

(** Modelled from the spec: the class [Context] of
    [fastapi_auth/_context.py] is not among the sources. It holds the two
    stores, the check of a redirect URI against the trusted origins and
    the resolution of the caller of a request, as [tests/conftest.py]
    builds it. *)
Record Context (S : Type) : Type := {
  secondary_storage : SecondaryStorage;
  accounts_storage : S;
  is_valid_redirect_uri : string -> bool;
  get_user_from_request : AsyncHTTPRequest -> option User
}.
Arguments secondary_storage {S} _.
Arguments accounts_storage {S} _.
Arguments is_valid_redirect_uri {S} _ _.
Arguments get_user_from_request {S} _ _.

Definition with_secondary {S : Type} (c : Context S) (d : SecondaryStorage) : Context S :=
  {| secondary_storage := d;
     accounts_storage := accounts_storage c;
     is_valid_redirect_uri := is_valid_redirect_uri c;
     get_user_from_request := get_user_from_request c |}.

Definition with_accounts {S : Type} (c : Context S) (a : S) : Context S :=
  {| secondary_storage := secondary_storage c;
     accounts_storage := a;
     is_valid_redirect_uri := is_valid_redirect_uri c;
     get_user_from_request := get_user_from_request c |}.

(** The class attributes and the constructor arguments of a provider.
    The base class declares [scopes] and [supports_pkce] without giving
    them a value, and a provider class may leave them so, as
    [DiscordProvider] does: they are [None] then, and reading them raises
    [AttributeError]. *)
Record OAuth2Provider : Type := {
  id : string;
  authorization_endpoint : string;
  token_endpoint : string;
  user_info_endpoint : string;
  scopes : option (list string);
  supports_pkce : option bool;
  client_id : string;
  client_secret : string
}.

(** What [response.json()] returns for the user-info request: a JSON
    object, whose members are strings here, or another JSON value (a
    list, a string, a number, [null]), which has no method [get]. *)
Inductive Json : Type :=
| Json_object (members : UserInfo)
| Json_other.

(** What a call of a handler draws from outside the program: the clock,
    the random generators and the upstream provider. [send_token_request]
    gives [None] for an [httpx.RequestError]; [http_get_json url token]
    gives [None] when the user-info request raises, and the decoded body
    otherwise. *)
Record Env : Type := {
  now : Z;
  token_hex : string;
  uuid4 : string;
  send_token_request : string -> list (string * string) -> option HttpResponse;
  http_get_json : string -> string -> option Json
}.

(** [url.split("/")] *)
Fixpoint split_slash (s : string) : list string :=
  match s with
  | EmptyString => [EmptyString]
  | String c rest =>
      if Ascii.eqb c "/"%char then EmptyString :: split_slash rest
      else match split_slash rest with
           | [] => [String c EmptyString]
           | part :: parts => String c part :: parts
           end
  end.

Definition relative_url (url path : string) : string :=
  let parts := split_slash url in
  let parts := removelast parts in
  let parts := (parts ++ [path])%list in
  String.concat "/" parts.

(** The body of the final response of [finalize_link], a JSON object with
    the member [message]; [quote] is the double quote. *)
Definition quote : string := String (ascii_of_nat 34) EmptyString.

Definition link_finalized_body : string :=
  "{" +:+ quote +:+ "message" +:+ quote +:+ ": "
      +:+ quote +:+ "Link finalized" +:+ quote +:+ "}".

Section Provider.

Context {S : Type} `{!AccountsStorage S}.
Context `{!BaseModel OAuth2AuthorizationRequestData}
        `{!BaseModel OAuth2LinkCodeData}
        `{!BaseModel AuthorizationCodeGrantData}
        `{!BaseModel OAuth2TokenEndpointResponse}.

(** [str(TypeAdapter(HttpUrl).validate_python(uri))], with [None] for a
    [ValidationError], and [json.loads] on the body of a request, with
    [None] where it raises. *)
Variable validate_http_url : string -> option string.
Variable json_loads : string -> option (gmap string string).

Definition build_authorization_params (self : OAuth2Provider)
    (state proxy_redirect_uri response_type code_challenge
       code_challenge_method : string) (login_hint : option string)
  : result (list (string * string)) :=
  match scopes self with
  | None => Raise AttributeError
  | Some scopes_ =>
  let params :=
    [ ("client_id", client_id self);
      ("scope", String.concat " " scopes_);
      ("redirect_uri", proxy_redirect_uri);
      ("state", state);
      ("response_type", response_type) ] in
  match supports_pkce self with
  | None => Raise AttributeError
  | Some supports_pkce_ =>
  let params :=
    if supports_pkce_
    then (params ++ [ ("code_challenge", code_challenge);
                      ("code_challenge_method", code_challenge_method) ])%list
    else params in
  match truthy login_hint with
  | Some hint => Ok (params ++ [("login_hint", hint)])%list
  | None => Ok params
  end
  end end.

Definition authorize (self : OAuth2Provider) (env : Env)
    (request : AsyncHTTPRequest) (context : Context S)
  : result Response * Context S :=
  match truthy (query_params request !! "redirect_uri") with
  | None => (Ok (Response_error "invalid_request" None None), context)
  | Some redirect_uri =>
  match validate_http_url redirect_uri with
  | None => (Ok (Response_error "invalid_redirect_uri" None None), context)
  | Some redirect_uri =>
  if negb (is_valid_redirect_uri context redirect_uri)
  then (Ok (Response_error "invalid_redirect_uri" None None), context)
  else
  match truthy (query_params request !! "response_type") with
  | None =>
      (Ok (Response_error_redirect redirect_uri "invalid_request"
             "No response type provided"), context)
  | Some response_type =>
  if negb (existsb (String.eqb response_type) ["code"; "link_code"])
  then (Ok (Response_error_redirect redirect_uri "invalid_request"
              "Unsupported response type"), context)
  else
  let code_challenge_method := query_params request !! "code_challenge_method" in
  match truthy (query_params request !! "code_challenge") with
  | None =>
      (Ok (Response_error_redirect redirect_uri "invalid_request"
             "No code challenge provided"), context)
  | Some code_challenge =>
  if negb (bool_decide (code_challenge_method = Some "S256"))
  then (Ok (Response_error_redirect redirect_uri "invalid_request"
              "Unsupported code challenge method"), context)
  else
      let login_hint := query_params request !! "login_hint" in
      let client_state := query_params request !! "state" in
      let state := token_hex env in
      let data :=
        {| ar_redirect_uri := redirect_uri;
           ar_login_hint := login_hint;
           ar_client_state := client_state;
           ar_state := state;
           ar_code_challenge := code_challenge;
           ar_code_challenge_method := "S256";
           ar_link := String.eqb response_type "link_code" |} in
      let storage :=
        storage_set ("oauth:authorization_request:" +:+ state)
          (model_dump_json data) (secondary_storage context) in
      let proxy_redirect_uri := relative_url (url request) "callback" in
      match build_authorization_params self state proxy_redirect_uri "code"
              code_challenge "S256" login_hint with
      | Raise e => (Raise e, with_secondary context storage)
      | Ok query_params =>
          (Ok (Response_redirect (authorization_endpoint self) query_params),
           with_secondary context storage)
      end
  end end end end.

(** [get_code_verifier] of the base class. *)
Definition get_code_verifier (self : OAuth2Provider) : option string := None.

Definition build_token_exchange_params (self : OAuth2Provider)
    (code redirect_uri : string) (code_verifier : option string)
  : list (string * string) :=
  let params :=
    [ ("grant_type", "authorization_code");
      ("code", code);
      ("redirect_uri", redirect_uri);
      ("client_id", client_id self);
      ("client_secret", client_secret self) ] in
  match truthy code_verifier with
  | Some v => (params ++ [("code_verifier", v)])%list
  | None => params
  end.

(** [parse_token_response] *)
Definition parse_token_response (response : HttpResponse)
  : option OAuth2TokenEndpointResponse :=
  model_validate_json (http_text response).

(** [response.raise_for_status()] raises unless the status is 2xx. *)
Definition is_success (response : HttpResponse) : bool :=
  ((200 <=? http_status_code response) && (http_status_code response <=? 299))%Z.

Definition _exchange_code (self : OAuth2Provider) (env : Env)
    (code redirect_uri : string) : option OAuth2TokenEndpointResponse :=
  let code_verifier := get_code_verifier self in
  let params := build_token_exchange_params self code redirect_uri code_verifier in
  match send_token_request env (token_endpoint self) params with
  | None => None
  | Some response =>
      if is_success response then parse_token_response response else None
  end.

(** [fetch_user_info] *)
Definition fetch_user_info (self : OAuth2Provider) (env : Env) (token : string)
  : option Json :=
  http_get_json env (user_info_endpoint self) token.

Definition _fetch_user_info (self : OAuth2Provider) (env : Env)
    (request : AsyncHTTPRequest) (code : string)
  : result (UserInfo * TokenResponse) :=
  let proxy_redirect_uri := relative_url (url request) "callback" in
  match _exchange_code self env code proxy_redirect_uri with
  | None | Some (TokenErrorResponse_root _) =>
      Raise (OAuth2Exception "server_error" "Token exchange failed")
  | Some (TokenResponse_root root) =>
      match fetch_user_info self env (tr_access_token root) with
      | None => Raise (OAuth2Exception "server_error" "Failed to fetch user info")
      | Some Json_other => Raise AttributeError
      | Some (Json_object user_info) =>
          match truthy (user_info !! "email") with
          | None => Raise (OAuth2Exception "server_error" "No email found in user info")
          | Some _ =>
              match truthy (user_info !! "id") with
              | None =>
                  Raise (OAuth2Exception "server_error"
                           "No provider user ID found in user info")
              | Some _ => Ok (user_info, root)
              end
          end
      end
  end.

Definition _link_flow (self : OAuth2Provider) (env : Env)
    (context : Context S) (provider_data : OAuth2AuthorizationRequestData)
    (provider_code : string) : result Response * Context S :=
  let data :=
    {| lc_expires_at := now env + 600;
       lc_client_id := client_id self;
       lc_redirect_uri := ar_redirect_uri provider_data;
       lc_code_challenge := ar_code_challenge provider_data;
       lc_code_challenge_method := ar_code_challenge_method provider_data;
       lc_provider_code := provider_code |} in
  let code := uuid4 env in
  let storage :=
    storage_set ("oauth:link_request:" +:+ code) (model_dump_json data)
      (secondary_storage context) in
  (Ok (Response_redirect (ar_redirect_uri provider_data) [("link_code", code)]),
   with_secondary context storage).

(** The end of [callback], from [code = self._generate_code()] on:
    the grant for the resolved [user], who is [None] when no user was
    found. *)
Definition callback_grant (self : OAuth2Provider) (env : Env)
    (context : Context S) (provider_data : OAuth2AuthorizationRequestData)
    (user : option User) : result Response * Context S :=
  let redirect_uri := ar_redirect_uri provider_data in
  let code := uuid4 env in
  match user with
  | None => (Raise AttributeError, context)
  | Some user =>
      let data :=
        {| cg_user_id := u_id user;
           cg_expires_at := now env + 600;
           cg_client_id := client_id self;
           cg_redirect_uri := redirect_uri;
           cg_code_challenge := ar_code_challenge provider_data;
           cg_code_challenge_method := ar_code_challenge_method provider_data |} in
      let storage :=
        storage_set ("oauth:code:" +:+ code) (model_dump_json data)
          (secondary_storage context) in
      (Ok (Response_redirect redirect_uri [("code", code)]),
       with_secondary context storage)
  end.

Definition callback (self : OAuth2Provider) (env : Env)
    (request : AsyncHTTPRequest) (context : Context S)
  : result Response * Context S :=
  match truthy (query_params request !! "state") with
  | None =>
      (Ok (Response_error "server_error" (Some "No state found in request") None),
       context)
  | Some state =>
  match truthy (storage_get ("oauth:authorization_request:" +:+ state)
                  (secondary_storage context)) with
  | None =>
      (Ok (Response_error "server_error" (Some "Provider data not found") None),
       context)
  | Some raw_provider_data =>
  match model_validate_json raw_provider_data with
  | None =>
      (Ok (Response_error "server_error" (Some "Invalid provider data") None),
       context)
  | Some provider_data =>
  match truthy (query_params request !! "code") with
  | None =>
      (Ok (Response_error_redirect (ar_redirect_uri provider_data) "server_error"
             "No authorization code received in callback"), context)
  | Some code =>
  if ar_link provider_data
  then _link_flow self env context provider_data code
  else
  let redirect_uri := ar_redirect_uri provider_data in
  match _fetch_user_info self env request code with
  | Raise (OAuth2Exception e d) =>
      (Ok (Response_error_redirect redirect_uri e d), context)
  | Raise e => (Raise e, context)
  | Ok (user_info, token_response) =>
  match user_info !! "email" with
  | None => (Raise KeyError, context)
  | Some email =>
  match user_info !! "id" with
  | None => (Raise KeyError, context)
  | Some provider_user_id =>
  match find_social_account (accounts_storage context) (id self)
          provider_user_id with
  | Some social_account =>
      match update_social_account (accounts_storage context)
              (sa_id social_account) token_response user_info with
      | (Raise e, accounts) => (Raise e, with_accounts context accounts)
      | (Ok _, accounts) =>
          let user := find_user_by_id accounts (sa_user_id social_account) in
          callback_grant self env (with_accounts context accounts)
            provider_data user
      end
  | None =>
      match find_user_by_email (accounts_storage context) email with
      | Some _ =>
          (Ok (Response_error_redirect redirect_uri "account_exists"
                 "An account with this email already exists."), context)
      | None =>
          match create_user (accounts_storage context) user_info with
          | (Raise (FastAPIAuthException e d), accounts) =>
              (Ok (Response_error_redirect redirect_uri e d),
               with_accounts context accounts)
          | (Raise e, accounts) => (Raise e, with_accounts context accounts)
          | (Ok user, accounts) =>
              match create_social_account accounts (u_id user) (id self)
                      provider_user_id token_response user_info with
              | (Raise e, accounts) => (Raise e, with_accounts context accounts)
              | (Ok _, accounts) =>
                  callback_grant self env (with_accounts context accounts)
                    provider_data (Some user)
              end
          end
      end
  end end end end end end end end.

Definition finalize_link (self : OAuth2Provider) (env : Env)
    (request : AsyncHTTPRequest) (context : Context S)
  : result Response * Context S :=
  match get_user_from_request context request with
  | None =>
      (Ok (Response_error "unauthorized" (Some "Not logged in") (Some 401)), context)
  | Some user =>
  match json_loads (body request) with
  | None => (Raise JSONDecodeError, context)
  | Some request_data =>
  match truthy (request_data !! "link_code") with
  | None =>
      (Ok (Response_error "server_error" (Some "No link code found in request") None),
       context)
  | Some code =>
  match truthy (storage_get ("oauth:link_request:" +:+ code)
                  (secondary_storage context)) with
  | None =>
      (Ok (Response_error "server_error"
             (Some "No link data found in secondary storage") None), context)
  | Some data =>
  match model_validate_json data with
  | None =>
      (Ok (Response_error "server_error" (Some "Invalid link data") None), context)
  | Some link_data =>
  if (lc_expires_at link_data <? now env)%Z
  then (Ok (Response_error "server_error" (Some "Link code has expired") None),
        context)
  else if negb (String.eqb (lc_code_challenge_method link_data) "S256")
  then (Ok (Response_error "server_error"
              (Some "Unsupported code challenge method") None), context)
  else
  match truthy (request_data !! "code_verifier") with
  | None =>
      (Ok (Response_error "server_error" (Some "No code_verifier provided") None),
       context)
  | Some code_verifier =>
  match Pkce.validate_pkce (lc_code_challenge link_data)
          (lc_code_challenge_method link_data) code_verifier with
  | Raise e => (Raise e, context)
  | Ok false =>
      (Ok (Response_error "server_error" (Some "Invalid code challenge") None),
       context)
  | Ok true =>
  match _fetch_user_info self env request (lc_provider_code link_data) with
  | Raise (OAuth2Exception e d) => (Ok (Response_error e (Some d) None), context)
  | Raise e => (Raise e, context)
  | Ok (user_info, token_response) =>
  match user_info !! "id" with
  | None => (Raise KeyError, context)
  | Some provider_user_id =>
  match find_social_account (accounts_storage context) (id self)
          provider_user_id with
  | Some social_account =>
      if negb (String.eqb (sa_user_id social_account) (u_id user))
      then (Ok (Response_error "server_error"
                  (Some "Social account already exists") None), context)
      else
        match update_social_account (accounts_storage context)
                (sa_id social_account) token_response user_info with
        | (Raise e, accounts) => (Raise e, with_accounts context accounts)
        | (Ok _, accounts) =>
            (Ok (Response_new 200 link_finalized_body),
             with_accounts context accounts)
        end
  | None =>
      match create_social_account (accounts_storage context) (u_id user)
              (id self) provider_user_id token_response user_info with
      | (Raise e, accounts) => (Raise e, with_accounts context accounts)
      | (Ok _, accounts) =>
          (Ok (Response_new 200 link_finalized_body),
           with_accounts context accounts)
      end
  end end end end end end end end end end.

End Provider.

End OAuth.

(** ** [backend/app/utils.py] *)

Module Utils.
Import Py.

(** The settings the module reads. *)
Record Settings : Type := {
  SECRET_KEY : string;
  EMAIL_RESET_TOKEN_EXPIRE_HOURS : Z;
  EMAIL_VERIFICATION_TOKEN_EXPIRE_HOURS : Z;
  DEVICE_AUTH_TTL_MINUTES : Z
}.

(** [class TokenType(str, Enum)] *)
Inductive TokenType : Type := user | reset | email | update.

Definition TokenType_value (t : TokenType) : string :=
  match t with
  | user => "user"
  | reset => "reset"
  | email => "email"
  | update => "update"
  end.

(** The instants of the tokens are [datetime] values: numbers of
    microseconds since the epoch. [timegm] is
    [timegm(t.utctimetuple())], the whole second an instant lies in, and
    [int_seconds] is [int(x)] of a [float] number of seconds, which
    truncates towards zero; both are given as instants again. *)
Definition second : Z := 1000000.

Definition timegm (t : Z) : Z := (t / second * second)%Z.

Definition int_seconds (t : Z) : Z := (Z.quot t second * second)%Z.

(** The claims of a token: the payload given to [jwt.encode] and the
    dictionary returned by [jwt.decode]. The code gives [exp] as the
    [float] of [expires.timestamp()] and [nbf] as a [datetime]. *)
Record Claims : Type := {
  exp : Z;
  nbf : Z;
  sub : option string;
  old_email : option string
}.

(** The subclasses of [jwt.exceptions.InvalidTokenError] that
    [jwt.decode] raises. *)
Inductive InvalidTokenError : Type :=
| DecodeError
| InvalidSignatureError
| ExpiredSignatureError
| ImmatureSignatureError
| InvalidAlgorithmError.

(** [jwt.encode(payload, key, algorithm="HS256")] and
    [jwt.decode(token, key, algorithms=["HS256"])] at a given instant. *)
Class PyJWT : Type := {
  jwt_encode : Claims -> string -> string;
  jwt_decode : string -> string -> Z -> InvalidTokenError + Claims
}.

(** What [jwt.encode] writes into the token for a payload: a [datetime]
    claim becomes the number of its whole seconds. *)
Definition encoded_claims (payload : Claims) : Claims :=
  {| exp := exp payload;
     nbf := timegm (nbf payload);
     sub := sub payload;
     old_email := old_email payload |}.

(** The claims check of [jwt.decode] at the instant [now], without
    leeway: [ImmatureSignatureError] when [int(nbf) > now], then
    [ExpiredSignatureError] when [int(exp) <= now]. *)
Definition validate_claims (payload : Claims) (now : Z)
  : InvalidTokenError + Claims :=
  let decoded := encoded_claims payload in
  if (now <? int_seconds (nbf decoded))%Z then inl ImmatureSignatureError
  else if (int_seconds (exp decoded) <=? now)%Z then inl ExpiredSignatureError
  else inr decoded.

(** A token signed with a key decodes with the same key to its payload,
    subject to the claims check. *)
Definition decodes_own_tokens `{!PyJWT} : Prop :=
  forall payload key now,
    jwt_decode (jwt_encode payload key) key now = validate_claims payload now.


(** [s.split("-", maxsplit=1)] *)
Fixpoint split_dash_once (s : string) : list string :=
  match s with
  | EmptyString => [EmptyString]
  | String c rest =>
      if Ascii.eqb c "-"%char then [EmptyString; rest]
      else match split_dash_once rest with
           | [before; after] => [String c before; after]
           | _ => [s]
           end
  end.

(** A Redis database: each key holds a value and, when it was set with
    [ex], the instant at which it expires. *)
Record entry : Type := {
  value : string;
  expires : option Z
}.

Abbreviation Redis := (gmap string entry).

(** [redis.get(key)] at the instant [now]. *)
Definition redis_get (now : Z) (key : string) (redis : Redis) : option string :=
  match redis !! key with
  | Some e =>
      match expires e with
      | Some t => if (t <=? now)%Z then None else Some (value e)
      | None => Some (value e)
      end
  | None => None
  end.

(** [redis.set(key, value, ex=ex)] at the instant [now]. *)
Definition redis_set (now : Z) (key v : string) (ex : Z) (redis : Redis) : Redis :=
  <[key := {| value := v; expires := Some (now + ex)%Z |}]> redis.

(** [class DeviceAuthorizationData(BaseModel)] *)
Inductive Status : Type := pending | authorized.

Record DeviceAuthorizationData : Type := {
  device_code : string;
  client_id : string;
  created_at : Z;
  expires_at : Z;
  request_ip : option string;
  status : Status;
  access_token : option string
}.

Section Tokens_and_device_codes.

Context `{!PyJWT} `{!BaseModel DeviceAuthorizationData}.
Variable settings : Settings.

Definition generate_verification_email_token (now : Z) (email_ : string) : string :=
  let delta := (EMAIL_VERIFICATION_TOKEN_EXPIRE_HOURS settings * 3600 * second)%Z in
  let expires := (now + delta)%Z in
  jwt_encode
    {| exp := expires; nbf := now;
       sub := Some (TokenType_value email +:+ "-" +:+ email_);
       old_email := None |}
    (SECRET_KEY settings).

Definition generate_verification_update_email_token (now : Z)
    (email_ old_email_ : string) : string :=
  let delta := (EMAIL_VERIFICATION_TOKEN_EXPIRE_HOURS settings * 3600 * second)%Z in
  let expires := (now + delta)%Z in
  jwt_encode
    {| exp := expires; nbf := now;
       sub := Some (TokenType_value update +:+ "-" +:+ email_);
       old_email := Some old_email_ |}
    (SECRET_KEY settings).

Definition generate_password_reset_token (now : Z) (email_ : string) : string :=
  let delta := (EMAIL_RESET_TOKEN_EXPIRE_HOURS settings * 3600 * second)%Z in
  let expires := (now + delta)%Z in
  jwt_encode
    {| exp := expires; nbf := now;
       sub := Some (TokenType_value reset +:+ "-" +:+ email_);
       old_email := None |}
    (SECRET_KEY settings).

(** The three verifiers. [jwt.decode] runs at the instant [now]; an
    [InvalidTokenError] is caught and gives [None]; a payload without
    [sub] raises [KeyError]. *)
Definition verify_email_verification_token (now : Z) (token : string)
  : result (option string) :=
  match jwt_decode token (SECRET_KEY settings) now with
  | inl _ => Ok None
  | inr decoded_token =>
      match sub decoded_token with
      | None => Raise KeyError
      | Some s =>
          match split_dash_once s with
          | [kind; payload] =>
              if String.eqb kind (TokenType_value email)
              then Ok (Some payload) else Ok None
          | _ => Ok None
          end
      end
  end.

Definition verify_update_email_verification_token (now : Z) (token : string)
  : result (option (string * option string)) :=
  match jwt_decode token (SECRET_KEY settings) now with
  | inl _ => Ok None
  | inr decoded_token =>
      match sub decoded_token with
      | None => Raise KeyError
      | Some s =>
          match split_dash_once s with
          | [kind; payload] =>
              if String.eqb kind (TokenType_value update)
              then Ok (Some (payload, old_email decoded_token)) else Ok None
          | _ => Ok None
          end
      end
  end.

Definition verify_password_reset_token (now : Z) (token : string)
  : result (option string) :=
  match jwt_decode token (SECRET_KEY settings) now with
  | inl _ => Ok None
  | inr decoded_token =>
      match sub decoded_token with
      | None => Raise KeyError
      | Some s =>
          match split_dash_once s with
          | [kind; payload] =>
              if String.eqb kind (TokenType_value reset)
              then Ok (Some payload) else Ok None
          | _ => Ok None
          end
      end
  end.

(** [create_and_store_device_code]; [uuid4] is the device code drawn
    from [uuid.uuid4()]. The two [set] commands of the pipeline run in
    one transaction, at the same instant. *)
Definition create_and_store_device_code (now : Z) (uuid4 : string)
    (user_code client_id_ : string) (request_ip_ : option string)
    (redis : Redis) : string * Redis :=
  let device_code_ := uuid4 in
  let data :=
    {| device_code := device_code_;
       client_id := client_id_;
       created_at := now;
       expires_at := (now + DEVICE_AUTH_TTL_MINUTES settings * 60)%Z;
       request_ip := request_ip_;
       status := pending;
       access_token := None |} in
  let redis :=
    redis_set now ("auth:device:" +:+ device_code_) (model_dump_json data)
      (DEVICE_AUTH_TTL_MINUTES settings * 60)%Z redis in
  let redis :=
    redis_set now ("auth:user-code:" +:+ user_code) device_code_
      (DEVICE_AUTH_TTL_MINUTES settings * 60)%Z redis in
  (device_code_, redis).

Definition get_device_authorization_data (now : Z) (device_code_ : string)
    (redis : Redis) : result (option DeviceAuthorizationData) :=
  match truthy (redis_get now ("auth:device:" +:+ device_code_) redis) with
  | Some data =>
      match model_validate_json data with
      | Some d => Ok (Some d)
      | None => Raise ValidationError
      end
  | None => Ok None
  end.

Definition get_device_authorization_data_by_user_code (now : Z)
    (user_code : string) (redis : Redis)
  : result (option DeviceAuthorizationData) :=
  match truthy (redis_get now ("auth:user-code:" +:+ user_code) redis) with
  | Some device_code_ => get_device_authorization_data now device_code_ redis
  | None => Ok None
  end.

Definition authorize_device_code (now : Z) (device_code_ access_token_ : string)
    (redis : Redis) : result unit * Redis :=
  match get_device_authorization_data now device_code_ redis with
  | Raise e => (Raise e, redis)
  | Ok None => (Raise (ValueError "Device code not found"), redis)
  | Ok (Some data) =>
      let data :=
        {| device_code := device_code data;
           client_id := client_id data;
           created_at := created_at data;
           expires_at := expires_at data;
           request_ip := request_ip data;
           status := authorized;
           access_token := Some access_token_ |} in
      (Ok tt,
       redis_set now ("auth:device:" +:+ device_code_) (model_dump_json data)
         (DEVICE_AUTH_TTL_MINUTES settings * 60)%Z redis)
  end.

End Tokens_and_device_codes.

End Utils.

(** ** A reference wire format

    The serialisers of pydantic and PyJWT are parameters of the models
    above. This module gives one concrete, invertible choice for each of
    them, used to run the models on concrete inputs: a record is the list
    of its fields, and a list of strings is written with every field
    preceded by its length in unary. *)

Module Wire.
Import Py.

Fixpoint tally (n : nat) : string :=
  match n with
  | O => ":"
  | S n' => String "|"%char (tally n')
  end.

Fixpoint pack (fields : list string) : string :=
  match fields with
  | [] => ""
  | f :: rest => tally (String.length f) +:+ f +:+ pack rest
  end.

Fixpoint read_tally (s : string) : option (nat * string) :=
  match s with
  | EmptyString => None
  | String c rest =>
      if Ascii.eqb c ":"%char then Some (O, rest)
      else if Ascii.eqb c "|"%char then
        match read_tally rest with
        | Some (n, rest') => Some (S n, rest')
        | None => None
        end
      else None
  end.

Fixpoint take (n : nat) (s : string) : option (string * string) :=
  match n, s with
  | O, _ => Some (EmptyString, s)
  | S _, EmptyString => None
  | S n', String c rest =>
      match take n' rest with
      | Some (f, rest') => Some (String c f, rest')
      | None => None
      end
  end.

Fixpoint unpack_fuel (fuel : nat) (s : string) : option (list string) :=
  match s, fuel with
  | EmptyString, _ => Some []
  | _, O => None
  | _, S fuel' =>
      match read_tally s with
      | None => None
      | Some (n, rest) =>
          match take n rest with
          | None => None
          | Some (f, rest') =>
              match unpack_fuel fuel' rest' with
              | Some fields => Some (f :: fields)
              | None => None
              end
          end
      end
  end.

Definition unpack (s : string) : option (list string) :=
  unpack_fuel (String.length s) s.

Definition show_Z (z : Z) : string := NilEmpty.string_of_int (Z.to_int z).
Definition read_Z (s : string) : option Z :=
  option_map Z.of_int (NilEmpty.int_of_string s).

Definition show_option (o : option string) : list string :=
  match o with
  | Some s => ["some"; s]
  | None => ["none"; ""]
  end.

Definition read_option (tag s : string) : option (option string) :=
  if String.eqb tag "some" then Some (Some s)
  else if String.eqb tag "none" then Some None
  else None.

Definition show_option_Z (o : option Z) : list string :=
  show_option (option_map show_Z o).

Definition read_option_Z (tag s : string) : option (option Z) :=
  match read_option tag s with
  | Some (Some t) => option_map Some (read_Z t)
  | Some None => Some None
  | None => None
  end.

Definition show_bool (b : bool) : string := if b then "true" else "false".
Definition read_bool (s : string) : option bool :=
  if String.eqb s "true" then Some true
  else if String.eqb s "false" then Some false
  else None.

End Wire.

(** ** Reference instances of the serialisers *)

Module Reference.
Import Py Storage OAuth Utils Wire.

Definition dump_request_data (d : OAuth2AuthorizationRequestData) : string :=
  pack ([ar_redirect_uri d] ++ show_option (ar_login_hint d)
          ++ show_option (ar_client_state d)
          ++ [ar_state d; ar_code_challenge d; ar_code_challenge_method d;
              show_bool (ar_link d)])%list.

(** The field [code_challenge_method] is a [Literal["S256"]]: any other
    value fails validation. *)
Definition validate_request_data (s : string)
  : option OAuth2AuthorizationRequestData :=
  match unpack s with
  | Some [uri; t1; hint; t2; cstate; st; challenge; method; lnk] =>
      match read_option t1 hint, read_option t2 cstate, read_bool lnk with
      | Some hint', Some cstate', Some lnk' =>
          if String.eqb method "S256"
          then Some {| ar_redirect_uri := uri; ar_login_hint := hint';
                       ar_client_state := cstate'; ar_state := st;
                       ar_code_challenge := challenge;
                       ar_code_challenge_method := method; ar_link := lnk' |}
          else None
      | _, _, _ => None
      end
  | _ => None
  end.

#[export] Instance request_data_model : BaseModel OAuth2AuthorizationRequestData := {
  model_dump_json := dump_request_data;
  model_validate_json := validate_request_data
}.

Definition dump_link_data (d : OAuth2LinkCodeData) : string :=
  pack [show_Z (lc_expires_at d); lc_client_id d; lc_redirect_uri d;
        lc_code_challenge d; lc_code_challenge_method d; lc_provider_code d].

Definition validate_link_data (s : string) : option OAuth2LinkCodeData :=
  match unpack s with
  | Some [expires; client; uri; challenge; method; pcode] =>
      match read_Z expires with
      | Some t =>
          if String.eqb method "S256"
          then Some {| lc_expires_at := t; lc_client_id := client;
                       lc_redirect_uri := uri; lc_code_challenge := challenge;
                       lc_code_challenge_method := method;
                       lc_provider_code := pcode |}
          else None
      | None => None
      end
  | _ => None
  end.

#[export] Instance link_data_model : BaseModel OAuth2LinkCodeData := {
  model_dump_json := dump_link_data;
  model_validate_json := validate_link_data
}.

Definition dump_grant (d : AuthorizationCodeGrantData) : string :=
  pack [cg_user_id d; show_Z (cg_expires_at d); cg_client_id d;
        cg_redirect_uri d; cg_code_challenge d; cg_code_challenge_method d].

Definition validate_grant (s : string) : option AuthorizationCodeGrantData :=
  match unpack s with
  | Some [uid; expires; client; uri; challenge; method] =>
      match read_Z expires with
      | Some t =>
          if String.eqb method "S256"
          then Some {| cg_user_id := uid; cg_expires_at := t;
                       cg_client_id := client; cg_redirect_uri := uri;
                       cg_code_challenge := challenge;
                       cg_code_challenge_method := method |}
          else None
      | None => None
      end
  | _ => None
  end.

#[export] Instance grant_model : BaseModel AuthorizationCodeGrantData := {
  model_dump_json := dump_grant;
  model_validate_json := validate_grant
}.

Definition dump_token_endpoint_response (r : OAuth2TokenEndpointResponse) : string :=
  match r with
  | TokenResponse_root t =>
      pack (["token"; tr_access_token t] ++ show_option (tr_refresh_token t)
              ++ show_option_Z (tr_access_token_expires_at t)
              ++ show_option_Z (tr_refresh_token_expires_at t)
              ++ show_option (tr_scope t))%list
  | TokenErrorResponse_root e => pack ["error"; e]
  end.

Definition validate_token_endpoint_response (s : string)
  : option OAuth2TokenEndpointResponse :=
  match unpack s with
  | Some [tag; e] =>
      if String.eqb tag "error" then Some (TokenErrorResponse_root e) else None
  | Some [tag; tok; t1; refresh; t2; texp; t3; rexp; t4; sc] =>
      match read_option t1 refresh, read_option_Z t2 texp,
            read_option_Z t3 rexp, read_option t4 sc with
      | Some refresh', Some texp', Some rexp', Some sc' =>
          if String.eqb tag "token"
          then Some (TokenResponse_root
                       {| tr_access_token := tok; tr_refresh_token := refresh';
                          tr_access_token_expires_at := texp';
                          tr_refresh_token_expires_at := rexp';
                          tr_scope := sc' |})
          else None
      | _, _, _, _ => None
      end
  | _ => None
  end.

#[export] Instance token_endpoint_response_model
  : BaseModel OAuth2TokenEndpointResponse := {
  model_dump_json := dump_token_endpoint_response;
  model_validate_json := validate_token_endpoint_response
}.

Definition show_status (s : Status) : string :=
  match s with
  | pending => "pending"
  | authorized => "authorized"
  end.

Definition read_status (s : string) : option Status :=
  if String.eqb s "pending" then Some pending
  else if String.eqb s "authorized" then Some authorized
  else None.

Definition dump_device_data (d : DeviceAuthorizationData) : string :=
  pack ([device_code d; Utils.client_id d; show_Z (created_at d);
         show_Z (expires_at d)]
          ++ show_option (request_ip d)
          ++ [show_status (status d)]
          ++ show_option (access_token d))%list.

Definition validate_device_data (s : string) : option DeviceAuthorizationData :=
  match unpack s with
  | Some [dc; client; created; expires_; t1; ip; st; t2; tok] =>
      match read_Z created, read_Z expires_, read_option t1 ip,
            read_status st, read_option t2 tok with
      | Some created', Some expires', Some ip', Some st', Some tok' =>
          Some {| device_code := dc; Utils.client_id := client;
                  created_at := created'; expires_at := expires';
                  request_ip := ip'; status := st'; access_token := tok' |}
      | _, _, _, _, _ => None
      end
  | _ => None
  end.

#[export] Instance device_data_model : BaseModel DeviceAuthorizationData := {
  model_dump_json := dump_device_data;
  model_validate_json := validate_device_data
}.

(** A token is its payload together with the key that signed it. It is
    well formed when it is what [reference_jwt_encode] writes for the
    payload and the key read from it, and a token presented with another
    key fails the signature check. *)
Definition reference_jwt_encode (payload : Claims) (key : string) : string :=
  pack ([key; show_Z (exp payload); show_Z (nbf payload)]
          ++ show_option (sub payload) ++ show_option (old_email payload))%list.

Definition reference_jwt_decode (token key : string) (now : Z)
  : InvalidTokenError + Claims :=
  match unpack token with
  | Some [k; e; n; t1; s; t2; o] =>
      match read_Z e, read_Z n, read_option t1 s, read_option t2 o with
      | Some e', Some n', Some s', Some o' =>
          let payload := {| exp := e'; nbf := n'; sub := s'; old_email := o' |} in
          if negb (String.eqb token (reference_jwt_encode payload k))
          then inl DecodeError
          else if String.eqb k key then validate_claims payload now
          else inl InvalidSignatureError
      | _, _, _, _ => inl DecodeError
      end
  | _ => inl DecodeError
  end.

#[export] Instance reference_jwt : PyJWT := {
  jwt_encode := reference_jwt_encode;
  jwt_decode := reference_jwt_decode
}.

End Reference.

(** * Properties *)

(** ** The wire format reads back what it writes *)

Module WireFacts.
Import Py Wire.

Lemma read_tally_tally (n : nat) (rest : string) :
  read_tally (tally n +:+ rest) = Some (n, rest).
Proof.
  induction n as [|n IH]; simpl; [reflexivity|].
  now rewrite IH.
Qed.

Lemma take_append (f rest : string) :
  take (String.length f) (f +:+ rest) = Some (f, rest).
Proof.
  induction f as [|c f IH]; simpl.
  - now destruct rest.
  - now rewrite IH.
Qed.

Lemma tally_nonempty (n : nat) (rest : string) :
  exists c r, tally n +:+ rest = String c r.
Proof. destruct n; simpl; eauto. Qed.

Lemma pack_cons_nonempty (f : string) (rest : list string) :
  pack (f :: rest) <> "".
Proof.
  cbn [pack].
  destruct (tally_nonempty (String.length f) (f +:+ pack rest)) as (c & r & E).
  rewrite E. discriminate.
Qed.

Lemma unpack_fuel_pack (fields : list string) :
  forall fuel, (length fields <= fuel)%nat ->
    unpack_fuel fuel (pack fields) = Some fields.
Proof.
  induction fields as [|f fields IH]; intros fuel Hfuel.
  - now destruct fuel.
  - destruct fuel as [|fuel]; [simpl in Hfuel; lia|].
    cbn [pack].
    destruct (tally_nonempty (String.length f) (f +:+ pack fields)) as (c & r & E).
    cbn [unpack_fuel]. rewrite E. rewrite <- E.
    rewrite read_tally_tally, take_append, IH by (simpl in Hfuel; lia).
    reflexivity.
Qed.

Lemma length_append (a b : string) :
  String.length (a +:+ b) = (String.length a + String.length b)%nat.
Proof. induction a as [|c a IH]; simpl; [reflexivity|now rewrite IH]. Qed.

Lemma length_pack (fields : list string) :
  (length fields <= String.length (pack fields))%nat.
Proof.
  induction fields as [|f fields IH]; simpl; [lia|].
  rewrite !length_append.
  assert (1 <= String.length (tally (String.length f)))%nat
    by (destruct (String.length f); simpl; lia).
  lia.
Qed.

Lemma unpack_pack (fields : list string) : unpack (pack fields) = Some fields.
Proof. apply unpack_fuel_pack, length_pack. Qed.

Lemma read_show_Z (z : Z) : read_Z (show_Z z) = Some z.
Proof.
  unfold read_Z, show_Z. rewrite NilEmpty.isi. simpl.
  now rewrite DecimalZ.of_to.
Qed.

Lemma read_show_option (o : option string) :
  match show_option o with
  | [tag; s] => read_option tag s = Some o
  | _ => False
  end.
Proof. destruct o; reflexivity. Qed.

End WireFacts.

(** ** The reference instances satisfy the contracts of the libraries *)

Module ReferenceFacts.
Import Py Utils Wire WireFacts Reference.

Lemma device_data_round_trips : round_trips DeviceAuthorizationData.
Proof.
  intros [dc cl cr ex ip st tok].
  unfold model_validate_json, model_dump_json, device_data_model.
  unfold validate_device_data, dump_device_data. rewrite unpack_pack.
  destruct ip, tok, st; cbn; rewrite !read_show_Z; reflexivity.
Qed.

Lemma device_data_dumps_nonempty : dumps_nonempty DeviceAuthorizationData.
Proof. intros d. exact (pack_cons_nonempty _ _). Qed.

Lemma reference_jwt_decodes_own_tokens : decodes_own_tokens.
Proof.
  intros [e n s o] key now.
  unfold jwt_decode, jwt_encode, reference_jwt.
  unfold reference_jwt_decode. unfold reference_jwt_encode at 1.
  rewrite unpack_pack.
  destruct s, o; cbn [show_option app exp nbf sub old_email read_option
                        String.eqb Ascii.eqb Bool.eqb];
    rewrite !read_show_Z; cbv zeta;
    rewrite !String.eqb_refl; reflexivity.
Qed.


End ReferenceFacts.

(** ** Device authorization records ([backend/app/utils.py]) *)

Module DeviceFacts.
Import Py Utils.

(** The record that [authorize_device_code] writes back. *)
Definition authorized_with (token : string) (d : DeviceAuthorizationData)
  : DeviceAuthorizationData :=
  {| device_code := device_code d;
     client_id := client_id d;
     created_at := created_at d;
     expires_at := expires_at d;
     request_ip := request_ip d;
     status := authorized;
     access_token := Some token |}.

Lemma truthy_nonempty (s : string) : s <> "" -> truthy (Some s) = Some s.
Proof.
  intros Hs. unfold truthy.
  destruct (String.eqb s "") eqn:E; [|reflexivity].
  apply String.eqb_eq in E. contradiction.
Qed.

Lemma redis_get_set (t now ex : Z) (key v : string) (redis : gmap string entry) :
  t <= now < t + ex ->
  redis_get now key (redis_set t key v ex redis) = Some v.
Proof.
  intros Hnow. unfold redis_get, redis_set.
  rewrite lookup_insert_eq. cbn.
  destruct (t + ex <=? now) eqn:E; [|reflexivity].
  apply Z.leb_le in E. lia.
Qed.

Lemma redis_get_set_other (t now ex : Z) (key key' v : string)
    (redis : gmap string entry) :
  key <> key' ->
  redis_get now key' (redis_set t key v ex redis) = redis_get now key' redis.
Proof.
  intros Hne. unfold redis_get, redis_set. now rewrite lookup_insert_ne.
Qed.

Section Device.

Context `{!BaseModel DeviceAuthorizationData}.
Variable settings : Settings.
Hypothesis validate_dump : round_trips DeviceAuthorizationData.
Hypothesis dump_nonempty : dumps_nonempty DeviceAuthorizationData.

Let ttl : Z := DEVICE_AUTH_TTL_MINUTES settings * 60.

(** Looking up a record that was just written, before its key expires. *)
Lemma get_after_set (t now : Z) (code : string) (d : DeviceAuthorizationData)
    (redis : gmap string entry) :
  t <= now < t + ttl ->
  get_device_authorization_data now code
    (redis_set t ("auth:device:" +:+ code) (model_dump_json d) ttl redis)
  = Ok (Some d).
Proof.
  intros Hnow. unfold get_device_authorization_data.
  rewrite redis_get_set by exact Hnow.
  rewrite truthy_nonempty by apply dump_nonempty.
  now rewrite validate_dump.
Qed.

(** [authorize_device_code] on a record that is found: it returns, and
    until the fresh key expires every lookup finds the record with the
    status [authorized] and the new token, its other fields as they were. *)
Lemma authorize_found (t : Z) (code token : string)
    (d : DeviceAuthorizationData) (redis : gmap string entry) :
  get_device_authorization_data t code redis = Ok (Some d) ->
  fst (authorize_device_code settings t code token redis) = Ok tt /\
  snd (authorize_device_code settings t code token redis)
  = redis_set t ("auth:device:" +:+ code)
      (model_dump_json (authorized_with token d)) ttl redis /\
  forall now, t <= now < t + ttl ->
    get_device_authorization_data now code
      (snd (authorize_device_code settings t code token redis))
    = Ok (Some (authorized_with token d)).
Proof.
  intros Hget. unfold authorize_device_code. rewrite Hget. cbn [fst snd].
  repeat split. intros now Hnow. now apply get_after_set.
Qed.


(** C10. After [authorize_device_code] has succeeded at the instant [t],
    the key of the record expires a full TTL after [t], while the field
    [expires_at] of the record is the one it had: a lookup made after
    [expires_at] and before the key expires returns a record with the
    status [authorized] whose [expires_at] is earlier than the instant of
    the lookup. There is such an instant as soon as the fresh TTL ends
    more than a second after [expires_at]: for a record created with the
    same TTL, as soon as it is authorized more than a second after its
    creation. *)
Theorem authorize_device_code_keeps_expires_at
    (t : Z) (code token : string)
    (d : DeviceAuthorizationData) (redis : gmap string entry) :
  get_device_authorization_data t code redis = Ok (Some d) ->
  let redis' := snd (authorize_device_code settings t code token redis) in
  let stale now :=
    exists d',
      get_device_authorization_data now code redis' = Ok (Some d') /\
      status d' = authorized /\
      access_token d' = Some token /\
      expires_at d' = expires_at d /\
      expires_at d' < now in
  fst (authorize_device_code settings t code token redis) = Ok tt /\
  redis' !! ("auth:device:" +:+ code)
  = Some {| value := model_dump_json (authorized_with token d);
            expires := Some (t + DEVICE_AUTH_TTL_MINUTES settings * 60) |} /\
  (forall now,
     t <= now < t + DEVICE_AUTH_TTL_MINUTES settings * 60 ->
     expires_at d < now ->
     stale now) /\
  (0 < DEVICE_AUTH_TTL_MINUTES settings ->
   expires_at d + 1 < t + DEVICE_AUTH_TTL_MINUTES settings * 60 ->
   exists now, stale now).
Proof.
  intros Hget. cbv zeta.
  destruct (authorize_found t code token d redis Hget) as (Hok & Hset & Hlookup).
  assert (Hstale : forall now,
             t <= now < t + DEVICE_AUTH_TTL_MINUTES settings * 60 ->
             expires_at d < now ->
             exists d',
               get_device_authorization_data now code
                 (snd (authorize_device_code settings t code token redis))
               = Ok (Some d') /\
               status d' = authorized /\
               access_token d' = Some token /\
               expires_at d' = expires_at d /\
               expires_at d' < now).
  { intros now Hnow Hlate. exists (authorized_with token d).
    rewrite (Hlookup now Hnow). repeat split. exact Hlate. }
  split; [exact Hok|]. split; [|split].
  - rewrite Hset. unfold redis_set. now rewrite lookup_insert_eq.
  - exact Hstale.
  - intros Httl Hlate. exists (Z.max t (expires_at d + 1)).
    apply Hstale; lia.
Qed.

End Device.

Import Reference.

(** A concrete run: the settings, the store after a device code has been
    created at the instant 0, and the store after it has been authorized
    with a first token at the instant 60. *)
Definition example_settings : Settings :=
  {| SECRET_KEY := "secret";
     EMAIL_RESET_TOKEN_EXPIRE_HOURS := 48;
     EMAIL_VERIFICATION_TOKEN_EXPIRE_HOURS := 48;
     DEVICE_AUTH_TTL_MINUTES := 10 |}.

Definition example_created : gmap string entry :=
  snd (create_and_store_device_code example_settings 0 "dc" "uc" "cli"
         (Some "1.2.3.4") ∅).

Definition example_authorized : gmap string entry :=
  snd (authorize_device_code example_settings 60 "dc" "tok-1" example_created).

Definition example_record (s : Status) (token : option string)
  : DeviceAuthorizationData :=
  {| device_code := "dc"; client_id := "cli"; created_at := 0;
     expires_at := 600; request_ip := Some "1.2.3.4";
     status := s; access_token := token |}.



Lemma authorize_device_code_keeps_expires_at_witness :
  exists d',
    get_device_authorization_data 700 "dc"
      (snd (authorize_device_code example_settings 300 "dc" "tok-1"
              example_created))
    = Ok (Some d') /\
    status d' = authorized /\
    access_token d' = Some "tok-1" /\
    expires_at d' = 600 /\
    expires_at d' < 700.
Proof.
  destruct (authorize_device_code_keeps_expires_at example_settings
              ReferenceFacts.device_data_round_trips
              ReferenceFacts.device_data_dumps_nonempty
              300 "dc" "tok-1" (example_record pending None) example_created)
    as (_ & _ & Hlate & _).
  - vm_compute. reflexivity.
  - apply (Hlate 700).
    + cbn. lia.
    + cbn. lia.
Defined.

(** The example of the spec: the two lookups agree, before and after
    the authorization. *)
Example lookups_agree :
  get_device_authorization_data_by_user_code 30 "uc" example_created
  = get_device_authorization_data 30 "dc" example_created /\
  get_device_authorization_data_by_user_code 90 "uc" example_authorized
  = Ok (Some (example_record authorized (Some "tok-1"))) /\
  get_device_authorization_data_by_user_code 601 "uc" example_authorized
  = Ok None.
Proof. vm_compute. repeat split. Qed.

End DeviceFacts.

(** ** Signed tokens ([backend/app/utils.py]) *)

Module TokenFacts.
Import Py Utils.

Lemma split_kind_payload (kind : TokenType) (payload : string) :
  split_dash_once (TokenType_value kind +:+ "-" +:+ payload)
  = [TokenType_value kind; payload].
Proof. destruct kind; reflexivity. Qed.

Lemma int_seconds_timegm (t : Z) : int_seconds (timegm t) = timegm t.
Proof.
  unfold int_seconds, timegm, second. now rewrite Z.quot_mul by lia.
Qed.




Section Tokens.

Context `{!PyJWT}.
Variable settings : Settings.

(** The lifetimes of the two kinds of token, in microseconds. *)
Definition reset_lifetime : Z :=
  EMAIL_RESET_TOKEN_EXPIRE_HOURS settings * 3600 * second.

Definition verification_lifetime : Z :=
  EMAIL_VERIFICATION_TOKEN_EXPIRE_HOURS settings * 3600 * second.




End Tokens.

Import Reference.



End TokenFacts.

(** ** The handlers of [OAuth2Provider] *)

Module OAuthFacts.
Import Py Storage OAuth.

Section Handlers.

Context {S : Type} `{!AccountsStorage S}.
Context `{!BaseModel OAuth2AuthorizationRequestData}
        `{!BaseModel OAuth2LinkCodeData}
        `{!BaseModel AuthorizationCodeGrantData}
        `{!BaseModel OAuth2TokenEndpointResponse}.
Variable validate_http_url : string -> option string.
Variable json_loads : string -> option (gmap string string).

(** C2. [authorize] answers a missing, malformed or untrusted
    [redirect_uri] with a bare error. Once the [redirect_uri] has been
    validated, a missing or unsupported [response_type], a missing
    [code_challenge] and a [code_challenge_method] other than [S256] are
    answered with a redirect to the validated URI that carries [error]
    and [error_description]. An error is never redirected to anything
    but the validated, trusted URI. *)
Theorem authorize_error_shapes (self : OAuth2Provider) (env : Env)
    (request : AsyncHTTPRequest) (context : Context S) :
  let response := fst (authorize validate_http_url self env request context) in
  (truthy (query_params request !! "redirect_uri") = None ->
   response = Ok (Response_error "invalid_request" None None)) /\
  (forall uri,
     truthy (query_params request !! "redirect_uri") = Some uri ->
     validate_http_url uri = None ->
     response = Ok (Response_error "invalid_redirect_uri" None None)) /\
  (forall uri validated,
     truthy (query_params request !! "redirect_uri") = Some uri ->
     validate_http_url uri = Some validated ->
     is_valid_redirect_uri context validated = false ->
     response = Ok (Response_error "invalid_redirect_uri" None None)) /\
  (forall uri validated,
     truthy (query_params request !! "redirect_uri") = Some uri ->
     validate_http_url uri = Some validated ->
     is_valid_redirect_uri context validated = true ->
     (truthy (query_params request !! "response_type") = None
      \/ (exists response_type,
            truthy (query_params request !! "response_type") = Some response_type
            /\ response_type <> "code" /\ response_type <> "link_code")
      \/ truthy (query_params request !! "code_challenge") = None
      \/ query_params request !! "code_challenge_method" <> Some "S256") ->
     exists error_description,
       response
       = Ok (Response_error_redirect validated "invalid_request" error_description)) /\
  (forall target error error_description,
     response = Ok (Response_error_redirect target error error_description) ->
     exists uri,
       truthy (query_params request !! "redirect_uri") = Some uri /\
       validate_http_url uri = Some target /\
       is_valid_redirect_uri context target = true).
Proof.
  cbv zeta. unfold authorize.
  split; [|split; [|split; [|split]]].
  - intros ->. reflexivity.
  - intros uri -> ->. reflexivity.
  - intros uri validated -> -> ->. reflexivity.
  - intros uri validated -> -> -> Hbad. cbn [negb].
    destruct (truthy (query_params request !! "response_type"))
      as [response_type|] eqn:Htype; [|eauto].
    destruct (existsb (String.eqb response_type) ["code"; "link_code"])
      eqn:Hsupported; cbn [negb]; [|eauto].
    destruct (truthy (query_params request !! "code_challenge"))
      as [challenge|] eqn:Hchallenge; [|eauto].
    destruct (bool_decide (query_params request !! "code_challenge_method"
                           = Some "S256")) eqn:Hmethod; cbn [negb]; [|eauto].
    exfalso. apply bool_decide_eq_true in Hmethod.
    destruct Hbad as [Hbad | [(rt & Hrt & Hne1 & Hne2) | [Hbad | Hbad]]];
      try congruence.
    injection Hrt as <-. cbn in Hsupported.
    apply orb_true_iff in Hsupported as [E | E];
      [|apply orb_true_iff in E as [E | E]]; try discriminate;
      apply String.eqb_eq in E; congruence.
  - intros target error description.
    repeat case_match; cbn [fst]; intros Hresponse; try discriminate;
      simplify_eq; eexists; repeat split; try eassumption;
      match goal with H : negb _ = false |- _ => now apply negb_false_iff in H end.
Qed.

(** C5. [callback] answers with a bare server error when the [state]
    parameter is missing, when nothing is stored under it and when what
    is stored does not validate: none of these responses is a redirect.
    When the stored request has been loaded and the [code] parameter is
    missing, the error is a redirect to the stored [redirect_uri] that
    carries [error] and [error_description]. *)
Theorem callback_state_errors (self : OAuth2Provider) (env : Env)
    (request : AsyncHTTPRequest) (context : Context S) :
  let outcome := callback self env request context in
  let stored state :=
    truthy (storage_get ("oauth:authorization_request:" +:+ state)
              (secondary_storage context)) in
  (truthy (query_params request !! "state") = None ->
   outcome
   = (Ok (Response_error "server_error" (Some "No state found in request") None),
      context)) /\
  (forall state,
     truthy (query_params request !! "state") = Some state ->
     stored state = None ->
     outcome
     = (Ok (Response_error "server_error" (Some "Provider data not found") None),
        context)) /\
  (forall state raw,
     truthy (query_params request !! "state") = Some state ->
     stored state = Some raw ->
     model_validate_json (A := OAuth2AuthorizationRequestData) raw = None ->
     outcome
     = (Ok (Response_error "server_error" (Some "Invalid provider data") None),
        context)) /\
  ((truthy (query_params request !! "state") = None
    \/ (exists state,
          truthy (query_params request !! "state") = Some state /\
          (stored state = None
           \/ exists raw,
                stored state = Some raw /\
                model_validate_json (A := OAuth2AuthorizationRequestData) raw
                = None))) ->
   exists response,
     fst outcome = Ok response /\ redirect_target response = None) /\
  (forall state raw provider_data,
     truthy (query_params request !! "state") = Some state ->
     stored state = Some raw ->
     model_validate_json raw = Some provider_data ->
     truthy (query_params request !! "code") = None ->
     outcome
     = (Ok (Response_error_redirect (ar_redirect_uri provider_data) "server_error"
              "No authorization code received in callback"),
        context)).
Proof.
  cbv zeta. unfold callback.
  split; [|split; [|split; [|split]]].
  - intros ->. reflexivity.
  - intros state -> ->. reflexivity.
  - intros state raw -> -> ->. reflexivity.
  - intros [-> | (state & -> & [-> | (raw & -> & ->)])];
      eexists; split; reflexivity.
  - intros state raw provider_data -> -> -> ->. reflexivity.
Qed.

(** A callback of the login flow (not the link flow) that has loaded the
    stored request, received an upstream [code] and obtained from the
    provider the user info with the e-mail address [email] and the
    subject [provider_user_id]. *)
Definition login_callback_resolves (self : OAuth2Provider) (env : Env)
    (request : AsyncHTTPRequest) (context : Context S)
    (provider_data : OAuth2AuthorizationRequestData)
    (user_info : UserInfo) (token_response : TokenResponse)
    (email provider_user_id : string) : Prop :=
  exists state raw code,
    truthy (query_params request !! "state") = Some state /\
    truthy (storage_get ("oauth:authorization_request:" +:+ state)
              (secondary_storage context)) = Some raw /\
    model_validate_json raw = Some provider_data /\
    truthy (query_params request !! "code") = Some code /\
    ar_link provider_data = false /\
    _fetch_user_info self env request code = Ok (user_info, token_response) /\
    user_info !! "email" = Some email /\
    user_info !! "id" = Some provider_user_id.

(** C6. A login callback that finds no social account for the upstream
    identity but a user with the upstream e-mail address answers with a
    redirect to the stored [redirect_uri] that carries the error
    [account_exists]; the account store and the secondary storage are
    what they were: no user, social account or grant has been created. *)
Theorem callback_account_exists (self : OAuth2Provider) (env : Env)
    (request : AsyncHTTPRequest) (context : Context S)
    (provider_data : OAuth2AuthorizationRequestData)
    (user_info : UserInfo) (token_response : TokenResponse)
    (email provider_user_id : string) (existing : User) :
  login_callback_resolves self env request context provider_data
    user_info token_response email provider_user_id ->
  find_social_account (accounts_storage context) (id self) provider_user_id = None ->
  find_user_by_email (accounts_storage context) email = Some existing ->
  callback self env request context
  = (Ok (Response_error_redirect (ar_redirect_uri provider_data) "account_exists"
           "An account with this email already exists."),
     context).
Proof.
  intros (state & raw & code & Hs & Hr & Hv & Hc & Hl & Hf & He & Hi) Hnone Huser.
  unfold callback.
  now rewrite Hs, Hr, Hv, Hc, Hl, Hf, He, Hi, Hnone, Huser.
Qed.

(** C9. A login callback that finds a social account for the upstream
    identity whose owner is not in the account store does not answer with
    an error response: after the token fields of the account have been
    updated, building the grant reads the [id] of the absent user and the
    handler raises [AttributeError]. No grant is stored. *)
Theorem callback_dangling_social_account (self : OAuth2Provider) (env : Env)
    (request : AsyncHTTPRequest) (context : Context S)
    (provider_data : OAuth2AuthorizationRequestData)
    (user_info : UserInfo) (token_response : TokenResponse)
    (email provider_user_id : string)
    (social_account updated : SocialAccount) (accounts : S) :
  login_callback_resolves self env request context provider_data
    user_info token_response email provider_user_id ->
  find_social_account (accounts_storage context) (id self) provider_user_id
  = Some social_account ->
  update_social_account (accounts_storage context) (sa_id social_account)
    token_response user_info = (Ok updated, accounts) ->
  find_user_by_id accounts (sa_user_id social_account) = None ->
  callback self env request context
  = (Raise AttributeError, with_accounts context accounts).
Proof.
  intros (state & raw & code & Hs & Hr & Hv & Hc & Hl & Hf & He & Hi)
    Hfound Hupdate Howner.
  unfold callback.
  rewrite Hs, Hr, Hv, Hc, Hl, Hf, He, Hi, Hfound, Hupdate, Howner.
  reflexivity.
Qed.

End Handlers.

End OAuthFacts.

(** ** A concrete deployment

    The provider, the context and the requests of the tests
    ([tests/conftest.py], [tests/providers/test_oauth_authorize.py]),
    with the reference serialisers and the in-memory account store. *)

Module Example.
Import Py Storage Memory OAuth Wire Reference.

Definition example_uuid4 (n : nat) : string :=
  "social-account-" +:+ show_Z (Z.of_nat n).

Definition example_pwd_hash (password : string) : string :=
  "bcrypt:" +:+ password.

#[export] Instance example_accounts_storage : AccountsStorage MemoryAccountsStorage :=
  memory_accounts example_uuid4 example_pwd_hash.

Definition example_validate_http_url (uri : string) : option string :=
  if String.prefix "http://" uri || String.prefix "https://" uri
  then Some uri else None.

Fixpoint members (fields : list string) : option (list (string * string)) :=
  match fields with
  | [] => Some []
  | key :: v :: rest => option_map (cons (key, v)) (members rest)
  | _ => None
  end.

Definition example_json_loads (text : string) : option (gmap string string) :=
  match unpack text with
  | Some fields => option_map list_to_map (members fields)
  | None => None
  end.

Definition test_user : User :=
  {| u_id := "test"; u_email := "test@example.com";
     u_hashed_password := example_pwd_hash "password123";
     u_social_accounts := [] |}.

(** [MemoryAccountsStorage.__init__] *)
Definition initial_accounts : MemoryAccountsStorage :=
  {| data := [("test", test_user)]; drawn := O |}.

Definition example_context (accounts : MemoryAccountsStorage)
  : Context MemoryAccountsStorage :=
  {| secondary_storage := ∅;
     accounts_storage := accounts;
     is_valid_redirect_uri :=
       fun uri => String.prefix "http://valid-frontend.com/" uri;
     get_user_from_request :=
       fun request =>
         if bool_decide (headers request !! "Authorization" = Some "Bearer test")
         then Some test_user else None |}.

Definition example_provider : OAuth2Provider :=
  {| id := "test";
     authorization_endpoint := "https://example.com/authorize";
     token_endpoint := "https://example.com/token";
     user_info_endpoint := "https://example.com/userinfo";
     scopes := Some ["openid"; "email"; "profile"];
     supports_pkce := Some true;
     client_id := "test_client_id";
     client_secret := "test_client_secret" |}.

Definition example_token_response : TokenResponse :=
  {| tr_access_token := "upstream-access-token";
     tr_refresh_token := None;
     tr_access_token_expires_at := Some 4600;
     tr_refresh_token_expires_at := None;
     tr_scope := Some "openid email profile" |}.

(** An upstream provider that accepts every code, and answers with the
    user [provider-user-1] whose e-mail address is [email]. *)
Definition example_env (instant : Z) (email : string) : Env :=
  {| now := instant;
     token_hex := "00112233445566778899aabbccddeeff";
     uuid4 := "7d444840-9dc0-11d1-b245-5ffdce74fad2";
     send_token_request :=
       fun _ _ =>
         Some {| http_status_code := 200;
                 http_text :=
                   model_dump_json (TokenResponse_root example_token_response) |};
     http_get_json :=
       fun _ _ =>
         Some (Json_object {[ "email" := email; "id" := "provider-user-1" ]}) |}.

Definition authorize_request (params : gmap string string) : AsyncHTTPRequest :=
  {| query_params := params;
     url := "http://localhost:8000/test/authorize";
     headers := ∅;
     body := "" |}.

Definition good_authorize_params : gmap string string :=
  {[ "redirect_uri" := "http://valid-frontend.com/callback";
     "response_type" := "code";
     "code_challenge" := "n4bQgYhMfWWaL-qgxVrQFaO_TxsrC4Is0V1sFbDwCgg";
     "code_challenge_method" := "S256" ]}.

Definition callback_request (params : gmap string string) : AsyncHTTPRequest :=
  {| query_params := params;
     url := "http://localhost:8000/test/callback";
     headers := ∅;
     body := "" |}.

Definition good_callback_params : gmap string string :=
  {[ "state" := "00112233445566778899aabbccddeeff";
     "code" := "upstream-code" ]}.

(** The context after a successful [authorize]. *)
Definition after_authorize (accounts : MemoryAccountsStorage)
  : Context MemoryAccountsStorage :=
  snd (authorize example_validate_http_url example_provider
         (example_env 1000 "test@example.com")
         (authorize_request good_authorize_params)
         (example_context accounts)).

(** An account store in which a social account names an owner that is
    not there. *)
Definition dangling_account : SocialAccount :=
  {| sa_id := "social-account-0"; sa_user_id := "ghost";
     sa_provider_user_id := "provider-user-1"; sa_provider := "test";
     sa_access_token := None; sa_refresh_token := None;
     sa_access_token_expires_at := None; sa_refresh_token_expires_at := None;
     sa_scope := None |}.

Definition dangling_accounts : MemoryAccountsStorage :=
  {| data :=
       [("test",
         {| u_id := "test"; u_email := "test@example.com";
            u_hashed_password := example_pwd_hash "password123";
            u_social_accounts := [dangling_account] |})];
     drawn := 1%nat |}.

Example authorize_then_callback_creates_user :
  fst (callback example_provider (example_env 1010 "new@example.com")
         (callback_request good_callback_params) (after_authorize initial_accounts))
  = Ok (Response_redirect "http://valid-frontend.com/callback"
          [("code", "7d444840-9dc0-11d1-b245-5ffdce74fad2")]).
Proof. vm_compute. reflexivity. Qed.

End Example.

(** ** The handlers on the concrete deployment *)

Module OAuthWitnesses.
Import Py Storage Memory OAuth Wire Reference Example.

(** [authorize] with an unsupported [response_type]. *)
Lemma authorize_error_shapes_witness :
  exists error_description,
    fst (authorize example_validate_http_url example_provider
           (example_env 1000 "test@example.com")
           (authorize_request
              {[ "redirect_uri" := "http://valid-frontend.com/callback";
                 "response_type" := "token" ]})
           (example_context initial_accounts))
    = Ok (Response_error_redirect "http://valid-frontend.com/callback"
            "invalid_request" error_description).
Proof.
  destruct (OAuthFacts.authorize_error_shapes example_validate_http_url
              example_provider (example_env 1000 "test@example.com")
              (authorize_request
                 {[ "redirect_uri" := "http://valid-frontend.com/callback";
                    "response_type" := "token" ]})
              (example_context initial_accounts))
    as (_ & _ & _ & Hredirect & _).
  apply (Hredirect "http://valid-frontend.com/callback").
  - vm_compute. reflexivity.
  - vm_compute. reflexivity.
  - vm_compute. reflexivity.
  - right. left. exists "token".
    split; [vm_compute; reflexivity|]. split; discriminate.
Defined.

(** [callback] with a [state] under which nothing is stored. *)
Lemma callback_state_errors_witness :
  callback example_provider (example_env 1010 "test@example.com")
    (callback_request {[ "state" := "unknown"; "code" := "upstream-code" ]})
    (after_authorize initial_accounts)
  = (Ok (Response_error "server_error" (Some "Provider data not found") None),
     after_authorize initial_accounts).
Proof.
  destruct (OAuthFacts.callback_state_errors example_provider
              (example_env 1010 "test@example.com")
              (callback_request {[ "state" := "unknown"; "code" := "upstream-code" ]})
              (after_authorize initial_accounts))
    as (_ & Hmissing & _).
  apply (Hmissing "unknown").
  - vm_compute. reflexivity.
  - vm_compute. reflexivity.
Defined.

Definition stored_request : OAuth2AuthorizationRequestData :=
  {| ar_redirect_uri := "http://valid-frontend.com/callback";
     ar_login_hint := None;
     ar_client_state := None;
     ar_state := "00112233445566778899aabbccddeeff";
     ar_code_challenge := "n4bQgYhMfWWaL-qgxVrQFaO_TxsrC4Is0V1sFbDwCgg";
     ar_code_challenge_method := "S256";
     ar_link := false |}.

Lemma example_login_callback_resolves (accounts : MemoryAccountsStorage) :
  OAuthFacts.login_callback_resolves example_provider
    (example_env 1010 "test@example.com")
    (callback_request good_callback_params) (after_authorize accounts)
    stored_request
    {[ "email" := "test@example.com"; "id" := "provider-user-1" ]}
    example_token_response "test@example.com" "provider-user-1".
Proof.
  exists "00112233445566778899aabbccddeeff",
    (model_dump_json stored_request), "upstream-code".
  repeat split; vm_compute; reflexivity.
Defined.

(** The upstream e-mail address is the one of the user [test], who has
    no social account. *)
Lemma callback_account_exists_witness :
  callback example_provider (example_env 1010 "test@example.com")
    (callback_request good_callback_params) (after_authorize initial_accounts)
  = (Ok (Response_error_redirect "http://valid-frontend.com/callback"
           "account_exists" "An account with this email already exists."),
     after_authorize initial_accounts).
Proof.
  apply (OAuthFacts.callback_account_exists example_provider
           (example_env 1010 "test@example.com")
           (callback_request good_callback_params) (after_authorize initial_accounts)
           stored_request
           {[ "email" := "test@example.com"; "id" := "provider-user-1" ]}
           example_token_response "test@example.com" "provider-user-1" test_user).
  - apply example_login_callback_resolves.
  - vm_compute. reflexivity.
  - vm_compute. reflexivity.
Defined.

(** The social account of the upstream identity names the owner [ghost],
    who is not in the store. *)
Lemma callback_dangling_social_account_witness :
  fst (callback example_provider (example_env 1010 "test@example.com")
         (callback_request good_callback_params) (after_authorize dangling_accounts))
  = Raise AttributeError.
Proof.
  rewrite (OAuthFacts.callback_dangling_social_account example_provider
             (example_env 1010 "test@example.com")
             (callback_request good_callback_params)
             (after_authorize dangling_accounts)
             stored_request
             {[ "email" := "test@example.com"; "id" := "provider-user-1" ]}
             example_token_response "test@example.com" "provider-user-1"
             dangling_account
             (set_tokens example_token_response dangling_account)
             (snd (update_social_account dangling_accounts "social-account-0"
                     example_token_response
                     {[ "email" := "test@example.com";
                        "id" := "provider-user-1" ]}))).
  - reflexivity.
  - apply example_login_callback_resolves.
  - vm_compute. reflexivity.
  - vm_compute. reflexivity.
  - vm_compute. reflexivity.
Defined.

End OAuthWitnesses.

(** ** The PKCE check ([fastapi_auth/utils/_pkce.py]) *)

Module PkceFacts.
Import Py Pkce.

(** The constants of SHA-256 as FIPS 180-4 prints them (first and last
    round constant, first and last word of the initial hash). *)
Example round_constants_ends :
  List.hd 0 Sha256.round_constants = 0x428a2f98 /\
  List.last Sha256.round_constants 0 = 0xc67178f2 /\
  length Sha256.round_constants = 64%nat /\
  Sha256.wa Sha256.initial_hash = 0x6a09e667 /\
  Sha256.wh Sha256.initial_hash = 0x5be0cd19.
Proof. repeat split. Qed.

(** The challenge that [tests/conftest.py] records for the verifier
    [test]. *)
Example s256_challenge_of_test :
  calculate_s256_challenge "test"
  = Ok "n4bQgYhMfWWaL-qgxVrQFaO_TxsrC4Is0V1sFbDwCgg".
Proof. vm_compute. reflexivity. Qed.

Example validate_pkce_test_and_wrong :
  validate_pkce "n4bQgYhMfWWaL-qgxVrQFaO_TxsrC4Is0V1sFbDwCgg" "S256" "test"
  = Ok true /\
  validate_pkce "n4bQgYhMfWWaL-qgxVrQFaO_TxsrC4Is0V1sFbDwCgg" "S256" "wrong"
  = Ok false.
Proof. vm_compute. split; reflexivity. Qed.

(** *** Pigeonhole principle on initial segments of the natural numbers *)

Lemma bounded_search (f : N -> N) (v n : N) :
  (exists x, (x < n)%N /\ f x = v) \/ (forall x, (x < n)%N -> f x <> v).
Proof.
  induction n as [|n IH] using N.peano_ind.
  - right. intros x Hx. lia.
  - destruct IH as [(x & Hx & Hv) | Hnone].
    + left. exists x. split; [lia | exact Hv].
    + destruct (N.eq_dec (f n) v) as [Hv | Hv].
      * left. exists n. split; [lia | exact Hv].
      * right. intros x Hx. destruct (N.eq_dec x n) as [-> | Hne]; [exact Hv|].
        apply Hnone. lia.
Qed.

Lemma pigeonhole (m : N) :
  forall (n : N) (f : N -> N),
    (m < n)%N -> (forall x, (x < n)%N -> (f x < m)%N) ->
    exists x y, (x < y)%N /\ (y < n)%N /\ f x = f y.
Proof.
  induction m as [|m IH] using N.peano_ind; intros n f Hmn Hf.
  - specialize (Hf 0%N Hmn). lia.
  - destruct (bounded_search f (f (N.pred n)) (N.pred n)) as [(x & Hx & Hv) | Hnone].
    + exists x, (N.pred n). repeat split; [exact Hx | lia | exact Hv].
    + set (v := f (N.pred n)) in *.
      destruct (IH (N.pred n) (fun x => if (f x <? v)%N then f x else N.pred (f x)))
        as (x & y & Hxy & Hy & Heq).
      * lia.
      * intros x Hx. specialize (Hnone x Hx).
        assert (f x < N.succ m)%N by (apply Hf; lia).
        assert (v < N.succ m)%N by (apply Hf; lia).
        destruct (f x <? v)%N eqn:E; [apply N.ltb_lt in E | apply N.ltb_ge in E]; lia.
      * exists x, y. repeat split; [exact Hxy | lia |].
        assert (f x <> v) by (apply Hnone; lia).
        assert (f y <> v) by (apply Hnone; lia).
        cbv beta in Heq.
        destruct (f x <? v)%N eqn:Ex; destruct (f y <? v)%N eqn:Ey;
          try apply N.ltb_lt in Ex; try apply N.ltb_ge in Ex;
          try apply N.ltb_lt in Ey; try apply N.ltb_ge in Ey; lia.
Qed.

(** *** ASCII verifiers, by number *)

Fixpoint verifier_of (k : nat) (x : N) : string :=
  match k with
  | O => EmptyString
  | S k' => String (ascii_of_N (x mod 128)) (verifier_of k' (x / 128))
  end.

Lemma isascii_cons c s : isascii (String c s) = is_ascii_char c && isascii s.
Proof. reflexivity. Qed.

Lemma verifier_of_isascii k x : isascii (verifier_of k x) = true.
Proof.
  revert x. induction k as [|k IH]; intros x; [reflexivity|].
  cbn [verifier_of]. rewrite isascii_cons, IH, andb_true_r.
  unfold is_ascii_char. rewrite N_ascii_embedding.
  - apply N.ltb_lt. apply N.mod_lt. discriminate.
  - assert (x mod 128 < 128)%N by (apply N.mod_lt; discriminate). lia.
Qed.

Lemma verifier_of_inj k x y :
  (x < 128 ^ N.of_nat k)%N -> (y < 128 ^ N.of_nat k)%N ->
  verifier_of k x = verifier_of k y -> x = y.
Proof.
  revert x y. induction k as [|k IH]; intros x y Hx Hy H.
  - cbn in Hx, Hy. lia.
  - rewrite Nat2N.inj_succ, N.pow_succ_r' in Hx, Hy.
    cbn [verifier_of] in H. injection H as Hc Hrest.
    assert (x mod 128 < 128)%N by (apply N.mod_lt; discriminate).
    assert (y mod 128 < 128)%N by (apply N.mod_lt; discriminate).
    assert (Hmod : (x mod 128 = y mod 128)%N).
    { rewrite <- (N_ascii_embedding (x mod 128)), <- (N_ascii_embedding (y mod 128)) by lia.
      now rewrite Hc. }
    assert (Hdiv : (x / 128 = y / 128)%N).
    { apply IH; [| |exact Hrest]; apply N.Div0.div_lt_upper_bound; lia. }
    rewrite (N.div_mod x 128), (N.div_mod y 128) by discriminate.
    now rewrite Hmod, Hdiv.
Qed.

(** *** The digest as a number *)

Definition be_number (acc : Z) (bytes : list Z) : Z :=
  fold_left (fun a b => a * 256 + b) bytes acc.

Definition is_byte (b : Z) : Prop := 0 <= b < 256.

Lemma be_number_inj (l1 l2 : list Z) :
  forall a1 a2, length l1 = length l2 -> Forall is_byte l1 -> Forall is_byte l2 ->
    be_number a1 l1 = be_number a2 l2 -> a1 = a2 /\ l1 = l2.
Proof.
  revert l2. induction l1 as [|b1 l1 IH]; intros [|b2 l2] a1 a2 Hlen H1 H2 Heq;
    try discriminate.
  - split; [exact Heq | reflexivity].
  - inversion H1 as [|? ? Hb1 Hl1]; inversion H2 as [|? ? Hb2 Hl2]; subst.
    cbn in Heq, Hlen.
    destruct (IH l2 (a1 * 256 + b1) (a2 * 256 + b2)) as [Ha ->];
      [lia | assumption | assumption | exact Heq |].
    unfold is_byte in *. split; [lia | f_equal; lia].
Qed.

Lemma be_number_bound (l : list Z) :
  forall a, 0 <= a -> Forall is_byte l ->
    0 <= be_number a l < (a + 1) * 256 ^ Z.of_nat (length l).
Proof.
  induction l as [|b l IH]; intros a Ha Hl.
  - cbn. lia.
  - inversion Hl as [|? ? Hb Hl']; subst. unfold is_byte in Hb.
    cbn [be_number fold_left length].
    specialize (IH (a * 256 + b) ltac:(lia) Hl'). unfold be_number in IH.
    rewrite Nat2Z.inj_succ, Z.pow_succ_r by lia.
    split; [lia|].
    eapply Z.lt_le_trans; [apply IH|].
    assert (0 < 256 ^ Z.of_nat (length l)) by (apply Z.pow_pos_nonneg; lia).
    nia.
Qed.

Lemma land_255_byte x : is_byte (Z.land x 255).
Proof.
  change 255 with (Z.ones 8). rewrite Z.land_ones by lia.
  unfold is_byte. change (2 ^ 8) with 256. apply Z.mod_pos_bound. lia.
Qed.

Lemma be_bytes_bytes n x : Forall is_byte (Sha256.be_bytes n x).
Proof.
  unfold Sha256.be_bytes. apply List.Forall_forall. intros b Hb.
  apply in_map_iff in Hb as (i & <- & _). apply land_255_byte.
Qed.

Lemma digest_bytes msg : Forall is_byte (Sha256.digest msg) /\ length (Sha256.digest msg) = 32%nat.
Proof.
  unfold Sha256.digest. generalize (Sha256.hash_words msg). intros h. split.
  - apply List.Forall_concat. apply List.Forall_forall. intros l Hl.
    apply in_map_iff in Hl as (w & <- & _). apply be_bytes_bytes.
  - reflexivity.
Qed.

(** *** The challenge is an ASCII string *)

Lemma sextet_isascii i : is_ascii_char (Base64.sextet i) = true.
Proof.
  unfold Base64.sextet.
  destruct (String.get (Z.to_nat i) Base64.alphabet) as [c|] eqn:E; [|reflexivity].
  assert (Hall : forallb is_ascii_char (list_ascii_of_string Base64.alphabet) = true)
    by reflexivity.
  rewrite forallb_forall in Hall. apply Hall.
  clear Hall. revert E. generalize (Z.to_nat i). generalize Base64.alphabet.
  intros s. induction s as [|a s IH]; intros [|n] E; cbn in *; try discriminate.
  - injection E as ->. now left.
  - right. eapply IH. exact E.
Qed.

Lemma urlsafe_b64encode_isascii b : isascii (Base64.urlsafe_b64encode b) = true.
Proof.
  assert (H : isascii (Base64.urlsafe_b64encode b) = true /\
              (forall x, isascii (Base64.urlsafe_b64encode (x :: b)) = true) /\
              (forall x y, isascii (Base64.urlsafe_b64encode (x :: y :: b)) = true)).
  { induction b as [|z b (IH0 & IH1 & IH2)].
    - repeat split; intros; cbn [Base64.urlsafe_b64encode];
        rewrite ?isascii_cons, ?sextet_isascii; reflexivity.
    - split; [apply IH1|]. split; [intros x; apply IH2|].
      intros x y. cbn [Base64.urlsafe_b64encode].
      rewrite !isascii_cons, !sextet_isascii. exact IH0. }
  apply H.
Qed.

Lemma rstrip_eq_isascii s : isascii s = true -> isascii (Base64.rstrip_eq s) = true.
Proof.
  induction s as [|c s IH]; [reflexivity|].
  rewrite isascii_cons. intros [Hc Hs]%andb_true_iff. cbn [Base64.rstrip_eq].
  specialize (IH Hs). destruct (Base64.rstrip_eq s) as [|c' s'].
  - destruct (Ascii.eqb c "="); [reflexivity|]. now rewrite isascii_cons, Hc.
  - now rewrite isascii_cons, Hc, IH.
Qed.

Lemma Ok_inj {A} (a b : A) : Ok a = Ok b -> a = b.
Proof. intros H. now injection H. Qed.

Lemma calculate_s256_challenge_isascii v c :
  calculate_s256_challenge v = Ok c -> isascii c = true.
Proof.
  unfold calculate_s256_challenge. destruct (encode_ascii v); [|discriminate].
  intros H. apply Ok_inj in H. subst c.
  apply rstrip_eq_isascii, urlsafe_b64encode_isascii.
Qed.

Lemma calculate_s256_challenge_ascii v :
  isascii v = true -> exists c, calculate_s256_challenge v = Ok c.
Proof.
  unfold calculate_s256_challenge, encode_ascii. intros ->. eauto.
Qed.

Lemma calculate_s256_challenge_not_ascii v :
  isascii v = false -> calculate_s256_challenge v = Raise UnicodeEncodeError.
Proof.
  unfold calculate_s256_challenge, encode_ascii. now intros ->.
Qed.

(** [validate_pkce] with the method [S256] compares the challenge of the
    verifier with the stored one. *)
Lemma validate_pkce_compares stored v c :
  isascii stored = true ->
  calculate_s256_challenge v = Ok c ->
  validate_pkce stored "S256" v = Ok (String.eqb c stored).
Proof.
  intros Hstored Hc. unfold validate_pkce. cbn [String.eqb Ascii.eqb Bool.eqb negb].
  rewrite Hc. unfold compare_digest.
  now rewrite (calculate_s256_challenge_isascii _ _ Hc), Hstored.
Qed.

(** *** Two verifiers with one challenge *)

Definition bytes_of (v : string) : list Z :=
  List.map (fun c => Z.of_N (N_of_ascii c)) (list_ascii_of_string v).

Definition digest_number (x : N) : N :=
  Z.to_N (be_number 0 (Sha256.digest (bytes_of (verifier_of 37 x)))).

Lemma digest_number_bound x : (digest_number x < 2 ^ 256)%N.
Proof.
  unfold digest_number.
  destruct (digest_bytes (bytes_of (verifier_of 37 x))) as [Hbytes Hlen].
  pose proof (be_number_bound _ 0 ltac:(lia) Hbytes) as Hb.
  rewrite Hlen in Hb. change ((0 + 1) * 256 ^ Z.of_nat 32) with (2 ^ 256) in Hb.
  apply N2Z.inj_lt. rewrite Z2N.id by lia. 
  change (Z.of_N (2 ^ 256)) with (2 ^ 256). lia.
Qed.

Lemma verifier_of_distinct x y :
  (x < y)%N -> (y < 2 ^ 259)%N -> verifier_of 37 x <> verifier_of 37 y.
Proof.
  intros Hxy Hy Hv. apply verifier_of_inj in Hv.
  - lia.
  - change (128 ^ N.of_nat 37)%N with (2 ^ 259)%N. lia.
  - change (128 ^ N.of_nat 37)%N with (2 ^ 259)%N. lia.
Qed.
Lemma digest_number_inj x y :
  digest_number x = digest_number y ->
  Sha256.digest (bytes_of (verifier_of 37 x)) = Sha256.digest (bytes_of (verifier_of 37 y)).
Proof.
  unfold digest_number. intros Heq.
  destruct (digest_bytes (bytes_of (verifier_of 37 x))) as [Hbx Hlx].
  destruct (digest_bytes (bytes_of (verifier_of 37 y))) as [Hby Hly].
  pose proof (be_number_bound _ 0 ltac:(lia) Hbx).
  pose proof (be_number_bound _ 0 ltac:(lia) Hby).
  apply Z2N.inj in Heq; [|lia|lia].
  apply be_number_inj in Heq as [_ Heq]; [exact Heq|congruence|assumption|assumption].
Qed.
Lemma challenge_of_verifier x :
  calculate_s256_challenge (verifier_of 37 x)
  = Ok (Base64.rstrip_eq (Base64.urlsafe_b64encode
          (Sha256.digest (bytes_of (verifier_of 37 x))))).
Proof.
  unfold calculate_s256_challenge, encode_ascii.
  rewrite verifier_of_isascii. reflexivity.
Qed.
Lemma colliding_verifiers :
  exists v1 v2 c,
    v1 <> v2 /\
    calculate_s256_challenge v1 = Ok c /\
    calculate_s256_challenge v2 = Ok c.
Proof.
  destruct (pigeonhole (2 ^ 256) (2 ^ 259) digest_number) as (x & y & Hxy & Hy & Heq).
  - reflexivity.
  - intros x _. apply digest_number_bound.
  - exists (verifier_of 37 x), (verifier_of 37 y).
    eexists. split; [|split].
    + now apply verifier_of_distinct.
    + apply challenge_of_verifier.
    + rewrite challenge_of_verifier. rewrite (digest_number_inj x y Heq). reflexivity.
Qed.

(** *** The shape of a challenge *)

(** A character of the URL-safe base64 alphabet. *)
Definition url_safe_char (c : ascii) : bool :=
  existsb (Ascii.eqb c) (list_ascii_of_string Base64.alphabet).

Definition url_safe (s : string) : bool :=
  forallb url_safe_char (list_ascii_of_string s).

Lemma url_safe_cons c s : url_safe (String c s) = url_safe_char c && url_safe s.
Proof. reflexivity. Qed.

Lemma sextet_url_safe i : 0 <= i < 64 -> url_safe_char (Base64.sextet i) = true.
Proof.
  intros Hi.
  assert (Hall : forallb (fun n => url_safe_char (Base64.sextet (Z.of_nat n)))
                   (seq 0 64) = true) by (vm_compute; reflexivity).
  rewrite forallb_forall in Hall.
  specialize (Hall (Z.to_nat i)). rewrite Z2Nat.id in Hall by lia.
  apply Hall. apply in_seq. lia.
Qed.

Lemma url_safe_char_not_eq c : url_safe_char c = true -> Ascii.eqb c "=" = false.
Proof.
  unfold url_safe_char. intros H. apply existsb_exists in H as (a & Ha & E).
  apply Ascii.eqb_eq in E. subst a.
  destruct (Ascii.eqb c "=") eqn:E; [|reflexivity].
  apply Ascii.eqb_eq in E. subst c. exfalso.
  revert Ha. vm_compute. intuition discriminate.
Qed.

Lemma rstrip_eq_cons c rest :
  Base64.rstrip_eq (String c rest)
  = match Base64.rstrip_eq rest with
    | EmptyString => if Ascii.eqb c "=" then EmptyString else String c EmptyString
    | r => String c r
    end.
Proof. reflexivity. Qed.

Lemma rstrip_eq_padding s :
  url_safe s = true -> Base64.rstrip_eq (s +:+ "=") = s.
Proof.
  induction s as [|c s IH]; [reflexivity|].
  rewrite url_safe_cons. intros [Hc Hs]%andb_true_iff.
  change (String c s +:+ "=") with (String c (s +:+ "=")).
  rewrite rstrip_eq_cons, (IH Hs).
  destruct s; [|reflexivity]. now rewrite (url_safe_char_not_eq c Hc).
Qed.

Lemma shiftr_2_range b : is_byte b -> 0 <= Z.shiftr b 2 < 64.
Proof.
  unfold is_byte. intros Hb. rewrite Z.shiftr_div_pow2 by lia.
  change (2 ^ 2) with 4. split; [apply Z.div_pos; lia|].
  apply Z.div_lt_upper_bound; lia.
Qed.

Lemma land_63_range x : 0 <= Z.land x 63 < 64.
Proof.
  change 63 with (Z.ones 6). rewrite Z.land_ones by lia.
  change (2 ^ 6) with 64. apply Z.mod_pos_bound. lia.
Qed.

(** The encoding of [3 * k + 2] bytes: [4 * k + 3] characters of the
    alphabet and one padding character. *)
Lemma urlsafe_b64encode_two_left (k : nat) :
  forall b, length b = (3 * k + 2)%nat -> Forall is_byte b ->
    exists s, Base64.urlsafe_b64encode b = s +:+ "=" /\
              String.length s = (4 * k + 3)%nat /\ url_safe s = true.
Proof.
  induction k as [|k IH]; intros b Hlen Hb.
  - destruct b as [|b0 [|b1 [|]]]; try discriminate.
    inversion Hb as [|? ? Hb0 Hb']; subst.
    eexists (String _ (String _ (String _ EmptyString))).
    cbn [Base64.urlsafe_b64encode String.append String.length].
    split; [reflexivity|]. split; [reflexivity|].
    rewrite !url_safe_cons, !sextet_url_safe;
      [reflexivity | apply land_63_range | apply land_63_range
       | now apply shiftr_2_range].
  - destruct b as [|b0 [|b1 [|b2 b]]]; try (cbn in Hlen; lia).
    inversion Hb as [|? ? Hb0 Hb']; subst.
    inversion Hb' as [|? ? Hb1 Hb'']; subst.
    inversion Hb'' as [|? ? Hb2 Hb''']; subst.
    destruct (IH b) as (s & Hs & Hl & Hu); [cbn in Hlen; lia | assumption |].
    eexists (String _ (String _ (String _ (String _ s)))).
    assert (Hb3 : exists x y, b = x :: y).
    { destruct b; [cbn in Hlen; lia|eauto]. }
    destruct Hb3 as (x & y & ->).
    cbn [Base64.urlsafe_b64encode] in *. rewrite Hs.
    cbn [String.append String.length].
    split; [reflexivity|]. split; [lia|].
    rewrite !url_safe_cons, Hu, !sextet_url_safe;
      [reflexivity | apply land_63_range | apply land_63_range
       | apply land_63_range | now apply shiftr_2_range].
Qed.

(** *** The encoding is injective *)

Definition byte_values : list Z := List.map Z.of_nat (seq 0 256).

Lemma in_byte_values (b : Z) : is_byte b -> In b byte_values.
Proof.
  intros Hb. unfold byte_values. apply List.in_map_iff.
  exists (Z.to_nat b). unfold is_byte in Hb.
  split; [lia|]. apply in_seq. lia.
Qed.

Lemma for_all_bytes (P : Z -> Z -> bool) :
  forallb (fun a => forallb (P a) byte_values) byte_values = true ->
  forall a b, is_byte a -> is_byte b -> P a b = true.
Proof.
  intros Hall a b Ha Hb. rewrite forallb_forall in Hall.
  specialize (Hall a (in_byte_values a Ha)). rewrite forallb_forall in Hall.
  exact (Hall b (in_byte_values b Hb)).
Qed.

(** The four sextets of three bytes, in arithmetic. *)
Lemma sextet_second (b0 b1 : Z) :
  is_byte b0 -> is_byte b1 ->
  Z.land (Z.lor (Z.shiftl b0 4) (Z.shiftr b1 4)) 63 = b0 mod 4 * 16 + b1 / 16.
Proof.
  intros H0 H1. apply Z.eqb_eq.
  apply (for_all_bytes
           (fun a b => Z.land (Z.lor (Z.shiftl a 4) (Z.shiftr b 4)) 63
                       =? a mod 4 * 16 + b / 16)); [|exact H0|exact H1].
  vm_compute. reflexivity.
Qed.

Lemma sextet_third (b1 b2 : Z) :
  is_byte b1 -> is_byte b2 ->
  Z.land (Z.lor (Z.shiftl b1 2) (Z.shiftr b2 6)) 63 = b1 mod 16 * 4 + b2 / 64.
Proof.
  intros H1 H2. apply Z.eqb_eq.
  apply (for_all_bytes
           (fun a b => Z.land (Z.lor (Z.shiftl a 2) (Z.shiftr b 6)) 63
                       =? a mod 16 * 4 + b / 64)); [|exact H1|exact H2].
  vm_compute. reflexivity.
Qed.

Lemma sextet_first_fourth (b0 b2 : Z) :
  is_byte b0 -> is_byte b2 ->
  Z.shiftr b0 2 = b0 / 4 /\ Z.land b2 63 = b2 mod 64
  /\ Z.land (Z.shiftl b0 4) 63 = b0 mod 4 * 16
  /\ Z.land (Z.shiftl b2 2) 63 = b2 mod 16 * 4.
Proof.
  intros H0 H2.
  pose proof (for_all_bytes
                (fun a b => (Z.shiftr a 2 =? a / 4) && (Z.land b 63 =? b mod 64)
                            && (Z.land (Z.shiftl a 4) 63 =? a mod 4 * 16)
                            && (Z.land (Z.shiftl b 2) 63 =? b mod 16 * 4))
                ltac:(vm_compute; reflexivity) b0 b2 H0 H2) as H.
  cbv beta in H.
  apply andb_true_iff in H as [H H4]. apply andb_true_iff in H as [H H3].
  apply andb_true_iff in H as [H1 H2'].
  apply Z.eqb_eq in H1, H2', H3, H4. auto.
Qed.

Lemma sextet_inj (i j : Z) :
  0 <= i < 64 -> 0 <= j < 64 -> Base64.sextet i = Base64.sextet j -> i = j.
Proof.
  intros Hi Hj Heq.
  pose proof (for_all_bytes
                (fun a b => negb ((a <? 64) && (b <? 64)
                                  && Ascii.eqb (Base64.sextet a) (Base64.sextet b))
                            || (a =? b))
                ltac:(vm_compute; reflexivity) i j
                ltac:(unfold is_byte; lia) ltac:(unfold is_byte; lia)) as H.
  cbv beta in H.
  replace (i <? 64) with true in H by (symmetry; apply Z.ltb_lt; lia).
  replace (j <? 64) with true in H by (symmetry; apply Z.ltb_lt; lia).
  rewrite Heq, Ascii.eqb_refl in H. cbn in H. now apply Z.eqb_eq.
Qed.

Lemma urlsafe_b64encode_inj (k : nat) :
  forall b c,
    (length b <= 3 * k)%nat -> length b = length c ->
    Forall is_byte b -> Forall is_byte c ->
    Base64.urlsafe_b64encode b = Base64.urlsafe_b64encode c -> b = c.
Proof.
  induction k as [|k IH]; intros b c Hk Hlen Hb Hc Henc.
  - destruct b; [|cbn in Hk; lia]. destruct c; [reflexivity|discriminate].
  - destruct b as [|b0 [|b1 [|b2 b]]]; destruct c as [|c0 [|c1 [|c2 c]]];
      try discriminate; [reflexivity | | |].
    + inversion Hb as [|? ? Hb0 _]; inversion Hc as [|? ? Hc0 _]; subst.
      cbn [Base64.urlsafe_b64encode] in Henc.
      injection Henc as E0 E1.
      destruct (sextet_first_fourth b0 b0 Hb0 Hb0) as (F0 & _ & F1 & _).
      destruct (sextet_first_fourth c0 c0 Hc0 Hc0) as (G0 & _ & G1 & _).
      apply sextet_inj in E0;
        [|now apply shiftr_2_range|now apply shiftr_2_range].
      apply sextet_inj in E1; [|apply land_63_range|apply land_63_range].
      rewrite F0, G0 in E0. rewrite F1, G1 in E1.
      unfold is_byte in *. f_equal.
      Z.to_euclidean_division_equations. lia.
    + inversion Hb as [|? ? Hb0 Hb']; inversion Hc as [|? ? Hc0 Hc']; subst.
      inversion Hb' as [|? ? Hb1 _]; inversion Hc' as [|? ? Hc1 _]; subst.
      cbn [Base64.urlsafe_b64encode] in Henc.
      injection Henc as E0 E1 E2.
      destruct (sextet_first_fourth b0 b1 Hb0 Hb1) as (F0 & _ & _ & F2).
      destruct (sextet_first_fourth c0 c1 Hc0 Hc1) as (G0 & _ & _ & G2).
      apply sextet_inj in E0;
        [|now apply shiftr_2_range|now apply shiftr_2_range].
      apply sextet_inj in E1; [|apply land_63_range|apply land_63_range].
      apply sextet_inj in E2; [|apply land_63_range|apply land_63_range].
      rewrite F0, G0 in E0. rewrite F2, G2 in E2.
      rewrite (sextet_second b0 b1 Hb0 Hb1), (sextet_second c0 c1 Hc0 Hc1) in E1.
      unfold is_byte in *.
      assert (b0 = c0 /\ b1 = c1) as [-> ->]
        by (Z.to_euclidean_division_equations; lia).
      reflexivity.
    + inversion Hb as [|? ? Hb0 Hb']; inversion Hc as [|? ? Hc0 Hc']; subst.
      inversion Hb' as [|? ? Hb1 Hb'']; inversion Hc' as [|? ? Hc1 Hc'']; subst.
      inversion Hb'' as [|? ? Hb2 Hb3]; inversion Hc'' as [|? ? Hc2 Hc3]; subst.
      assert (Henc' :
        String (Base64.sextet (Z.shiftr b0 2))
          (String (Base64.sextet (Z.land (Z.lor (Z.shiftl b0 4) (Z.shiftr b1 4)) 63))
             (String (Base64.sextet (Z.land (Z.lor (Z.shiftl b1 2) (Z.shiftr b2 6)) 63))
                (String (Base64.sextet (Z.land b2 63)) (Base64.urlsafe_b64encode b))))
        = String (Base64.sextet (Z.shiftr c0 2))
            (String (Base64.sextet (Z.land (Z.lor (Z.shiftl c0 4) (Z.shiftr c1 4)) 63))
               (String (Base64.sextet (Z.land (Z.lor (Z.shiftl c1 2) (Z.shiftr c2 6)) 63))
                  (String (Base64.sextet (Z.land c2 63)) (Base64.urlsafe_b64encode c)))))
        by exact Henc.
      clear Henc. injection Henc' as E0 E1 E2 E3 Erest.
      destruct (sextet_first_fourth b0 b2 Hb0 Hb2) as (F0 & F3 & _ & _).
      destruct (sextet_first_fourth c0 c2 Hc0 Hc2) as (G0 & G3 & _ & _).
      apply sextet_inj in E0;
        [|now apply shiftr_2_range|now apply shiftr_2_range].
      apply sextet_inj in E1; [|apply land_63_range|apply land_63_range].
      apply sextet_inj in E2; [|apply land_63_range|apply land_63_range].
      apply sextet_inj in E3; [|apply land_63_range|apply land_63_range].
      rewrite F0, G0 in E0. rewrite F3, G3 in E3.
      rewrite (sextet_second b0 b1 Hb0 Hb1), (sextet_second c0 c1 Hc0 Hc1) in E1.
      rewrite (sextet_third b1 b2 Hb1 Hb2), (sextet_third c1 c2 Hc1 Hc2) in E2.
      unfold is_byte in Hb0, Hb1, Hb2, Hc0, Hc1, Hc2.
      assert (b0 = c0 /\ b1 = c1 /\ b2 = c2) as (-> & -> & ->)
        by (Z.to_euclidean_division_equations; lia).
      do 3 f_equal.
      apply IH; [cbn in Hk; lia | cbn in Hlen; lia | assumption | assumption
                | exact Erest].
Qed.

(** Two messages have the same challenge only if they have the same
    digest. *)
Lemma challenge_digest (m1 m2 : list Z) :
  Base64.rstrip_eq (Base64.urlsafe_b64encode (Sha256.digest m1))
  = Base64.rstrip_eq (Base64.urlsafe_b64encode (Sha256.digest m2)) ->
  Sha256.digest m1 = Sha256.digest m2.
Proof.
  destruct (digest_bytes m1) as [Hb1 Hl1].
  destruct (digest_bytes m2) as [Hb2 Hl2].
  destruct (urlsafe_b64encode_two_left 10 (Sha256.digest m1) Hl1 Hb1)
    as (s1 & E1 & _ & Hu1).
  destruct (urlsafe_b64encode_two_left 10 (Sha256.digest m2) Hl2 Hb2)
    as (s2 & E2 & _ & Hu2).
  intros Heq.
  apply (urlsafe_b64encode_inj 11);
    [rewrite Hl1; cbn; lia | congruence | assumption | assumption |].
  rewrite E1, E2 in Heq |- *.
  rewrite (rstrip_eq_padding s1 Hu1), (rstrip_eq_padding s2 Hu2) in Heq.
  now rewrite Heq.
Qed.

Lemma calculate_s256_challenge_bytes (v : string) :
  isascii v = true ->
  calculate_s256_challenge v
  = Ok (Base64.rstrip_eq (Base64.urlsafe_b64encode (Sha256.digest (bytes_of v)))).
Proof.
  intros Hv. unfold calculate_s256_challenge, encode_ascii. rewrite Hv.
  reflexivity.
Qed.

(** With the method [S256], the verifier [v2] is accepted against the
    challenge of [v1] exactly when the two have the same SHA-256 digest. *)
Lemma validate_pkce_digests (v1 v2 c1 : string) :
  isascii v1 = true -> isascii v2 = true ->
  calculate_s256_challenge v1 = Ok c1 ->
  validate_pkce c1 "S256" v2
  = Ok (bool_decide (Sha256.digest (bytes_of v1) = Sha256.digest (bytes_of v2))).
Proof.
  intros H1 H2 Hc1.
  rewrite (validate_pkce_compares c1 v2 _
             (calculate_s256_challenge_isascii v1 c1 Hc1)
             (calculate_s256_challenge_bytes v2 H2)).
  rewrite (calculate_s256_challenge_bytes v1 H1) in Hc1.
  apply Ok_inj in Hc1. subst c1. f_equal.
  destruct (bool_decide_reflect
              (Sha256.digest (bytes_of v1) = Sha256.digest (bytes_of v2)))
    as [Heq | Hne].
  - rewrite Heq. apply String.eqb_refl.
  - apply String.eqb_neq. intros Hc. apply Hne. symmetry.
    now apply challenge_digest.
Qed.

(** Two distinct ASCII verifiers with the same digest. *)
Lemma colliding_digests :
  exists v1 v2,
    v1 <> v2 /\ isascii v1 = true /\ isascii v2 = true /\
    Sha256.digest (bytes_of v1) = Sha256.digest (bytes_of v2).
Proof.
  destruct (pigeonhole (2 ^ 256) (2 ^ 259) digest_number) as (x & y & Hxy & Hy & Heq).
  - reflexivity.
  - intros x _. apply digest_number_bound.
  - exists (verifier_of 37 x), (verifier_of 37 y).
    split; [now apply verifier_of_distinct|].
    split; [apply verifier_of_isascii|]. split; [apply verifier_of_isascii|].
    exact (digest_number_inj x y Heq).
Qed.

(** The verifier made of the one character U+00E9 (e with an acute
    accent), which is not ASCII. *)
Definition e_acute : string := String (ascii_of_nat 233) EmptyString.

(** C3 (amended). For every ASCII verifier [v], [validate_pkce] accepts
    [v] against its own challenge. For two ASCII verifiers,
    [validate_pkce] accepts the second against the challenge of the
    first when the two have the same SHA-256 digest, and returns [False]
    when their digests differ; there are distinct ASCII verifiers with
    the same digest. A stored method other than [S256] raises
    [ValueError], whatever the challenge and the verifier. *)
Theorem validate_pkce_s256 :
  (forall v,
     isascii v = true ->
     exists c, calculate_s256_challenge v = Ok c /\
               validate_pkce c "S256" v = Ok true) /\
  (forall v1 v2 c1,
     isascii v1 = true ->
     isascii v2 = true ->
     calculate_s256_challenge v1 = Ok c1 ->
     (Sha256.digest (bytes_of v1) = Sha256.digest (bytes_of v2) ->
      validate_pkce c1 "S256" v2 = Ok true) /\
     (Sha256.digest (bytes_of v1) <> Sha256.digest (bytes_of v2) ->
      validate_pkce c1 "S256" v2 = Ok false)) /\
  (exists v1 v2,
     v1 <> v2 /\ isascii v1 = true /\ isascii v2 = true /\
     Sha256.digest (bytes_of v1) = Sha256.digest (bytes_of v2)) /\
  (forall stored method v,
     method <> "S256" ->
     validate_pkce stored method v
     = Raise (ValueError "Unsupported code challenge method")).
Proof.
  split; [|split; [|split]].
  - intros v Hv. destruct (calculate_s256_challenge_ascii v Hv) as [c Hc].
    exists c. split; [exact Hc|].
    rewrite (validate_pkce_compares c v c); [|now apply (calculate_s256_challenge_isascii v)|exact Hc].
    now rewrite String.eqb_refl.
  - intros v1 v2 c1 H1 H2 Hc1.
    rewrite (validate_pkce_digests v1 v2 c1 H1 H2 Hc1).
    split; intros Hd.
    + now rewrite bool_decide_eq_true_2.
    + now rewrite bool_decide_eq_false_2.
  - exact colliding_digests.
  - intros stored method v Hmethod. unfold validate_pkce.
    destruct (String.eqb method "S256") eqn:E; [|reflexivity].
    apply String.eqb_eq in E. contradiction.
Qed.

(** C3, counterexample. The verifiers [test] and [e_acute] are distinct,
    and validating the second against the challenge of the first does not
    return [False]: it raises. And there are two distinct ASCII verifiers
    with the same challenge (a digest has 256 bits, and there are more
    ASCII verifiers of 37 characters than that): validating one against
    the challenge of the other returns [True]. *)
Lemma validate_pkce_distinct_verifiers :
  (calculate_s256_challenge "test"
   = Ok "n4bQgYhMfWWaL-qgxVrQFaO_TxsrC4Is0V1sFbDwCgg" /\
   "test" <> e_acute /\
   validate_pkce "n4bQgYhMfWWaL-qgxVrQFaO_TxsrC4Is0V1sFbDwCgg" "S256" e_acute
   = Raise UnicodeEncodeError) /\
  (exists v1 v2 c,
     v1 <> v2 /\
     calculate_s256_challenge v1 = Ok c /\
     validate_pkce c "S256" v2 = Ok true).
Proof.
  split.
  - split; [vm_compute; reflexivity|]. split; [discriminate|].
    vm_compute. reflexivity.
  - destruct colliding_verifiers as (v1 & v2 & c & Hne & H1 & H2).
    exists v1, v2, c. split; [exact Hne|]. split; [exact H1|].
    rewrite (validate_pkce_compares c v2 c);
      [|now apply (calculate_s256_challenge_isascii v1)|exact H2].
    now rewrite String.eqb_refl.
Qed.

Lemma validate_pkce_s256_witness :
  exists c, calculate_s256_challenge "test" = Ok c /\
            validate_pkce c "S256" "test" = Ok true.
Proof.
  apply (proj1 validate_pkce_s256 "test"). reflexivity.
Defined.

End PkceFacts.

(** ** The in-memory account store *)

Module MemoryFacts.
Import Py Storage Memory.

(** What identifies a social account: its [id], its owner, and the
    upstream identity it stands for. *)
Definition identity (a : SocialAccount) : string * string * string * string :=
  (sa_id a, sa_user_id a, sa_provider a, sa_provider_user_id a).

Definition identities (u : User) : list (string * string * string * string) :=
  List.map identity (u_social_accounts u).

(** Every user of [d] is in [d'] under the same key and with the same
    [id], and the social accounts it had are still there, in the same
    order and with the same identity (the owner [user_id] included),
    possibly followed by new ones. *)
Definition owners_preserved (d d' : list (string * User)) : Prop :=
  forall k u, dict_get k d = Some u ->
    exists u', dict_get k d' = Some u' /\ u_id u' = u_id u /\
      identities u `prefix_of` identities u'.

Lemma identity_set_tokens t a : identity (set_tokens t a) = identity a.
Proof. reflexivity. Qed.

Lemma update_first_identities p t l l' :
  update_first p (set_tokens t) l = Some l' ->
  List.map identity l' = List.map identity l.
Proof.
  revert l'. induction l as [|x l IH]; intros l' H; cbn in H; [discriminate|].
  destruct (p x).
  - injection H as <-. reflexivity.
  - destruct (update_first p (set_tokens t) l) as [r|]; [|discriminate].
    injection H as <-. cbn. f_equal. now apply IH.
Qed.

Lemma owners_preserved_refl d : owners_preserved d d.
Proof. intros k u H. exists u. repeat split; auto. Qed.

Lemma update_account_in_preserved id t d d' :
  update_account_in id t d = Some d' -> owners_preserved d d'.
Proof.
  revert d'. induction d as [|[k u] d IH]; intros d' H; cbn in H; [discriminate|].
  destruct (update_first _ _ (u_social_accounts u)) as [accounts'|] eqn:E.
  - injection H as <-. intros k' u' Hget. cbn in *.
    destruct (String.eqb k' k).
    + injection Hget as <-. eexists. split; [reflexivity|]. split; [reflexivity|].
      unfold identities. cbn. now rewrite (update_first_identities _ _ _ _ E).
    + exists u'. repeat split; auto.
  - destruct (update_account_in id t d) as [r|]; [|discriminate].
    injection H as <-. intros k' u' Hget. cbn in *.
    destruct (String.eqb k' k).
    + exists u'. repeat split; auto.
    + now apply IH.
Qed.

Lemma dict_get_set {V} k k' (v : V) d :
  dict_get k' (dict_set k v d) = if String.eqb k' k then Some v else dict_get k' d.
Proof.
  induction d as [|[k0 v0] d IH]; cbn.
  - reflexivity.
  - destruct (String.eqb k k0) eqn:E; cbn.
    + apply String.eqb_eq in E. subst. destruct (String.eqb k' k0); reflexivity.
    + destruct (String.eqb k' k0) eqn:E'.
      * apply String.eqb_eq in E'. subst. rewrite String.eqb_sym, E. reflexivity.
      * exact IH.
Qed.

Section Mem.
Variable uuid4 : nat -> string.
Variable pwd_hash : string -> string.

Lemma mem_update_preserved st id t ui r st' :
  mem_update_social_account st id t ui = (r, st') ->
  owners_preserved (data st) (data st').
Proof.
  unfold mem_update_social_account. intros H.
  destruct (List.find _ _); [destruct (update_account_in id t (data st)) eqn:E|];
    injection H as <- <-; cbn; eauto using owners_preserved_refl, update_account_in_preserved.
Qed.

Lemma mem_create_preserved st uid p pid t ui r st' :
  mem_create_social_account uuid4 st uid p pid t ui = (r, st') ->
  owners_preserved (data st) (data st').
Proof.
  unfold mem_create_social_account. intros H.
  destruct (dict_get uid (data st)) as [user|] eqn:E;
    injection H as <- <-; cbn; [|apply owners_preserved_refl].
  intros k u Hget. rewrite dict_get_set.
  destruct (String.eqb k uid) eqn:Ek.
  - apply String.eqb_eq in Ek. subst. rewrite E in Hget. injection Hget as <-.
    eexists. split; [reflexivity|]. split; [reflexivity|].
    unfold identities. cbn. rewrite List.map_app. now apply prefix_app_r.
  - exists u. repeat split; auto.
Qed.

(** The social accounts of a dictionary of users, in iteration order. *)
Definition accounts_of (d : list (string * User)) : list SocialAccount :=
  concat (List.map u_social_accounts (dict_values d)).

Lemma update_first_none {A} (p : A -> bool) f l :
  update_first p f l = None -> List.find p l = None.
Proof.
  induction l as [|x l IH]; cbn; [reflexivity|].
  destruct (p x); [discriminate|].
  destruct (update_first p f l); [discriminate|]. auto.
Qed.

Lemma find_app_none {A} (p : A -> bool) l1 l2 :
  List.find p l1 = None -> List.find p (l1 ++ l2) = List.find p l2.
Proof.
  induction l1 as [|x l1 IH]; cbn; [reflexivity|].
  destruct (p x); [discriminate|]. exact IH.
Qed.

Lemma update_account_in_none id t d :
  update_account_in id t d = None ->
  List.find (fun a => String.eqb (sa_id a) id) (accounts_of d) = None.
Proof.
  induction d as [|[k u] d IH]; cbn; [reflexivity|].
  destruct (update_first _ _ (u_social_accounts u)) eqn:E; [discriminate|].
  destruct (update_account_in id t d); [discriminate|]. intros _.
  unfold accounts_of in *. cbn.
  rewrite find_app_none by now apply update_first_none in E.
  now apply IH.
Qed.

Lemma update_account_in_identities id t d d' :
  update_account_in id t d = Some d' ->
  List.map identity (accounts_of d') = List.map identity (accounts_of d).
Proof.
  revert d'. induction d as [|[k u] d IH]; intros d' H; cbn in H; [discriminate|].
  destruct (update_first _ _ (u_social_accounts u)) as [accounts'|] eqn:E.
  - injection H as <-. unfold accounts_of. cbn. rewrite !List.map_app.
    now rewrite (update_first_identities _ _ _ _ E).
  - destruct (update_account_in id t d) as [r|]; [|discriminate].
    injection H as <-. unfold accounts_of in *. cbn. rewrite !List.map_app.
    f_equal. now apply IH.
Qed.

Lemma find_by_image {A B} (g : A -> B) (q : B -> bool) l l' :
  List.map g l = List.map g l' ->
  option_map g (List.find (fun a => q (g a)) l)
  = option_map g (List.find (fun a => q (g a)) l').
Proof.
  revert l'. induction l as [|x l IH]; intros [|x' l'] H; cbn in *; try discriminate;
    [reflexivity|].
  injection H as Hx Hl. rewrite Hx. destruct (q (g x')); cbn; [now rewrite Hx|].
  now apply IH.
Qed.

Lemma mem_find_social_account_identity st p pid :
  mem_find_social_account st p pid
  = List.find (fun a => (fun i => String.eqb i.1.2 p && String.eqb i.2 pid) (identity a))
      (accounts_of (data st)).
Proof. reflexivity. Qed.

(** Updating an account that [find_social_account] has returned does not
    raise, and the account is found again afterwards with the identity it
    had. *)
Lemma mem_update_found st p pid a t ui :
  mem_find_social_account st p pid = Some a ->
  exists r st', mem_update_social_account st (sa_id a) t ui = (Ok r, st') /\
    exists a', mem_find_social_account st' p pid = Some a' /\ identity a' = identity a.
Proof.
  intros Hfind. unfold mem_update_social_account.
  destruct (List.find (fun a0 => String.eqb (sa_id a0) (sa_id a)) (all_social_accounts st))
    as [b|] eqn:Hb.
  2:{ exfalso. apply List.find_some in Hfind as [Hin _].
      eapply List.find_none in Hb; [|exact Hin]. cbn in Hb.
      now rewrite String.eqb_refl in Hb. }
  destruct (update_account_in (sa_id a) t (data st)) as [d'|] eqn:Hd.
  2:{ apply update_account_in_none in Hd. unfold all_social_accounts in Hb.
      unfold accounts_of in Hd. congruence. }
  eexists _, _. split; [reflexivity|].
  rewrite mem_find_social_account_identity in *. cbn [data].
  pose proof (find_by_image identity
                (fun i => String.eqb i.1.2 p && String.eqb i.2 pid) _ _
                (update_account_in_identities _ _ _ _ Hd)) as Hid.
  cbv beta in *. rewrite Hfind in Hid. cbn in Hid.
  destruct (List.find _ (accounts_of d')) as [a'|]; [|discriminate].
  exists a'. split; [reflexivity|]. cbn in Hid. congruence.
Qed.

Lemma find_insert {A} (p : A -> bool) l1 l2 x :
  List.find p (l1 ++ l2) = None -> p x = true ->
  List.find p (l1 ++ x :: l2) = Some x.
Proof.
  induction l1 as [|y l1 IH]; cbn; intros Hnone Hx.
  - now rewrite Hx.
  - destruct (p y); [discriminate|]. now apply IH.
Qed.

Lemma accounts_of_cons k u d :
  accounts_of ((k, u) :: d) = (u_social_accounts u ++ accounts_of d)%list.
Proof. reflexivity. Qed.

Lemma accounts_of_set uid user x d :
  dict_get uid d = Some user ->
  exists l1 l2,
    accounts_of d = (l1 ++ l2)%list /\
    accounts_of (dict_set uid
                   {| u_id := u_id user; u_email := u_email user;
                      u_hashed_password := u_hashed_password user;
                      u_social_accounts := (u_social_accounts user ++ [x])%list |} d)
    = (l1 ++ x :: l2)%list.
Proof.
  induction d as [|[k u] d IH]; cbn [dict_get dict_set]; [discriminate|].
  destruct (String.eqb uid k) eqn:E; intros Hget.
  - injection Hget as ->. exists (u_social_accounts user), (accounts_of d).
    rewrite !accounts_of_cons. cbn [u_social_accounts]. split; [reflexivity|].
    now rewrite <- List.app_assoc.
  - destruct (IH Hget) as (l1 & l2 & H1 & H2).
    exists (u_social_accounts u ++ l1)%list, l2.
    rewrite !accounts_of_cons, H1, H2, <- !List.app_assoc. split; reflexivity.
Qed.

Lemma mem_create_found st uid p pid t ui a st' :
  mem_find_social_account st p pid = None ->
  mem_create_social_account uuid4 st uid p pid t ui = (Ok a, st') ->
  mem_find_social_account st' p pid = Some a /\ sa_user_id a = uid.
Proof.
  unfold mem_create_social_account. intros Hnone H.
  destruct (dict_get uid (data st)) as [user|] eqn:E; [|discriminate].
  injection H as <- <-. split; [|reflexivity].
  rewrite mem_find_social_account_identity in *. cbn [data].
  match goal with |- context [dict_set uid {| u_social_accounts := (_ ++ [?x])%list |} _] =>
    destruct (accounts_of_set uid user x (data st) E) as (l1 & l2 & H1 & H2) end.
  rewrite H2. rewrite H1 in Hnone. apply find_insert; [exact Hnone|].
  cbn. now rewrite !String.eqb_refl.
Qed.

End Mem.

End MemoryFacts.

(** ** [finalize_link] *)

Module LinkFacts.
Import Py Storage Memory OAuth MemoryFacts.

Section Link.

Context {S : Type} `{!AccountsStorage S}.
Context `{!BaseModel OAuth2LinkCodeData} `{!BaseModel OAuth2TokenEndpointResponse}.
Variable json_loads : string -> option (gmap string string).

(** A call of [finalize_link] by the authenticated [user] that has found
    the link data, passed the expiry and PKCE checks and obtained from the
    provider the user info of the subject [provider_user_id]. *)
Definition link_resolves (self : OAuth2Provider) (env : Env)
    (request : AsyncHTTPRequest) (context : Context S) (user : User)
    (user_info : UserInfo) (token_response : TokenResponse)
    (provider_user_id : string) : Prop :=
  exists request_data code data link_data code_verifier,
    get_user_from_request context request = Some user /\
    json_loads (body request) = Some request_data /\
    truthy (request_data !! "link_code") = Some code /\
    truthy (storage_get ("oauth:link_request:" +:+ code)
              (secondary_storage context)) = Some data /\
    model_validate_json data = Some link_data /\
    now env <= lc_expires_at link_data /\
    lc_code_challenge_method link_data = "S256" /\
    truthy (request_data !! "code_verifier") = Some code_verifier /\
    Pkce.validate_pkce (lc_code_challenge link_data)
      (lc_code_challenge_method link_data) code_verifier = Ok true /\
    _fetch_user_info self env request (lc_provider_code link_data)
    = Ok (user_info, token_response) /\
    user_info !! "id" = Some provider_user_id.

(** The end of [finalize_link], from [find_social_account] on. *)
Definition link_account (self : OAuth2Provider) (context : Context S)
    (user : User) (user_info : UserInfo) (token_response : TokenResponse)
    (provider_user_id : string) : result Response * Context S :=
  match find_social_account (accounts_storage context) (id self)
          provider_user_id with
  | Some social_account =>
      if negb (String.eqb (sa_user_id social_account) (u_id user))
      then (Ok (Response_error "server_error"
                  (Some "Social account already exists") None), context)
      else
        match update_social_account (accounts_storage context)
                (sa_id social_account) token_response user_info with
        | (Raise e, accounts) => (Raise e, with_accounts context accounts)
        | (Ok _, accounts) =>
            (Ok (Response_new 200 link_finalized_body),
             with_accounts context accounts)
        end
  | None =>
      match create_social_account (accounts_storage context) (u_id user)
              (id self) provider_user_id token_response user_info with
      | (Raise e, accounts) => (Raise e, with_accounts context accounts)
      | (Ok _, accounts) =>
          (Ok (Response_new 200 link_finalized_body),
           with_accounts context accounts)
      end
  end.

Lemma finalize_link_resolved self env request context user ui tr pid :
  link_resolves self env request context user ui tr pid ->
  finalize_link json_loads self env request context
  = link_account self context user ui tr pid.
Proof.
  intros (rd & code & data & ld & v & Hu & Hj & Hc & Hd & Hv & Ht & Hm & Hcv & Hp & Hf & Hi).
  unfold finalize_link, link_account.
  rewrite Hu, Hj, Hc, Hd, Hv.
  destruct (lc_expires_at ld <? now env) eqn:E; [apply Z.ltb_lt in E; lia|].
  rewrite Hcv, Hp, Hf, Hi. rewrite Hm. cbn [String.eqb negb].
  reflexivity.
Qed.

Lemma link_resolves_with_accounts self env request context user ui tr pid a :
  link_resolves self env request context user ui tr pid ->
  link_resolves self env request (with_accounts context a) user ui tr pid.
Proof. intros H. exact H. Qed.

Lemma finalize_link_cases self env request context :
  (exists r, finalize_link json_loads self env request context = (r, context) /\
             forall b, r <> Ok (Response_new 200 b))
  \/ exists user ui tr pid, link_resolves self env request context user ui tr pid.
Proof.
  unfold finalize_link.
  repeat case_match;
    try (left; eexists; split; [reflexivity|]; intros b; discriminate).
  all: right; eexists _, _, _, _; unfold link_resolves;
    eexists _, _, _, _, _; repeat split; try eassumption.
  all: try (match goal with H : (_ <? _) = false |- _ => apply Z.ltb_ge in H; lia end).
  all: try (match goal with H : negb (String.eqb _ _) = false |- _ =>
              apply negb_false_iff, String.eqb_eq in H; exact H end).
Qed.

End Link.


(** C7 (amended). When the social account of the upstream identity
    belongs to another user than the caller, [finalize_link] answers with
    a bare error whose code is the generic [server_error], the conflict
    being named in the description only, and the context is what it was:
    no account has been changed. With the in-memory account store, no
    call of [finalize_link] changes the owner of an existing social
    account: every user keeps the social accounts it had, with the same
    [id], [user_id], [provider] and [provider_user_id]. *)
Theorem finalize_link_other_owner :
  (forall (S : Type) (accounts : AccountsStorage S)
          (link_model : BaseModel OAuth2LinkCodeData)
          (token_model : BaseModel OAuth2TokenEndpointResponse)
          (json_loads : string -> option (gmap string string))
          (self : OAuth2Provider) (env : Env) (request : AsyncHTTPRequest)
          (context : Context S) (user : User) (user_info : UserInfo)
          (token_response : TokenResponse) (provider_user_id : string)
          (social_account : SocialAccount),
     link_resolves json_loads self env request context user user_info
       token_response provider_user_id ->
     find_social_account (accounts_storage context) (id self) provider_user_id
     = Some social_account ->
     sa_user_id social_account <> u_id user ->
     finalize_link json_loads self env request context
     = (Ok (Response_error "server_error"
              (Some "Social account already exists") None),
        context)) /\
  (forall (uuid4 : nat -> string) (pwd_hash : string -> string)
          (link_model : BaseModel OAuth2LinkCodeData)
          (token_model : BaseModel OAuth2TokenEndpointResponse)
          (json_loads : string -> option (gmap string string))
          (self : OAuth2Provider) (env : Env) (request : AsyncHTTPRequest)
          (context : Context MemoryAccountsStorage),
     owners_preserved
       (data (accounts_storage context))
       (data (accounts_storage
                (snd (finalize_link (AccountsStorage0 := memory_accounts uuid4 pwd_hash)
                        json_loads self env request context))))).
Proof.
  split.
  - intros S accounts link_model token_model json_loads self env request context
      user ui tr pid sa Hresolves Hfound Hother.
    rewrite (finalize_link_resolved json_loads _ _ _ _ _ _ _ _ Hresolves).
    unfold link_account. rewrite Hfound.
    destruct (String.eqb (sa_user_id sa) (u_id user)) eqn:E; [|reflexivity].
    apply String.eqb_eq in E. contradiction.
  - intros uuid4 pwd_hash link_model token_model json_loads self env request context.
    destruct (finalize_link_cases (AccountsStorage0 := memory_accounts uuid4 pwd_hash)
                json_loads self env request context)
      as [(r & -> & _) | (user & ui & tr & pid & Hresolves)];
      [apply owners_preserved_refl|].
    rewrite (finalize_link_resolved json_loads _ _ _ _ _ _ _ _ Hresolves).
    unfold link_account. cbn [find_social_account update_social_account
                              create_social_account memory_accounts].
    destruct (mem_find_social_account _ _ _) as [sa|].
    + destruct (negb _); [apply owners_preserved_refl|].
      destruct (mem_update_social_account _ _ _ _) as [[r|e] st'] eqn:E;
        cbn; eapply mem_update_preserved; exact E.
    + destruct (mem_create_social_account _ _ _ _ _ _ _) as [[r|e] st'] eqn:E;
        cbn; eapply mem_create_preserved; exact E.
Qed.

(** Two environments with the same upstream provider. *)
Definition same_upstream (env env' : Env) : Prop :=
  send_token_request env' = send_token_request env /\
  http_get_json env' = http_get_json env.

Lemma fetch_user_info_same_upstream
    `{!BaseModel OAuth2TokenEndpointResponse}
    (self : OAuth2Provider) (env env' : Env) (request : AsyncHTTPRequest)
    (code : string) :
  same_upstream env env' ->
  _fetch_user_info self env' request code = _fetch_user_info self env request code.
Proof.
  intros [Htoken Hinfo].
  unfold _fetch_user_info, _exchange_code, fetch_user_info.
  now rewrite Htoken, Hinfo.
Qed.

Lemma link_resolves_same_upstream {S : Type}
    `{!BaseModel OAuth2LinkCodeData} `{!BaseModel OAuth2TokenEndpointResponse}
    (json_loads : string -> option (gmap string string))
    (self : OAuth2Provider) (env env' : Env) (request : AsyncHTTPRequest)
    (context : Context S) (user user' : User) (ui ui' : UserInfo)
    (tr tr' : TokenResponse) (pid pid' : string) :
  same_upstream env env' ->
  link_resolves json_loads self env request context user ui tr pid ->
  link_resolves json_loads self env' request context user' ui' tr' pid' ->
  link_resolves json_loads self env' request context user ui tr pid.
Proof.
  intros Hsame
    (rd & code & dat & ld & v & Hu & Hj & Hc & Hd & Hv & Ht & Hm & Hcv & Hp & Hf & Hi)
    (rd' & code' & dat' & ld' & v' & Hu' & Hj' & Hc' & Hd' & Hv' & Ht' & Hm' & Hcv'
       & Hp' & Hf' & Hi').
  assert (rd' = rd) as -> by congruence.
  assert (code' = code) as -> by congruence.
  assert (dat' = dat) as -> by congruence.
  assert (ld' = ld) as -> by congruence.
  exists rd, code, dat, ld, v. repeat split; try assumption.
  now rewrite (fetch_user_info_same_upstream self env env' request _ Hsame).
Qed.

(** C4 (amended). [finalize_link] never writes to the secondary storage:
    the link data stay under their key, neither deleted nor marked. With
    the in-memory account store and an upstream provider that gives the
    same answers, a successful call takes nothing away from a later one:
    a call with the same request that would have succeeded on the
    original context succeeds as well on the context that the first,
    successful call has left. *)
Theorem finalize_link_does_not_consume :
  (forall (S : Type) (accounts : AccountsStorage S)
          (link_model : BaseModel OAuth2LinkCodeData)
          (token_model : BaseModel OAuth2TokenEndpointResponse)
          (json_loads : string -> option (gmap string string))
          (self : OAuth2Provider) (env : Env) (request : AsyncHTTPRequest)
          (context : Context S),
     secondary_storage (snd (finalize_link json_loads self env request context))
     = secondary_storage context) /\
  (forall (uuid4 : nat -> string) (pwd_hash : string -> string)
          (link_model : BaseModel OAuth2LinkCodeData)
          (token_model : BaseModel OAuth2TokenEndpointResponse)
          (json_loads : string -> option (gmap string string))
          (self : OAuth2Provider) (env env' : Env) (request : AsyncHTTPRequest)
          (context : Context MemoryAccountsStorage),
     let finalize e :=
       finalize_link (AccountsStorage0 := memory_accounts uuid4 pwd_hash)
         json_loads self e request in
     same_upstream env env' ->
     fst (finalize env context) = Ok (Response_new 200 link_finalized_body) ->
     fst (finalize env' context) = Ok (Response_new 200 link_finalized_body) ->
     fst (finalize env' (snd (finalize env context)))
     = Ok (Response_new 200 link_finalized_body)).
Proof.
  split.
  - intros S accounts link_model token_model json_loads self env request context.
    destruct (finalize_link_cases json_loads self env request context)
      as [(r & -> & _) | (user & ui & tr & pid & Hresolves)]; [reflexivity|].
    rewrite (finalize_link_resolved json_loads _ _ _ _ _ _ _ _ Hresolves).
    unfold link_account. repeat case_match; reflexivity.
  - intros uuid4 pwd_hash link_model token_model json_loads self env env' request
      context.
    cbv zeta. intros Hsame.
    destruct (finalize_link_cases (AccountsStorage0 := memory_accounts uuid4 pwd_hash)
                json_loads self env request context)
      as [(r & -> & Hr) | (user & ui & tr & pid & Hresolves)].
    { cbn [fst]. intros ->. now destruct (Hr link_finalized_body). }
    destruct (finalize_link_cases (AccountsStorage0 := memory_accounts uuid4 pwd_hash)
                json_loads self env' request context)
      as [(r & -> & Hr) | (user' & ui' & tr' & pid' & Hresolves')].
    { cbn [fst]. intros _ ->. now destruct (Hr link_finalized_body). }
    pose proof (link_resolves_same_upstream json_loads self env env' request context
                  _ _ _ _ _ _ _ _ Hsame Hresolves Hresolves') as Hlater.
    clear Hresolves'. intros Hfirst _. revert Hfirst.
    rewrite (finalize_link_resolved json_loads _ _ _ _ _ _ _ _ Hresolves).
    assert (Hagain : forall st a,
               mem_find_social_account st (id self) pid = Some a ->
               sa_user_id a = u_id user ->
               fst (finalize_link (AccountsStorage0 := memory_accounts uuid4 pwd_hash)
                      json_loads self env' request (with_accounts context st))
               = Ok (Response_new 200 link_finalized_body)).
    { intros st a Hfind Howner.
      rewrite (finalize_link_resolved json_loads _ _ _ _ _ _ _ _
                 (link_resolves_with_accounts json_loads _ _ _ _ _ _ _ _ st Hlater)).
      unfold link_account.
      cbn [find_social_account update_social_account memory_accounts
           accounts_storage with_accounts].
      rewrite Hfind, Howner, String.eqb_refl. cbn [negb].
      destruct (mem_update_found st (id self) pid a tr ui Hfind)
        as (r & st' & -> & _). reflexivity. }
    unfold link_account.
    cbn [find_social_account update_social_account create_social_account
         memory_accounts].
    destruct (mem_find_social_account (accounts_storage context) (id self) pid)
      as [sa|] eqn:Hfind.
    + destruct (String.eqb (sa_user_id sa) (u_id user)) eqn:Howner; cbn [negb];
        [|cbn [fst]; discriminate].
      apply String.eqb_eq in Howner.
      destruct (mem_update_found (accounts_storage context) (id self) pid sa tr ui Hfind)
        as (r & st' & -> & a' & Hfind' & Hid).
      cbn [fst snd]. intros _.
      apply (Hagain st' a' Hfind'). unfold identity in Hid. congruence.
    + destruct (mem_create_social_account uuid4 (accounts_storage context) (u_id user)
                  (id self) pid tr ui) as [[r|e] st'] eqn:Hcreate; cbn [fst snd];
        [|discriminate].
      intros _.
      destruct (mem_create_found uuid4 _ _ _ _ _ _ _ _ Hfind Hcreate) as (Hfind' & Howner).
      apply (Hagain st' r Hfind' Howner).
Qed.

End LinkFacts.

(** ** [finalize_link] on the concrete deployment *)

Module LinkWitnesses.
Import Py Storage Memory OAuth Wire Reference Example LinkFacts.

Definition link_authorize_params : gmap string string :=
  {[ "redirect_uri" := "http://valid-frontend.com/callback";
     "response_type" := "link_code";
     "code_challenge" := "n4bQgYhMfWWaL-qgxVrQFaO_TxsrC4Is0V1sFbDwCgg";
     "code_challenge_method" := "S256" ]}.

(** The context after [authorize] with [response_type=link_code] and the
    callback of the provider: the link data are stored under the link
    code [7d444840-9dc0-11d1-b245-5ffdce74fad2]. *)
Definition after_link_callback (accounts : MemoryAccountsStorage)
  : Context MemoryAccountsStorage :=
  snd (callback example_provider (example_env 1010 "test@example.com")
         (callback_request good_callback_params)
         (snd (authorize example_validate_http_url example_provider
                 (example_env 1000 "test@example.com")
                 (authorize_request link_authorize_params)
                 (example_context accounts)))).

(** The request of the logged-in user [test], with the link code and the
    verifier [test] of the stored challenge. *)
Definition finalize_request : AsyncHTTPRequest :=
  {| query_params := ∅;
     url := "http://localhost:8000/test/finalize-link";
     headers := {[ "Authorization" := "Bearer test" ]};
     body := pack [ "link_code"; "7d444840-9dc0-11d1-b245-5ffdce74fad2";
                    "code_verifier"; "test" ] |}.

(** An account store in which the upstream identity [provider-user-1]
    is linked to the user [other]. *)
Definition other_account : SocialAccount :=
  {| sa_id := "social-account-0"; sa_user_id := "other";
     sa_provider_user_id := "provider-user-1"; sa_provider := "test";
     sa_access_token := None; sa_refresh_token := None;
     sa_access_token_expires_at := None; sa_refresh_token_expires_at := None;
     sa_scope := None |}.

Definition other_accounts : MemoryAccountsStorage :=
  {| data :=
       [("test", test_user);
        ("other",
         {| u_id := "other"; u_email := "other@example.com";
            u_hashed_password := example_pwd_hash "password456";
            u_social_accounts := [other_account] |})];
     drawn := 1%nat |}.

(** C4, counterexample. The user [test] redeems the link code at the
    instant 1020 and again at the instant 1030: both calls succeed. *)
Lemma finalize_link_twice :
  fst (finalize_link example_json_loads example_provider
         (example_env 1020 "test@example.com") finalize_request
         (after_link_callback initial_accounts))
  = Ok (Response_new 200 link_finalized_body) /\
  fst (finalize_link example_json_loads example_provider
         (example_env 1030 "test@example.com") finalize_request
         (snd (finalize_link example_json_loads example_provider
                 (example_env 1020 "test@example.com") finalize_request
                 (after_link_callback initial_accounts))))
  = Ok (Response_new 200 link_finalized_body).
Proof. vm_compute. split; reflexivity. Qed.

Lemma finalize_link_does_not_consume_witness :
  fst (finalize_link example_json_loads example_provider
         (example_env 1030 "test@example.com") finalize_request
         (snd (finalize_link example_json_loads example_provider
                 (example_env 1020 "test@example.com") finalize_request
                 (after_link_callback initial_accounts))))
  = Ok (Response_new 200 link_finalized_body).
Proof.
  apply (proj2 finalize_link_does_not_consume example_uuid4 example_pwd_hash
           _ _ example_json_loads example_provider
           (example_env 1020 "test@example.com")
           (example_env 1030 "test@example.com") finalize_request
           (after_link_callback initial_accounts)).
  - split; reflexivity.
  - vm_compute. reflexivity.
  - vm_compute. reflexivity.
Defined.

(** C7, counterexample. The user [test] finalizes a link to the upstream
    identity that is linked to the user [other]: the error code of the
    response is [server_error]. *)
Lemma finalize_link_other_owner_server_error :
  finalize_link example_json_loads example_provider
    (example_env 1020 "test@example.com") finalize_request
    (after_link_callback other_accounts)
  = (Ok (Response_error "server_error" (Some "Social account already exists") None),
     after_link_callback other_accounts).
Proof. vm_compute. reflexivity. Qed.

Lemma finalize_link_other_owner_witness :
  finalize_link example_json_loads example_provider
    (example_env 1020 "test@example.com") finalize_request
    (after_link_callback other_accounts)
  = (Ok (Response_error "server_error" (Some "Social account already exists") None),
     after_link_callback other_accounts).
Proof.
  apply (proj1 finalize_link_other_owner MemoryAccountsStorage _ _ _
           example_json_loads example_provider
           (example_env 1020 "test@example.com") finalize_request
           (after_link_callback other_accounts) test_user
           {[ "email" := "test@example.com"; "id" := "provider-user-1" ]}
           example_token_response "provider-user-1" other_account).
  - eexists _, _, _, _, _.
    repeat split; try (vm_compute; reflexivity).
    vm_compute. discriminate.
  - vm_compute. reflexivity.
  - vm_compute. discriminate.
Defined.

End LinkWitnesses.

(** * Further properties of the code *)

Module PkceMore.
Import Py Pkce PkceFacts.

(** X1. The S256 challenge of a verifier is a string of 43 characters of
    the URL-safe base64 alphabet: the padding has been removed, and no
    character is [=], [+] or [/]. *)
Theorem s256_challenge_shape (verifier challenge : string) :
  calculate_s256_challenge verifier = Ok challenge ->
  String.length challenge = 43%nat /\ url_safe challenge = true.
Proof.
  unfold calculate_s256_challenge.
  destruct (encode_ascii verifier) as [bytes|]; [|discriminate].
  intros H. apply Ok_inj in H. subst challenge.
  destruct (digest_bytes bytes) as [Hbytes Hlen].
  destruct (urlsafe_b64encode_two_left 10 (Sha256.digest bytes) Hlen Hbytes)
    as (s & -> & Hl & Hu).
  rewrite (rstrip_eq_padding s Hu). split; [exact Hl | exact Hu].
Qed.

Lemma s256_challenge_shape_witness :
  String.length "n4bQgYhMfWWaL-qgxVrQFaO_TxsrC4Is0V1sFbDwCgg" = 43%nat /\
  url_safe "n4bQgYhMfWWaL-qgxVrQFaO_TxsrC4Is0V1sFbDwCgg" = true.
Proof.
  apply (s256_challenge_shape "test"). vm_compute. reflexivity.
Defined.

(** X2. With the method [S256], [validate_pkce] returns [True] exactly
    when the stored challenge is the challenge of the received verifier.
    A stored challenge that is not ASCII makes the comparison raise
    [TypeError] instead of returning [False]. *)
Theorem validate_pkce_true_iff (stored verifier : string) :
  (validate_pkce stored "S256" verifier = Ok true
   <-> calculate_s256_challenge verifier = Ok stored) /\
  (isascii verifier = true -> isascii stored = false ->
   validate_pkce stored "S256" verifier = Raise TypeError).
Proof.
  split; [split|].
  - unfold validate_pkce. cbn [String.eqb Ascii.eqb Bool.eqb negb].
    destruct (calculate_s256_challenge verifier) as [c|e] eqn:Hc; [|discriminate].
    unfold compare_digest.
    destruct (isascii c && isascii stored); [|discriminate].
    intros H. apply Ok_inj in H. apply String.eqb_eq in H. now subst.
  - intros Hc.
    rewrite (validate_pkce_compares stored verifier stored);
      [|now apply (calculate_s256_challenge_isascii verifier)|exact Hc].
    now rewrite String.eqb_refl.
  - intros Hv Hs. unfold validate_pkce. cbn [String.eqb Ascii.eqb Bool.eqb negb].
    destruct (calculate_s256_challenge_ascii verifier Hv) as [c Hc]. rewrite Hc.
    unfold compare_digest. now rewrite Hs, andb_false_r.
Qed.

End PkceMore.

Module UrlFacts.
Import Py OAuth.

(** A string without [/]. *)
Definition no_slash (s : string) : bool :=
  forallb (fun c => negb (Ascii.eqb c "/")) (list_ascii_of_string s).

Lemma split_slash_nonempty s : split_slash s <> [].
Proof.
  destruct s as [|c s]; cbn; [discriminate|].
  destruct (Ascii.eqb c "/"); [discriminate|].
  destruct (split_slash s); discriminate.
Qed.

Lemma concat_cons sep x y l :
  String.concat sep (x :: y :: l) = x +:+ sep +:+ String.concat sep (y :: l).
Proof. reflexivity. Qed.

Lemma append_assoc (a b c : string) : (a +:+ b) +:+ c = a +:+ (b +:+ c).
Proof.
  induction a as [|x a IH]; [reflexivity|].
  change (String x ((a +:+ b) +:+ c) = String x (a +:+ (b +:+ c))).
  now f_equal.
Qed.

(** Joining what [split] gives is the identity. *)
Lemma concat_split_slash s : String.concat "/" (split_slash s) = s.
Proof.
  induction s as [|c s IH]; [reflexivity|].
  cbn [split_slash]. destruct (Ascii.eqb c "/") eqn:E.
  - apply Ascii.eqb_eq in E. subst c.
    destruct (split_slash s) as [|y l] eqn:Hs; [now apply split_slash_nonempty in Hs|].
    rewrite concat_cons, IH. reflexivity.
  - destruct (split_slash s) as [|y l] eqn:Hs; [now apply split_slash_nonempty in Hs|].
    destruct l as [|z l].
    + cbn in *. now rewrite IH.
    + rewrite concat_cons. rewrite concat_cons in IH.
      change (String c (y +:+ "/" +:+ String.concat "/" (z :: l)) = String c s).
      now f_equal.
Qed.

Lemma split_slash_no_slash s : no_slash s = true -> split_slash s = [s].
Proof.
  induction s as [|c s IH]; [reflexivity|].
  unfold no_slash. cbn [list_ascii_of_string forallb].
  intros [Hc Hs]%andb_true_iff. cbn [split_slash].
  apply negb_true_iff in Hc. rewrite Hc. fold (no_slash s) in Hs.
  now rewrite (IH Hs).
Qed.

Lemma split_slash_app base last :
  no_slash last = true ->
  split_slash (base +:+ "/" +:+ last) = (split_slash base ++ [last])%list.
Proof.
  intros Hlast. induction base as [|c base IH].
  - change ("" +:+ "/" +:+ last) with (String "/" last).
    cbn [split_slash Ascii.eqb Bool.eqb]. now rewrite split_slash_no_slash.
  - change (String c base +:+ "/" +:+ last) with (String c (base +:+ "/" +:+ last)).
    cbn [split_slash]. rewrite IH.
    destruct (Ascii.eqb c "/"); [reflexivity|].
    destruct (split_slash base) as [|y l] eqn:Hs; [now apply split_slash_nonempty in Hs|].
    reflexivity.
Qed.

Lemma removelast_snoc {A} (l : list A) (x : A) : removelast (l ++ [x]) = l.
Proof. apply removelast_last. Qed.

Lemma concat_snoc (l : list string) (p : string) :
  l <> [] -> String.concat "/" (l ++ [p]) = String.concat "/" l +:+ "/" +:+ p.
Proof.
  induction l as [|x l IH]; [congruence|]. intros _.
  destruct l as [|y l].
  - reflexivity.
  - change ((x :: y :: l) ++ [p])%list with (x :: (y :: l) ++ [p])%list.
    change ((y :: l) ++ [p])%list with (y :: (l ++ [p]))%list.
    rewrite !concat_cons.
    change (y :: (l ++ [p]))%list with ((y :: l) ++ [p])%list.
    rewrite IH by discriminate. now rewrite !append_assoc.
Qed.

(** X3. [relative_url] replaces what follows the last [/] of the URL by
    the path, and keeps everything up to that [/]; a URL without any [/]
    is replaced as a whole. *)
Theorem relative_url_replaces_last_segment :
  (forall base last path,
     no_slash last = true ->
     relative_url (base +:+ "/" +:+ last) path = base +:+ "/" +:+ path) /\
  (forall url path, no_slash url = true -> relative_url url path = path).
Proof.
  split.
  - intros base last path Hlast. unfold relative_url.
    rewrite (split_slash_app base last Hlast), removelast_snoc.
    rewrite concat_snoc by apply split_slash_nonempty.
    now rewrite concat_split_slash.
  - intros url path Hurl. unfold relative_url.
    now rewrite (split_slash_no_slash url Hurl).
Qed.

Lemma relative_url_witness :
  relative_url "http://localhost:8000/test/authorize" "callback"
  = "http://localhost:8000/test/callback".
Proof.
  apply (proj1 relative_url_replaces_last_segment "http://localhost:8000/test"
           "authorize" "callback").
  reflexivity.
Defined.

End UrlFacts.

Module AuthorizeFacts.
Import Py Storage OAuth.

(** Pydantic reads back the authorization requests that it wrote, when
    their method is the one the model allows. *)
Definition request_data_round_trips
    `{!BaseModel OAuth2AuthorizationRequestData} : Prop :=
  forall d : OAuth2AuthorizationRequestData,
    ar_code_challenge_method d = "S256" ->
    model_validate_json (model_dump_json d) = Some d.

Section Authorize.

Context {S : Type} `{!AccountsStorage S}.
Context `{!BaseModel OAuth2AuthorizationRequestData}.
Variable validate_http_url : string -> option string.

(** The parameters that [build_authorization_params] gives the redirect
    to the provider, for a provider with the scopes [scopes_]. *)
Definition authorization_params (self : OAuth2Provider) (scopes_ : list string)
    (pkce : bool) (state proxy_redirect_uri challenge : string)
    (login_hint : option string) : list (string * string) :=
  ([ ("client_id", client_id self);
     ("scope", String.concat " " scopes_);
     ("redirect_uri", proxy_redirect_uri);
     ("state", state);
     ("response_type", "code") ]
   ++ (if pkce
       then [ ("code_challenge", challenge); ("code_challenge_method", "S256") ]
       else [])
   ++ match login_hint with
      | Some hint => if String.eqb hint "" then [] else [("login_hint", hint)]
      | None => []
      end)%list.

(** X4. A request that passes every check of [authorize], for a provider
    that defines its scopes and whether it supports PKCE, is answered
    with a redirect to the authorization endpoint of the provider. The
    parameters of the redirect are, in this order: the [client_id], the
    scopes joined by spaces, the callback URL of the broker as
    [redirect_uri], the fresh [state] and [response_type=code]; then the
    challenge of the client with the method [S256] when the provider
    supports PKCE; then the [login_hint] when the request has a
    non-empty one. And what is stored under that state reads back as the
    validated [redirect_uri], the [code_challenge], the method [S256],
    the [state] of the client and the [link] flag of the request. *)
Theorem authorize_stores_request (self : OAuth2Provider) (env : Env)
    (request : AsyncHTTPRequest) (context : Context S)
    (uri validated response_type challenge : string)
    (scopes_ : list string) (pkce : bool) :
  request_data_round_trips ->
  scopes self = Some scopes_ ->
  supports_pkce self = Some pkce ->
  truthy (query_params request !! "redirect_uri") = Some uri ->
  validate_http_url uri = Some validated ->
  is_valid_redirect_uri context validated = true ->
  truthy (query_params request !! "response_type") = Some response_type ->
  response_type = "code" \/ response_type = "link_code" ->
  truthy (query_params request !! "code_challenge") = Some challenge ->
  query_params request !! "code_challenge_method" = Some "S256" ->
  fst (authorize validate_http_url self env request context)
  = Ok (Response_redirect (authorization_endpoint self)
          (authorization_params self scopes_ pkce (token_hex env)
             (relative_url (url request) "callback") challenge
             (query_params request !! "login_hint"))) /\
  (model_validate_json <$>
     storage_get ("oauth:authorization_request:" +:+ token_hex env)
       (secondary_storage
          (snd (authorize validate_http_url self env request context))))
  = Some (Some {| ar_redirect_uri := validated;
                  ar_login_hint := query_params request !! "login_hint";
                  ar_client_state := query_params request !! "state";
                  ar_state := token_hex env;
                  ar_code_challenge := challenge;
                  ar_code_challenge_method := "S256";
                  ar_link := String.eqb response_type "link_code" |}).
Proof.
  intros Hrt Hscopes Hpkce Huri Hvalid Htrusted Htype Hsupported Hchallenge Hmethod.
  unfold authorize.
  rewrite Huri, Hvalid, Htrusted, Htype, Hchallenge, Hmethod.
  assert (Hin : existsb (String.eqb response_type) ["code"; "link_code"] = true)
    by (destruct Hsupported as [-> | ->]; reflexivity).
  rewrite Hin. rewrite bool_decide_eq_true_2 by reflexivity.
  cbn [negb].
  assert (Hparams :
            build_authorization_params self (token_hex env)
              (relative_url (url request) "callback") "code" challenge "S256"
              (query_params request !! "login_hint")
            = Ok (authorization_params self scopes_ pkce (token_hex env)
                    (relative_url (url request) "callback") challenge
                    (query_params request !! "login_hint"))).
  { unfold build_authorization_params, authorization_params, truthy.
    rewrite Hscopes, Hpkce.
    destruct (query_params request !! "login_hint") as [hint|];
      [destruct (String.eqb hint "")|]; destruct pkce; cbn [app];
      try reflexivity; now rewrite ?app_nil_r. }
  rewrite Hparams. cbn [fst snd secondary_storage with_secondary].
  split; [reflexivity|].
  unfold storage_get, storage_set. rewrite lookup_insert_eq.
  cbn [fmap option_fmap option_map].
  match goal with |- context [model_dump_json ?d] =>
    now rewrite (Hrt d eq_refl) end.
Qed.


End Authorize.

End AuthorizeFacts.

Module CallbackFacts.
Import Py Storage OAuth OAuthFacts.

(** Pydantic reads back the grants and the link data that it wrote. *)
Definition grant_round_trips `{!BaseModel AuthorizationCodeGrantData} : Prop :=
  forall d : AuthorizationCodeGrantData,
    cg_code_challenge_method d = "S256" ->
    model_validate_json (model_dump_json d) = Some d.

Definition link_data_round_trips `{!BaseModel OAuth2LinkCodeData} : Prop :=
  forall d : OAuth2LinkCodeData,
    lc_code_challenge_method d = "S256" ->
    model_dump_json d <> "" /\ model_validate_json (model_dump_json d) = Some d.

Lemma request_key_not_code_key (state code : string) :
  "oauth:authorization_request:" +:+ state <> "oauth:code:" +:+ code.
Proof. cbv [String.append]. discriminate. Qed.

Lemma request_key_not_link_key (state code : string) :
  "oauth:authorization_request:" +:+ state <> "oauth:link_request:" +:+ code.
Proof. cbv [String.append]. discriminate. Qed.

Section Callback.

Context {S : Type} `{!AccountsStorage S}.
Context `{!BaseModel OAuth2AuthorizationRequestData}
        `{!BaseModel OAuth2LinkCodeData}
        `{!BaseModel AuthorizationCodeGrantData}
        `{!BaseModel OAuth2TokenEndpointResponse}.

(** A callback that has loaded the stored request [provider_data] and
    received the upstream [code]. *)
Definition callback_loads (request : AsyncHTTPRequest) (context : Context S)
    (provider_data : OAuth2AuthorizationRequestData) (code : string) : Prop :=
  exists state raw,
    truthy (query_params request !! "state") = Some state /\
    truthy (storage_get ("oauth:authorization_request:" +:+ state)
              (secondary_storage context)) = Some raw /\
    model_validate_json raw = Some provider_data /\
    truthy (query_params request !! "code") = Some code.

(** X6. Whatever happens in [callback], a response that redirects the
    browser sends it to the [redirect_uri] of the stored authorization
    request, and nowhere else. *)
Theorem callback_redirects_to_stored_uri (self : OAuth2Provider) (env : Env)
    (request : AsyncHTTPRequest) (context : Context S)
    (response : Response) (target : string) :
  fst (callback self env request context) = Ok response ->
  redirect_target response = Some target ->
  exists state raw provider_data,
    truthy (query_params request !! "state") = Some state /\
    truthy (storage_get ("oauth:authorization_request:" +:+ state)
              (secondary_storage context)) = Some raw /\
    model_validate_json raw = Some provider_data /\
    target = ar_redirect_uri provider_data.
Proof.
  unfold callback, _link_flow, callback_grant.
  repeat case_match; cbn [fst]; intros Hr Ht; try discriminate;
    apply (f_equal (fun r => match r with Ok x => redirect_target x | Raise _ => None end)) in Hr;
    cbn [redirect_target] in Hr; rewrite Ht in Hr; try discriminate;
    injection Hr as <-; eexists _, _, _; repeat split; eassumption.
Qed.

(** X7. [callback] writes at most one key of the secondary storage, the
    one of the code it issues ([oauth:code:] or [oauth:link_request:]
    followed by the fresh code). The stored authorization request is
    never deleted or changed: it is still there for another callback
    with the same [state]. *)
Theorem callback_keeps_request_state (self : OAuth2Provider) (env : Env)
    (request : AsyncHTTPRequest) (context : Context S) :
  let storage := secondary_storage (snd (callback self env request context)) in
  (forall key,
     key <> "oauth:code:" +:+ uuid4 env ->
     key <> "oauth:link_request:" +:+ uuid4 env ->
     storage !! key = secondary_storage context !! key) /\
  (forall state,
     storage !! ("oauth:authorization_request:" +:+ state)
     = secondary_storage context !! ("oauth:authorization_request:" +:+ state)).
Proof.
  cbv zeta.
  assert (Hframe : forall key,
             key <> "oauth:code:" +:+ uuid4 env ->
             key <> "oauth:link_request:" +:+ uuid4 env ->
             secondary_storage (snd (callback self env request context)) !! key
             = secondary_storage context !! key).
  { intros key Hcode Hlink. unfold callback, _link_flow, callback_grant.
    repeat case_match; cbn [snd secondary_storage with_secondary with_accounts];
      try reflexivity; unfold storage_set; now rewrite lookup_insert_ne. }
  split; [exact Hframe|].
  intros state. apply Hframe.
  - apply request_key_not_code_key.
  - apply request_key_not_link_key.
Qed.

(** An exception of [_fetch_user_info] is an [OAuth2Exception] with the
    error [server_error], or the [AttributeError] of a user-info body
    that is not a JSON object. *)
Lemma fetch_user_info_raises (self : OAuth2Provider) (env : Env)
    (request : AsyncHTTPRequest) (code : string) (e : exn) :
  _fetch_user_info self env request code = Raise e ->
  (exists description, e = OAuth2Exception "server_error" description)
  \/ (e = AttributeError /\
      exists token, fetch_user_info self env token = Some Json_other).
Proof.
  unfold _fetch_user_info, _exchange_code, get_code_verifier.
  repeat case_match; intros Hr; try discriminate; injection Hr as <-; eauto.
Qed.


(** X9. When the provider fails a login callback, the token exchange or
    the user-info request, and [_fetch_user_info] raises its
    [OAuth2Exception], the error of the exception, which is
    [server_error], is delivered with its description as a redirect to
    the stored [redirect_uri], and the context is what it was. The
    [AttributeError] of a user-info body that is not a JSON object is not
    caught: [callback] raises it, with the context unchanged. *)
Theorem callback_upstream_failure (self : OAuth2Provider) (env : Env)
    (request : AsyncHTTPRequest) (context : Context S)
    (provider_data : OAuth2AuthorizationRequestData) (code : string) :
  callback_loads request context provider_data code ->
  ar_link provider_data = false ->
  (forall error description,
     _fetch_user_info self env request code
     = Raise (OAuth2Exception error description) ->
     error = "server_error" /\
     callback self env request context
     = (Ok (Response_error_redirect (ar_redirect_uri provider_data)
              "server_error" description),
        context)) /\
  (_fetch_user_info self env request code = Raise AttributeError ->
   callback self env request context = (Raise AttributeError, context)).
Proof.
  intros (state & raw & Hs & Hr & Hv & Hc) Hlink. split.
  - intros error description Hfetch.
    destruct (fetch_user_info_raises self env request code _ Hfetch)
      as [[description' E] | [E _]]; [|discriminate].
    injection E as -> <-. split; [reflexivity|].
    unfold callback. now rewrite Hs, Hr, Hv, Hc, Hlink, Hfetch.
  - intros Hfetch. unfold callback.
    now rewrite Hs, Hr, Hv, Hc, Hlink, Hfetch.
Qed.

(** X10. In link mode [callback] defers everything: it does not call the
    provider (its outcome is the same whatever the provider would
    answer) and does not touch the account store; it stores, under a
    fresh link code, link data that read back with the upstream code, the
    challenge of the authorization request and an expiry ten minutes
    ahead, and redirects to the stored [redirect_uri] with that
    [link_code]. *)
Theorem callback_link_defers (self : OAuth2Provider) (env env' : Env)
    (request : AsyncHTTPRequest) (context : Context S)
    (provider_data : OAuth2AuthorizationRequestData) (code : string) :
  link_data_round_trips ->
  callback_loads request context provider_data code ->
  ar_link provider_data = true ->
  ar_code_challenge_method provider_data = "S256" ->
  now env' = now env -> uuid4 env' = uuid4 env ->
  let outcome := callback self env request context in
  fst outcome
  = Ok (Response_redirect (ar_redirect_uri provider_data)
          [("link_code", uuid4 env)]) /\
  accounts_storage (snd outcome) = accounts_storage context /\
  (model_validate_json <$>
     truthy (storage_get ("oauth:link_request:" +:+ uuid4 env)
               (secondary_storage (snd outcome))))
  = Some (Some {| lc_expires_at := now env + 600;
                  lc_client_id := client_id self;
                  lc_redirect_uri := ar_redirect_uri provider_data;
                  lc_code_challenge := ar_code_challenge provider_data;
                  lc_code_challenge_method := "S256";
                  lc_provider_code := code |}) /\
  callback self env' request context = outcome.
Proof.
  intros Hrt (state & raw & Hs & Hr & Hv & Hc) Hlink Hmethod Hnow Huuid.
  cbv zeta. unfold callback, _link_flow.
  rewrite Hs, Hr, Hv, Hc, Hlink, Hnow, Huuid, Hmethod.
  cbn [fst snd secondary_storage accounts_storage with_secondary].
  repeat split.
  unfold storage_get, storage_set. rewrite lookup_insert_eq.
  match goal with |- context [model_dump_json ?d] =>
    destruct (Hrt d eq_refl) as [Hne Hval] end.
  unfold truthy. destruct (String.eqb _ "") eqn:E;
    [apply String.eqb_eq in E; contradiction|].
  cbn [fmap option_fmap option_map]. now rewrite Hval.
Qed.

(** X11. When the account store refuses to create the user of a first
    login with a [FastAPIAuthException], the error and the description
    of the exception are delivered as a redirect to the stored
    [redirect_uri]; no grant is stored. *)
Theorem callback_policy_rejection (self : OAuth2Provider) (env : Env)
    (request : AsyncHTTPRequest) (context : Context S)
    (provider_data : OAuth2AuthorizationRequestData)
    (user_info : UserInfo) (token_response : TokenResponse)
    (email provider_user_id error error_description : string) (accounts : S) :
  login_callback_resolves self env request context provider_data
    user_info token_response email provider_user_id ->
  find_social_account (accounts_storage context) (id self) provider_user_id = None ->
  find_user_by_email (accounts_storage context) email = None ->
  create_user (accounts_storage context) user_info
  = (Raise (FastAPIAuthException error error_description), accounts) ->
  callback self env request context
  = (Ok (Response_error_redirect (ar_redirect_uri provider_data)
           error error_description),
     with_accounts context accounts).
Proof.
  intros (state & raw & code & Hs & Hr & Hv & Hc & Hl & Hf & He & Hi)
    Hnone Hnouser Hcreate.
  unfold callback.
  now rewrite Hs, Hr, Hv, Hc, Hl, Hf, He, Hi, Hnone, Hnouser, Hcreate.
Qed.

(** The grant that [callback] stores for the user [user_id]. *)
Definition grant_for (self : OAuth2Provider) (env : Env)
    (provider_data : OAuth2AuthorizationRequestData) (user_id : string)
  : AuthorizationCodeGrantData :=
  {| cg_user_id := user_id;
     cg_expires_at := now env + 600;
     cg_client_id := client_id self;
     cg_redirect_uri := ar_redirect_uri provider_data;
     cg_code_challenge := ar_code_challenge provider_data;
     cg_code_challenge_method := ar_code_challenge_method provider_data |}.

(** X12. A login callback that succeeds, for a social account that
    exists or for a user it creates, redirects to the stored
    [redirect_uri] with a fresh [code], and the grant stored under that
    code reads back with the [id] of the resolved user, an expiry ten
    minutes ahead and the [code_challenge] of the authorization request:
    the code is bound to the PKCE challenge that the client sent to
    [authorize]. *)
Theorem callback_issues_bound_grant (self : OAuth2Provider) (env : Env)
    (request : AsyncHTTPRequest) (context : Context S)
    (provider_data : OAuth2AuthorizationRequestData)
    (user_info : UserInfo) (token_response : TokenResponse)
    (email provider_user_id : string) (user : User) :
  grant_round_trips ->
  ar_code_challenge_method provider_data = "S256" ->
  login_callback_resolves self env request context provider_data
    user_info token_response email provider_user_id ->
  ((exists social_account updated accounts,
      find_social_account (accounts_storage context) (id self) provider_user_id
      = Some social_account /\
      update_social_account (accounts_storage context) (sa_id social_account)
        token_response user_info = (Ok updated, accounts) /\
      find_user_by_id accounts (sa_user_id social_account) = Some user)
   \/
   (exists accounts created accounts',
      find_social_account (accounts_storage context) (id self) provider_user_id
      = None /\
      find_user_by_email (accounts_storage context) email = None /\
      create_user (accounts_storage context) user_info = (Ok user, accounts) /\
      create_social_account accounts (u_id user) (id self) provider_user_id
        token_response user_info = (Ok created, accounts'))) ->
  let outcome := callback self env request context in
  fst outcome
  = Ok (Response_redirect (ar_redirect_uri provider_data) [("code", uuid4 env)]) /\
  (model_validate_json <$>
     storage_get ("oauth:code:" +:+ uuid4 env) (secondary_storage (snd outcome)))
  = Some (Some (grant_for self env provider_data (u_id user))).
Proof.
  intros Hrt Hmethod
    (state & raw & code & Hs & Hr & Hv & Hc & Hl & Hf & He & Hi) Hpath.
  cbv zeta. unfold callback.
  rewrite Hs, Hr, Hv, Hc, Hl, Hf, He, Hi.
  destruct Hpath as [(sa & updated & accounts & Hfound & Hupdate & Howner)
                    | (accounts & created & accounts' & Hnone & Hnouser & Hcreate & Hlink)].
  - rewrite Hfound, Hupdate, Howner. unfold callback_grant.
    cbn [fst snd secondary_storage with_secondary with_accounts].
    split; [reflexivity|].
    unfold storage_get, storage_set. rewrite lookup_insert_eq.
    cbn [fmap option_fmap option_map]. unfold grant_for.
    match goal with |- context [model_dump_json ?d] =>
      now rewrite (Hrt d Hmethod) end.
  - rewrite Hnone, Hnouser, Hcreate, Hlink. unfold callback_grant.
    cbn [fst snd secondary_storage with_secondary with_accounts].
    split; [reflexivity|].
    unfold storage_get, storage_set. rewrite lookup_insert_eq.
    cbn [fmap option_fmap option_map]. unfold grant_for.
    match goal with |- context [model_dump_json ?d] =>
      now rewrite (Hrt d Hmethod) end.
Qed.

End Callback.

End CallbackFacts.

Module FinalizeFacts.
Import Py Storage OAuth OAuthFacts LinkFacts PkceFacts.

Section Finalize.

Context {S : Type} `{!AccountsStorage S}.
Context `{!BaseModel OAuth2AuthorizationRequestData}
        `{!BaseModel OAuth2LinkCodeData}
        `{!BaseModel AuthorizationCodeGrantData}
        `{!BaseModel OAuth2TokenEndpointResponse}.
Variable json_loads : string -> option (gmap string string).

(** X13. [finalize_link] never answers with a redirect. Without an
    authenticated caller it answers [unauthorized] with the status 401 and
    changes nothing. And it changes the account store only for an
    authenticated caller who presents a stored, unexpired link code and a
    verifier that [validate_pkce] accepts against its challenge. *)
Theorem finalize_link_guards (self : OAuth2Provider) (env : Env)
    (request : AsyncHTTPRequest) (context : Context S) :
  let outcome := finalize_link json_loads self env request context in
  (forall response, fst outcome = Ok response -> redirect_target response = None) /\
  (get_user_from_request context request = None ->
   outcome
   = (Ok (Response_error "unauthorized" (Some "Not logged in") (Some 401)),
      context)) /\
  (accounts_storage (snd outcome) <> accounts_storage context ->
   exists user user_info token_response provider_user_id,
     link_resolves json_loads self env request context user user_info
       token_response provider_user_id).
Proof.
  cbv zeta. split; [|split].
  - intros response. unfold finalize_link.
    repeat case_match; cbn [fst]; intros Hr; try discriminate;
      injection Hr as <-; reflexivity.
  - intros Hnone. unfold finalize_link. now rewrite Hnone.
  - intros Hchanged.
    destruct (finalize_link_cases json_loads self env request context)
      as [(r & Hr & _) | Hresolves]; [|exact Hresolves].
    rewrite Hr in Hchanged. now destruct Hchanged.
Qed.

(** An authenticated call of [finalize_link] that presents the link code
    under which [link_data] is stored, before it expires, with the
    verifier [code_verifier]. *)
Definition presents_link_code (env : Env) (request : AsyncHTTPRequest)
    (context : Context S) (link_data : OAuth2LinkCodeData)
    (code_verifier : string) : Prop :=
  exists user request_data code raw,
    get_user_from_request context request = Some user /\
    json_loads (body request) = Some request_data /\
    truthy (request_data !! "link_code") = Some code /\
    truthy (storage_get ("oauth:link_request:" +:+ code)
              (secondary_storage context)) = Some raw /\
    model_validate_json raw = Some link_data /\
    now env <= lc_expires_at link_data /\
    lc_code_challenge_method link_data = "S256" /\
    truthy (request_data !! "code_verifier") = Some code_verifier.

(** X14. The verifier check of [finalize_link], for an ASCII verifier:
    when the stored challenge is ASCII and is not the S256 challenge of
    the verifier, the call is refused with [Invalid code challenge],
    before the provider is asked anything and with the context
    unchanged; when the stored challenge is not ASCII, the comparison
    raises [TypeError]. A verifier that is not ASCII is not refused with
    an error response either: [finalize_link] raises
    [UnicodeEncodeError]. *)
Theorem finalize_link_checks_verifier (self : OAuth2Provider) (env : Env)
    (request : AsyncHTTPRequest) (context : Context S)
    (link_data : OAuth2LinkCodeData) (code_verifier : string) :
  presents_link_code env request context link_data code_verifier ->
  (forall challenge,
     Pkce.calculate_s256_challenge code_verifier = Ok challenge ->
     (isascii (lc_code_challenge link_data) = true ->
      challenge <> lc_code_challenge link_data ->
      finalize_link json_loads self env request context
      = (Ok (Response_error "server_error" (Some "Invalid code challenge") None),
         context)) /\
     (isascii (lc_code_challenge link_data) = false ->
      finalize_link json_loads self env request context
      = (Raise TypeError, context))) /\
  (isascii code_verifier = false ->
   finalize_link json_loads self env request context
   = (Raise UnicodeEncodeError, context)).
Proof.
  intros (user & rd & code & raw & Hu & Hj & Hc & Hr & Hv & Ht & Hm & Hcv).
  assert (Hfresh : (lc_expires_at link_data <? now env) = false)
    by (apply Z.ltb_ge; lia).
  split.
  - intros challenge Hchallenge. split.
    + intros Hascii Hne. unfold finalize_link.
      rewrite Hu, Hj, Hc, Hr, Hv, Hfresh, Hcv, Hm.
      cbn [String.eqb Ascii.eqb Bool.eqb negb].
      rewrite (validate_pkce_compares _ _ _ Hascii Hchallenge).
      destruct (String.eqb challenge (lc_code_challenge link_data)) eqn:E;
        [|reflexivity].
      apply String.eqb_eq in E. contradiction.
    + intros Hascii. unfold finalize_link.
      rewrite Hu, Hj, Hc, Hr, Hv, Hfresh, Hcv, Hm.
      cbn [String.eqb Ascii.eqb Bool.eqb negb].
      unfold Pkce.validate_pkce. cbn [String.eqb Ascii.eqb Bool.eqb negb].
      rewrite Hchallenge. unfold Pkce.compare_digest.
      now rewrite Hascii, andb_false_r.
  - intros Hascii. unfold finalize_link.
    rewrite Hu, Hj, Hc, Hr, Hv, Hfresh, Hcv, Hm.
    cbn [String.eqb Ascii.eqb Bool.eqb negb].
    unfold Pkce.validate_pkce. cbn [String.eqb Ascii.eqb Bool.eqb negb].
    now rewrite (calculate_s256_challenge_not_ascii _ Hascii).
Qed.

(** X15. The link code that [callback] issues in link mode at the
    instant [now env] is refused by [finalize_link] with [Link code has
    expired] at every instant later than ten minutes after it, and the
    context is left as it was. *)
Theorem link_code_expires (self : OAuth2Provider) (env env' : Env)
    (request finalize : AsyncHTTPRequest) (context : Context S)
    (provider_data : OAuth2AuthorizationRequestData) (code : string)
    (user : User) (request_data : gmap string string) :
  CallbackFacts.link_data_round_trips ->
  CallbackFacts.callback_loads request context provider_data code ->
  ar_link provider_data = true ->
  ar_code_challenge_method provider_data = "S256" ->
  get_user_from_request context finalize = Some user ->
  json_loads (body finalize) = Some request_data ->
  truthy (request_data !! "link_code") = Some (uuid4 env) ->
  now env + 600 < now env' ->
  let linked := snd (callback self env request context) in
  finalize_link json_loads self env' finalize linked
  = (Ok (Response_error "server_error" (Some "Link code has expired") None),
     linked).
Proof.
  intros Hrt (state & raw & Hs & Hr & Hv & Hcode) Hlink Hmethod Hu Hj Hc Hlate.
  cbv zeta. unfold callback, _link_flow.
  rewrite Hs, Hr, Hv, Hcode, Hlink, Hmethod.
  cbn [fst snd]. unfold finalize_link.
  cbn [get_user_from_request secondary_storage with_secondary].
  rewrite Hu, Hj, Hc.
  unfold storage_get, storage_set. rewrite lookup_insert_eq.
  match goal with |- context [model_dump_json ?d] =>
    destruct (Hrt d eq_refl) as [Hne Hval] end.
  unfold truthy at 1. destruct (String.eqb _ "") eqn:E;
    [apply String.eqb_eq in E; contradiction|].
  rewrite Hval. cbn [lc_expires_at].
  destruct (now env + 600 <? now env') eqn:E'; [reflexivity|].
  apply Z.ltb_ge in E'. lia.
Qed.

End Finalize.

End FinalizeFacts.

Module DeviceMore.
Import Py Utils DeviceFacts.

Lemma device_key_not_user_code_key (code user_code : string) :
  "auth:device:" +:+ code <> "auth:user-code:" +:+ user_code.
Proof. cbv [String.append]. discriminate. Qed.

Lemma redis_get_expired (t now ex : Z) (key v : string) (redis : gmap string entry) :
  t + ex <= now ->
  redis_get now key (redis_set t key v ex redis) = None.
Proof.
  intros Hnow. unfold redis_get, redis_set.
  rewrite lookup_insert_eq. cbn.
  destruct (t + ex <=? now) eqn:E; [reflexivity|].
  apply Z.leb_gt in E. lia.
Qed.

Section Device.

Context `{!BaseModel DeviceAuthorizationData}.
Variable settings : Settings.

(** The record that [create_and_store_device_code] stores. *)
Definition created_record (t : Z) (uuid4 client_id_ : string)
    (request_ip_ : option string) : DeviceAuthorizationData :=
  {| device_code := uuid4;
     client_id := client_id_;
     created_at := t;
     expires_at := t + DEVICE_AUTH_TTL_MINUTES settings * 60;
     request_ip := request_ip_;
     status := pending;
     access_token := None |}.

Lemma created_found (t now : Z) (uuid4 user_code client_id_ : string)
    (request_ip_ : option string) (redis : gmap string entry) :
  round_trips DeviceAuthorizationData ->
  dumps_nonempty DeviceAuthorizationData ->
  t <= now < t + DEVICE_AUTH_TTL_MINUTES settings * 60 ->
  get_device_authorization_data now uuid4
    (snd (create_and_store_device_code settings t uuid4 user_code client_id_
            request_ip_ redis))
  = Ok (Some (created_record t uuid4 client_id_ request_ip_)).
Proof.
  intros Hrt Hne Hnow.
  unfold create_and_store_device_code. cbn [snd].
  unfold get_device_authorization_data.
  rewrite redis_get_set_other
    by (intros E; symmetry in E; revert E; apply device_key_not_user_code_key).
  rewrite redis_get_set by exact Hnow.
  rewrite truthy_nonempty by apply Hne.
  now rewrite Hrt.
Qed.

(** X16. [create_and_store_device_code] returns the device code it drew,
    and from the instant of creation until [DEVICE_AUTH_TTL_MINUTES]
    later the lookup by device code and the lookup by user code both
    find the same pending record, without access token; from then on
    both find nothing. *)
Theorem device_code_lifetime (t : Z) (uuid4 user_code client_id_ : string)
    (request_ip_ : option string) (redis : gmap string entry) :
  round_trips DeviceAuthorizationData ->
  dumps_nonempty DeviceAuthorizationData ->
  uuid4 <> "" ->
  let created :=
    create_and_store_device_code settings t uuid4 user_code client_id_
      request_ip_ redis in
  let record := created_record t uuid4 client_id_ request_ip_ in
  fst created = uuid4 /\
  (forall now, t <= now < t + DEVICE_AUTH_TTL_MINUTES settings * 60 ->
     get_device_authorization_data now uuid4 (snd created) = Ok (Some record) /\
     get_device_authorization_data_by_user_code now user_code (snd created)
     = Ok (Some record)) /\
  (forall now, t + DEVICE_AUTH_TTL_MINUTES settings * 60 <= now ->
     get_device_authorization_data now uuid4 (snd created) = Ok None /\
     get_device_authorization_data_by_user_code now user_code (snd created)
     = Ok None).
Proof.
  intros Hrt Hne Huuid. cbv zeta.
  split; [reflexivity|]. split.
  - intros now Hnow.
    pose proof (created_found t now uuid4 user_code client_id_ request_ip_
                  redis Hrt Hne Hnow) as Hget.
    split; [exact Hget|].
    unfold get_device_authorization_data_by_user_code.
    unfold create_and_store_device_code at 1. cbn [snd].
    rewrite redis_get_set by exact Hnow.
    rewrite truthy_nonempty by exact Huuid.
    exact Hget.
  - intros now Hnow. unfold create_and_store_device_code. cbn [snd]. split.
    + unfold get_device_authorization_data.
      rewrite redis_get_set_other
        by (intros E; symmetry in E; revert E; apply device_key_not_user_code_key).
      now rewrite redis_get_expired by exact Hnow.
    + unfold get_device_authorization_data_by_user_code.
      now rewrite redis_get_expired by exact Hnow.
Qed.

(** X17. [authorize_device_code] for a device code that has no record,
    because none was stored or because the one created has expired,
    raises [ValueError] and leaves the database as it was; and whatever
    the outcome, no key but the one of this device code is changed. *)
Theorem authorize_device_code_unknown (now : Z) (code token : string)
    (redis : gmap string entry) :
  (redis !! ("auth:device:" +:+ code) = None ->
   authorize_device_code settings now code token redis
   = (Raise (ValueError "Device code not found"), redis)) /\
  (forall t user_code client_id_ request_ip_,
     t + DEVICE_AUTH_TTL_MINUTES settings * 60 <= now ->
     let created :=
       snd (create_and_store_device_code settings t code user_code client_id_
              request_ip_ redis) in
     authorize_device_code settings now code token created
     = (Raise (ValueError "Device code not found"), created)) /\
  (forall key, key <> "auth:device:" +:+ code ->
     snd (authorize_device_code settings now code token redis) !! key
     = redis !! key).
Proof.
  split; [|split].
  - intros Hnone. unfold authorize_device_code, get_device_authorization_data,
      redis_get. now rewrite Hnone.
  - intros t user_code client_id_ request_ip_ Hnow. cbv zeta.
    unfold create_and_store_device_code. cbn [snd].
    unfold authorize_device_code, get_device_authorization_data.
    rewrite redis_get_set_other
      by (intros E; symmetry in E; revert E; apply device_key_not_user_code_key).
    now rewrite redis_get_expired by exact Hnow.
  - intros key Hkey. unfold authorize_device_code.
    destruct (get_device_authorization_data now code redis) as [[d|]|e];
      cbn [snd]; try reflexivity.
    unfold redis_set. now rewrite lookup_insert_ne by (intros E; now apply Hkey).
Qed.

(** X18. Authorizing a device code does not extend the life of its user
    code. After an authorization at [t1] the lookup by user code finds
    the authorized record until the deadline set at creation, and
    nothing after it, while the lookup by device code goes on finding
    the record until [DEVICE_AUTH_TTL_MINUTES] after [t1]. *)
Theorem authorize_keeps_user_code_deadline (t t1 : Z)
    (uuid4 user_code client_id_ token : string)
    (request_ip_ : option string) (redis : gmap string entry) :
  round_trips DeviceAuthorizationData ->
  dumps_nonempty DeviceAuthorizationData ->
  uuid4 <> "" ->
  t <= t1 < t + DEVICE_AUTH_TTL_MINUTES settings * 60 ->
  let created :=
    snd (create_and_store_device_code settings t uuid4 user_code client_id_
           request_ip_ redis) in
  let redis' := snd (authorize_device_code settings t1 uuid4 token created) in
  let record :=
    authorized_with token (created_record t uuid4 client_id_ request_ip_) in
  (forall now, t1 <= now < t + DEVICE_AUTH_TTL_MINUTES settings * 60 ->
     get_device_authorization_data_by_user_code now user_code redis'
     = Ok (Some record)) /\
  (forall now,
     t + DEVICE_AUTH_TTL_MINUTES settings * 60 <= now
       < t1 + DEVICE_AUTH_TTL_MINUTES settings * 60 ->
     get_device_authorization_data now uuid4 redis' = Ok (Some record) /\
     get_device_authorization_data_by_user_code now user_code redis' = Ok None).
Proof.
  intros Hrt Hne Huuid Ht1. cbv zeta.
  pose proof (created_found t t1 uuid4 user_code client_id_ request_ip_
                redis Hrt Hne Ht1) as Hfound.
  destruct (authorize_found settings Hrt Hne t1 uuid4 token _ _ Hfound)
    as (_ & Hstore & Hlookup).
  rewrite Hstore.
  assert (Hcode : forall now,
    redis_get now ("auth:user-code:" +:+ user_code)
      (redis_set t1 ("auth:device:" +:+ uuid4)
         (model_dump_json
            (authorized_with token (created_record t uuid4 client_id_ request_ip_)))
         (DEVICE_AUTH_TTL_MINUTES settings * 60)
         (snd (create_and_store_device_code settings t uuid4 user_code
                 client_id_ request_ip_ redis)))
    = redis_get now ("auth:user-code:" +:+ user_code)
        (redis_set t ("auth:user-code:" +:+ user_code) uuid4
           (DEVICE_AUTH_TTL_MINUTES settings * 60) redis)).
  { intros now.
    rewrite redis_get_set_other by apply device_key_not_user_code_key.
    unfold create_and_store_device_code. cbn [snd].
    unfold redis_get, redis_set. now rewrite !lookup_insert_eq. }
  split.
  - intros now Hnow. unfold get_device_authorization_data_by_user_code.
    rewrite Hcode, redis_get_set by lia.
    rewrite truthy_nonempty by exact Huuid.
    apply get_after_set; [exact Hrt | exact Hne | lia].
  - intros now Hnow. split.
    + apply get_after_set; [exact Hrt | exact Hne | lia].
    + unfold get_device_authorization_data_by_user_code.
      now rewrite Hcode, redis_get_expired by lia.
Qed.

End Device.

Import Reference.

Lemma device_code_lifetime_witness :
  get_device_authorization_data_by_user_code 30 "uc" example_created
  = Ok (Some (created_record example_settings 0 "dc" "cli" (Some "1.2.3.4"))).
Proof.
  pose proof (device_code_lifetime example_settings 0 "dc" "uc" "cli"
                (Some "1.2.3.4") ∅ ReferenceFacts.device_data_round_trips
                ReferenceFacts.device_data_dumps_nonempty ltac:(discriminate))
    as (_ & Hin & _).
  apply (Hin 30). cbn. lia.
Defined.

Lemma authorize_keeps_user_code_deadline_witness :
  get_device_authorization_data 700 "dc"
    (snd (authorize_device_code example_settings 300 "dc" "tok-1" example_created))
  = Ok (Some (authorized_with "tok-1"
                (created_record example_settings 0 "dc" "cli" (Some "1.2.3.4")))) /\
  get_device_authorization_data_by_user_code 700 "uc"
    (snd (authorize_device_code example_settings 300 "dc" "tok-1" example_created))
  = Ok None.
Proof.
  pose proof (authorize_keeps_user_code_deadline example_settings 0 300
                "dc" "uc" "cli" "tok-1" (Some "1.2.3.4") ∅
                ReferenceFacts.device_data_round_trips
                ReferenceFacts.device_data_dumps_nonempty ltac:(discriminate)
                ltac:(cbn; lia))
    as (_ & Hlate).
  apply (Hlate 700). cbn. lia.
Defined.

End DeviceMore.

Module TokenMore.
Import Py Utils TokenFacts.

(** When [split("-", maxsplit=1)] gives two parts, the string is the
    first part, a dash and the second part. *)
Lemma split_dash_once_join (s kind payload : string) :
  split_dash_once s = [kind; payload] -> s = kind +:+ "-" +:+ payload.
Proof.
  revert kind. induction s as [|c s IH]; intros kind H; cbn in H; [discriminate|].
  destruct (Ascii.eqb c "-") eqn:E.
  - apply Ascii.eqb_eq in E. subst c. now injection H as <- <-.
  - destruct (split_dash_once s) as [|a [|b [|? ?]]]; try discriminate.
    injection H as <- <-.
    change (String c a +:+ "-" +:+ b) with (String c (a +:+ "-" +:+ b)).
    f_equal. now apply IH.
Qed.

Section Tokens.

Context `{!PyJWT}.
Variable settings : Settings.

(** What a verifier of the kind [kind] answers for a subject. *)
Lemma subject_of_kind {A : Type} (kind : TokenType) (s : string)
    (g : string -> A) (x : A) :
  match split_dash_once s with
  | [k; payload] =>
      if String.eqb k (TokenType_value kind)
      then Ok (Some (g payload)) else Ok None
  | _ => Ok None
  end = Ok (Some x)
  <-> exists e, s = TokenType_value kind +:+ "-" +:+ e /\ x = g e.
Proof.
  split.
  - destruct (split_dash_once s) as [|k [|payload [|? ?]]] eqn:Hsplit;
      try discriminate.
    destruct (String.eqb k (TokenType_value kind)) eqn:E; [|discriminate].
    intros [= <-]. apply String.eqb_eq in E. subst k.
    exists payload. split; [|reflexivity]. now apply split_dash_once_join.
  - intros (e & -> & ->). rewrite split_kind_payload.
    now rewrite String.eqb_refl.
Qed.

Lemma subject_never_raises {A : Type} (kind : TokenType) (s : string)
    (g : string -> A) (exception : exn) :
  match split_dash_once s with
  | [k; payload] =>
      if String.eqb k (TokenType_value kind)
      then Ok (Some (g payload)) else Ok None
  | _ => Ok None
  end <> Raise exception.
Proof.
  destruct (split_dash_once s) as [|k [|payload [|? ?]]]; try discriminate.
  destruct (String.eqb k (TokenType_value kind)); discriminate.
Qed.

(** X19. Each of the three verifiers accepts a token exactly when
    [jwt.decode] accepts it with the key of the settings and its subject
    is the value of the verifier's kind, a dash, and the address that is
    returned; the address may itself contain dashes. The [old_email]
    returned for an update token is the one in its claims. And each of
    the three verifiers raises, with [KeyError], exactly when the token
    decodes to claims without subject. *)
Theorem verifiers_accept_own_kind (now : Z) (token : string) :
  let missing_subject :=
    exists claims,
      jwt_decode token (SECRET_KEY settings) now = inr claims /\
      sub claims = None in
  (forall e,
     verify_password_reset_token settings now token = Ok (Some e)
     <-> exists claims,
           jwt_decode token (SECRET_KEY settings) now = inr claims /\
           sub claims = Some ("reset-" +:+ e)) /\
  (forall e,
     verify_email_verification_token settings now token = Ok (Some e)
     <-> exists claims,
           jwt_decode token (SECRET_KEY settings) now = inr claims /\
           sub claims = Some ("email-" +:+ e)) /\
  (forall e old,
     verify_update_email_verification_token settings now token = Ok (Some (e, old))
     <-> exists claims,
           jwt_decode token (SECRET_KEY settings) now = inr claims /\
           sub claims = Some ("update-" +:+ e) /\ old_email claims = old) /\
  (forall exception,
     verify_password_reset_token settings now token = Raise exception
     <-> exception = KeyError /\ missing_subject) /\
  (forall exception,
     verify_email_verification_token settings now token = Raise exception
     <-> exception = KeyError /\ missing_subject) /\
  (forall exception,
     verify_update_email_verification_token settings now token = Raise exception
     <-> exception = KeyError /\ missing_subject).
Proof.
  cbv zeta.
  unfold verify_password_reset_token, verify_email_verification_token,
    verify_update_email_verification_token.
  destruct (jwt_decode token (SECRET_KEY settings) now) as [err|claims].
  { repeat split; try discriminate; try (intros (? & ? & _); discriminate);
      intros (_ & ? & ? & _); discriminate. }
  destruct (sub claims) as [s|] eqn:Hsub.
  - split; [|split; [|split; [|split; [|split]]]].
    + intros e.
      etransitivity; [apply (subject_of_kind reset s (fun p => p) e)|].
      split.
      * intros (e' & -> & ->). now exists claims.
      * intros (claims' & [= <-] & Hs). rewrite Hsub in Hs.
        injection Hs as ->. now exists e.
    + intros e.
      etransitivity; [apply (subject_of_kind email s (fun p => p) e)|].
      split.
      * intros (e' & -> & ->). now exists claims.
      * intros (claims' & [= <-] & Hs). rewrite Hsub in Hs.
        injection Hs as ->. now exists e.
    + intros e old.
      etransitivity;
        [apply (subject_of_kind update s (fun p => (p, old_email claims)) (e, old))|].
      split.
      * intros (e' & -> & [= -> ->]). now exists claims.
      * intros (claims' & [= <-] & Hs & <-). rewrite Hsub in Hs.
        injection Hs as ->. now exists e.
    + intros exception. split.
      * intros Hraise.
        now apply (subject_never_raises reset s (fun p => p)) in Hraise.
      * intros (_ & claims' & [= <-] & Hs). rewrite Hsub in Hs. discriminate.
    + intros exception. split.
      * intros Hraise.
        now apply (subject_never_raises email s (fun p => p)) in Hraise.
      * intros (_ & claims' & [= <-] & Hs). rewrite Hsub in Hs. discriminate.
    + intros exception. split.
      * intros Hraise.
        now apply (subject_never_raises update s
                     (fun p => (p, old_email claims))) in Hraise.
      * intros (_ & claims' & [= <-] & Hs). rewrite Hsub in Hs. discriminate.
  - split; [|split; [|split; [|split; [|split]]]].
    + intros e. split; [discriminate|].
      intros (claims' & [= <-] & Hs). rewrite Hsub in Hs. discriminate.
    + intros e. split; [discriminate|].
      intros (claims' & [= <-] & Hs). rewrite Hsub in Hs. discriminate.
    + intros e old. split; [discriminate|].
      intros (claims' & [= <-] & Hs & _). rewrite Hsub in Hs. discriminate.
    + intros exception. split.
      * intros [= <-]. split; [reflexivity|]. now exists claims.
      * now intros (-> & _).
    + intros exception. split.
      * intros [= <-]. split; [reflexivity|]. now exists claims.
      * now intros (-> & _).
    + intros exception. split.
      * intros [= <-]. split; [reflexivity|]. now exists claims.
      * now intros (-> & _).
Qed.

(** X20. [jwt.decode] compares whole seconds, so the instants at which
    a generated token verifies to its address are exactly those from the
    whole second in which it was issued, which is up to a second before
    the issue itself, to the whole second of its expiry, excluded, which
    is up to a second before the expiry; at every other instant each
    kind of token gives [None]. *)
Theorem token_validity_window (e old : string) (issued now : Z) :
  decodes_own_tokens ->
  (verify_password_reset_token settings now
     (generate_password_reset_token settings issued e)
   = if (timegm issued <=? now)
        && (now <? int_seconds (issued + reset_lifetime settings))
     then Ok (Some e) else Ok None) /\
  (verify_email_verification_token settings now
     (generate_verification_email_token settings issued e)
   = if (timegm issued <=? now)
        && (now <? int_seconds (issued + verification_lifetime settings))
     then Ok (Some e) else Ok None) /\
  (verify_update_email_verification_token settings now
     (generate_verification_update_email_token settings issued e old)
   = if (timegm issued <=? now)
        && (now <? int_seconds (issued + verification_lifetime settings))
     then Ok (Some (e, Some old)) else Ok None) /\
  (timegm issued <= issued < timegm issued + second) /\
  (0 <= issued ->
   forall lifetime, 0 <= lifetime ->
     int_seconds (issued + lifetime) <= issued + lifetime
       < int_seconds (issued + lifetime) + second).
Proof.
  intros Hdecode.
  unfold verify_password_reset_token, verify_email_verification_token,
    verify_update_email_verification_token, generate_password_reset_token,
    generate_verification_email_token, generate_verification_update_email_token.
  unfold reset_lifetime, verification_lifetime.
  rewrite !Hdecode. unfold validate_claims. cbv zeta.
  cbn [encoded_claims nbf exp]. rewrite int_seconds_timegm.
  split; [|split; [|split; [|split]]].
  1-3: repeat match goal with
              | |- context [Z.ltb ?a ?b] => destruct (Z.ltb_spec a b)
              | |- context [Z.leb ?a ?b] => destruct (Z.leb_spec a b)
              end;
       try lia; cbn [andb encoded_claims sub old_email];
       rewrite ?split_kind_payload; reflexivity.
  - unfold timegm, second. Z.to_euclidean_division_equations. lia.
  - intros Hissued lifetime Hlifetime. unfold int_seconds, second.
    rewrite Z.quot_div_nonneg by lia.
    Z.to_euclidean_division_equations. lia.
Qed.

End Tokens.

Import Reference.

(** A token issued half a second after the instant 1000 s verifies at
    the instant 1000 s. *)
Lemma token_validity_window_witness :
  verify_password_reset_token DeviceFacts.example_settings 1000000000
    (generate_password_reset_token DeviceFacts.example_settings 1000500000
       "first-last@example.com")
  = Ok (Some "first-last@example.com").
Proof.
  apply (token_validity_window DeviceFacts.example_settings
           "first-last@example.com" "old@example.com" 1000500000 1000000000
           ReferenceFacts.reference_jwt_decodes_own_tokens).
Defined.

End TokenMore.

Module MemoryMore.
Import Py Storage Memory MemoryFacts.

Lemma find_app_some {A : Type} (p : A -> bool) (l1 l2 : list A) (a : A) :
  List.find p l1 = Some a -> List.find p (l1 ++ l2) = Some a.
Proof.
  induction l1 as [|x l1 IH]; cbn; [discriminate|].
  destruct (p x); [trivial|exact IH].
Qed.

Lemma find_none_update_first {A : Type} (p : A -> bool) (f : A -> A) (l : list A) :
  List.find p l = None -> update_first p f l = None.
Proof.
  induction l as [|x l IH]; cbn; [reflexivity|].
  destruct (p x); [discriminate|]. intros H. now rewrite IH.
Qed.

Lemma update_first_found {A : Type} (p : A -> bool) (f : A -> A) (l : list A) (a : A) :
  (forall x, p (f x) = p x) ->
  List.find p l = Some a ->
  exists l', update_first p f l = Some l' /\ List.find p l' = Some (f a).
Proof.
  intros Hp. induction l as [|x l IH]; cbn; [discriminate|].
  destruct (p x) eqn:E.
  - intros [= <-]. eexists. split; [reflexivity|]. cbn. now rewrite Hp, E.
  - intros Hfind. destruct (IH Hfind) as (l' & -> & Hl').
    eexists. split; [reflexivity|]. cbn. now rewrite E.
Qed.

Lemma update_account_in_found (id : string) (t : TokenResponse)
    (d : list (string * User)) (a : SocialAccount) :
  List.find (fun a => String.eqb (sa_id a) id) (accounts_of d) = Some a ->
  exists d',
    update_account_in id t d = Some d' /\
    List.find (fun a => String.eqb (sa_id a) id) (accounts_of d')
    = Some (set_tokens t a).
Proof.
  induction d as [|[k u] d IH]; [discriminate|].
  rewrite accounts_of_cons. cbn [update_account_in].
  destruct (List.find (fun a => String.eqb (sa_id a) id) (u_social_accounts u))
    as [b|] eqn:Hb.
  - rewrite (find_app_some _ _ _ _ Hb). intros [= <-].
    destruct (update_first_found (fun a => String.eqb (sa_id a) id)
                (set_tokens t) _ _ (fun x => eq_refl) Hb)
      as (l' & -> & Hl').
    eexists. split; [reflexivity|].
    rewrite accounts_of_cons. cbn [u_social_accounts].
    now apply find_app_some.
  - rewrite (find_app_none _ _ _ Hb). intros Hfind.
    rewrite (find_none_update_first _ _ _ Hb).
    destruct (IH Hfind) as (d' & -> & Hd').
    eexists. split; [reflexivity|].
    rewrite accounts_of_cons. now rewrite (find_app_none _ _ _ Hb).
Qed.

(** What a user is apart from the social accounts: the key in the
    dictionary, the [id], the [email] and the [hashed_password]. *)
Definition profile (item : string * User) : string * string * string * string :=
  (fst item, u_id (snd item), u_email (snd item), u_hashed_password (snd item)).

Lemma update_account_in_profiles (id : string) (t : TokenResponse)
    (d d' : list (string * User)) :
  update_account_in id t d = Some d' ->
  List.map profile d' = List.map profile d.
Proof.
  revert d'. induction d as [|[k u] d IH]; intros d' H; cbn in H; [discriminate|].
  destruct (update_first _ _ (u_social_accounts u)).
  - now injection H as <-.
  - destruct (update_account_in id t d) as [rest|]; [|discriminate].
    injection H as <-. cbn. f_equal. now apply IH.
Qed.

(** X21. [update_social_account] of the in-memory store raises
    [ValueError] and leaves the store as it was when no social account
    has the given [id]. Otherwise it returns the first such account with
    its five token fields set to the access token, the refresh token,
    the two expiry instants and the scope of the token response, the
    store holds that account under the [id] afterwards, and nothing else
    of an account or a user changes: the accounts are the same, in the
    same order, with the [id], owner, provider and upstream identity they
    had, and the users keep their key, [id], [email] and
    [hashed_password]. *)
Theorem update_social_account_only_tokens (st : MemoryAccountsStorage)
    (id : string) (t : TokenResponse) (user_info : UserInfo) :
  let outcome := mem_update_social_account st id t user_info in
  let has_id a := String.eqb (sa_id a) id in
  match List.find has_id (all_social_accounts st) with
  | None => outcome = (Raise (ValueError "Social account does not exist"), st)
  | Some a =>
      let updated :=
        {| sa_id := sa_id a;
           sa_user_id := sa_user_id a;
           sa_provider_user_id := sa_provider_user_id a;
           sa_provider := sa_provider a;
           sa_access_token := Some (tr_access_token t);
           sa_refresh_token := tr_refresh_token t;
           sa_access_token_expires_at := tr_access_token_expires_at t;
           sa_refresh_token_expires_at := tr_refresh_token_expires_at t;
           sa_scope := tr_scope t |} in
      fst outcome = Ok updated /\
      List.find has_id (all_social_accounts (snd outcome)) = Some updated /\
      List.map identity (all_social_accounts (snd outcome))
      = List.map identity (all_social_accounts st) /\
      List.map profile (data (snd outcome)) = List.map profile (data st)
  end.
Proof.
  cbv zeta. unfold mem_update_social_account.
  destruct (List.find (fun a => String.eqb (sa_id a) id) (all_social_accounts st))
    as [a|] eqn:Hfind; [|reflexivity].
  destruct (update_account_in_found id t (data st) a Hfind) as (d' & Hd' & Hfound).
  rewrite Hd'. cbn [fst snd].
  split; [reflexivity|]. split; [exact Hfound|]. split.
  - exact (update_account_in_identities id t _ _ Hd').
  - exact (update_account_in_profiles id t _ _ Hd').
Qed.

Lemma in_dict_set_emails (k : string) (v : User) (d : list (string * User))
    (x : string) :
  In x (List.map u_email (dict_values (dict_set k v d))) ->
  x = u_email v \/ In x (List.map u_email (dict_values d)).
Proof.
  induction d as [|[k' u'] d IH]; cbn.
  - intros [<- | []]. now left.
  - destruct (String.eqb k k'); cbn.
    + intros [<- | H]; [now left | right; now right].
    + intros [<- | H]; [right; now left|].
      destruct (IH H) as [-> | H']; [now left | right; now right].
Qed.

Lemma nodup_dict_set_emails (k : string) (v : User) (d : list (string * User)) :
  ~ In (u_email v) (List.map u_email (dict_values d)) ->
  List.NoDup (List.map u_email (dict_values d)) ->
  List.NoDup (List.map u_email (dict_values (dict_set k v d))).
Proof.
  induction d as [|[k' u'] d IH]; cbn; intros Hnew Hnodup.
  - constructor; [intros []|constructor].
  - apply List.NoDup_cons_iff in Hnodup as [Hfirst Hrest].
    destruct (String.eqb k k'); cbn.
    + constructor; [tauto | exact Hrest].
    + constructor.
      * intros Hin. apply in_dict_set_emails in Hin as [E | Hin]; [|tauto].
        apply Hnew. now left.
      * apply IH; [tauto | exact Hrest].
Qed.

Lemma find_dict_set {p : User -> bool} (k : string) (v : User)
    (d : list (string * User)) :
  List.find p (dict_values d) = None -> p v = true ->
  List.find p (dict_values (dict_set k v d)) = Some v.
Proof.
  intros Hnone Hv. induction d as [|[k' u'] d IH]; cbn in *.
  - now rewrite Hv.
  - destruct (p u') eqn:E; [discriminate|].
    destruct (String.eqb k k'); cbn; [now rewrite Hv|].
    rewrite E. now apply IH.
Qed.

Lemma find_email_none (d : list (string * User)) (email : string) :
  List.find (fun u => String.eqb (u_email u) email) (dict_values d) = None ->
  ~ In email (List.map u_email (dict_values d)).
Proof.
  intros Hnone Hin. apply List.in_map_iff in Hin as (u & Hu & Hin).
  apply (List.find_none _ _ Hnone) in Hin. cbn in Hin.
  rewrite Hu, String.eqb_refl in Hin. discriminate.
Qed.

Section Users.

Variable pwd_hash : string -> string.

(** X22. [create_user] of the in-memory store keeps the e-mail
    addresses of the store distinct: it raises [ValueError] and changes
    nothing when a user has the address already, and a user it returns
    had an address that was free, and is from then on the user found
    under that address and under its [id]. *)
Theorem create_user_keeps_emails_distinct (st : MemoryAccountsStorage)
    (user_info : UserInfo) :
  List.NoDup (List.map u_email (dict_values (data st))) ->
  let outcome := mem_create_user pwd_hash st user_info in
  List.NoDup (List.map u_email (dict_values (data (snd outcome)))) /\
  (forall email existing,
     user_info !! "email" = Some email ->
     mem_find_user_by_email st email = Some existing ->
     outcome = (Raise (ValueError "User already exists"), st)) /\
  (forall user,
     fst outcome = Ok user ->
     mem_find_user_by_email st (u_email user) = None /\
     mem_find_user_by_email (snd outcome) (u_email user) = Some user /\
     mem_find_user_by_id (snd outcome) (u_id user) = Some user).
Proof.
  intros Hnodup. cbv zeta. unfold mem_create_user.
  destruct (user_info !! "email") as [email|] eqn:Hemail;
    [|cbn [fst snd]; split; [exact Hnodup|]; split; intros; discriminate].
  destruct (mem_find_user_by_email st email) as [existing|] eqn:Hfind.
  { cbn [fst snd]. split; [exact Hnodup|]. split; intros; [reflexivity|discriminate]. }
  destruct (String.eqb email "not-allowed@example.com");
    [cbn [fst snd]; split; [exact Hnodup|]; split; intros; simplify_eq|].
  destruct (user_info !! "id") as [id|] eqn:Hid;
    [|cbn [fst snd]; split; [exact Hnodup|]; split; intros; simplify_eq].
  cbn [fst snd data]. split; [|split].
  - apply nodup_dict_set_emails; [|exact Hnodup].
    cbn [u_email]. now apply find_email_none.
  - intros e existing [= <-] Hexisting. rewrite Hfind in Hexisting. discriminate.
  - intros user [= <-]. cbn [u_email u_id]. split; [exact Hfind|]. split.
    + unfold mem_find_user_by_email. cbn [data].
      apply find_dict_set; [exact Hfind|]. cbn. apply String.eqb_refl.
    + unfold mem_find_user_by_id. cbn [data].
      now rewrite dict_get_set, String.eqb_refl.
Qed.

End Users.

Import Example.

Lemma create_user_keeps_emails_distinct_witness :
  mem_find_user_by_email
    (snd (mem_create_user example_pwd_hash initial_accounts
            {[ "email" := "new@example.com"; "id" := "provider-user-1" ]}))
    "new@example.com"
  = Some {| u_id := "provider-user-1"; u_email := "new@example.com";
            u_hashed_password := example_pwd_hash "";
            u_social_accounts := [] |}.
Proof.
  assert (Hdistinct : List.NoDup (List.map u_email (dict_values (data initial_accounts)))).
  { constructor; [intros []|constructor]. }
  destruct (create_user_keeps_emails_distinct example_pwd_hash initial_accounts
              {[ "email" := "new@example.com"; "id" := "provider-user-1" ]}
              Hdistinct) as (_ & _ & Hcreated).
  apply (Hcreated {| u_id := "provider-user-1"; u_email := "new@example.com";
                     u_hashed_password := example_pwd_hash "";
                     u_social_accounts := [] |}).
  vm_compute. reflexivity.
Defined.

End MemoryMore.

Module LoginAgain.
Import Py Storage Memory OAuth OAuthFacts MemoryFacts.

Lemma find_app_none_inv {A : Type} (p : A -> bool) (l1 l2 : list A) :
  List.find p (l1 ++ l2) = None ->
  List.find p l1 = None /\ List.find p l2 = None.
Proof.
  induction l1 as [|x l1 IH]; cbn; [auto|].
  destruct (p x); [discriminate|exact IH].
Qed.

(** A user without social accounts, stored under any key, adds no social
    account to the store. *)
Lemma find_accounts_set_fresh (p : SocialAccount -> bool) (k : string)
    (v : User) (d : list (string * User)) :
  u_social_accounts v = [] ->
  List.find p (accounts_of d) = None ->
  List.find p (accounts_of (dict_set k v d)) = None.
Proof.
  intros Hv. induction d as [|[k' u'] d IH]; cbn [dict_set].
  - intros _. rewrite accounts_of_cons, Hv. reflexivity.
  - rewrite accounts_of_cons. intros Hnone.
    apply find_app_none_inv in Hnone as [Hu' Hd].
    destruct (String.eqb k k'); rewrite accounts_of_cons.
    + now rewrite Hv.
    + rewrite (find_app_none _ _ _ Hu'). now apply IH.
Qed.

Section First_login.

Variable uuid : nat -> string.
Variable hash : string -> string.

(** What the first login of an upstream identity leaves in the in-memory
    store: a user whose [id] is the upstream one, and a social account of
    that user, which [find_social_account] finds from then on. *)
Lemma first_login_store (st : MemoryAccountsStorage) (provider : string)
    (ui : UserInfo) (tr : TokenResponse) (email pid : string) :
  ui !! "email" = Some email ->
  ui !! "id" = Some pid ->
  mem_find_social_account st provider pid = None ->
  mem_find_user_by_email st email = None ->
  email <> "not-allowed@example.com" ->
  exists user st1 account st2 owner,
    mem_create_user hash st ui = (Ok user, st1) /\
    u_id user = pid /\
    mem_create_social_account uuid st1 pid provider pid tr ui = (Ok account, st2) /\
    mem_find_social_account st2 provider pid = Some account /\
    sa_user_id account = pid /\
    mem_find_user_by_id st2 pid = Some owner /\
    u_id owner = pid.
Proof.
  intros He Hi Hnone Hnouser Hallowed.
  unfold mem_create_user. rewrite He, Hnouser.
  destruct (String.eqb email "not-allowed@example.com") eqn:E;
    [apply String.eqb_eq in E; contradiction|].
  rewrite Hi.
  eexists _, _. 
  destruct (mem_create_social_account uuid
              {| data := dict_set pid
                           {| u_id := pid; u_email := email;
                              u_hashed_password := hash (default "" (ui !! "password"));
                              u_social_accounts := [] |} (data st);
                 drawn := drawn st |} pid provider pid tr ui)
    as [[account|e] st2] eqn:Hcreate.
  2:{ exfalso. unfold mem_create_social_account in Hcreate. cbn [data] in Hcreate.
      rewrite dict_get_set, String.eqb_refl in Hcreate. discriminate. }
  assert (Hfresh : mem_find_social_account
                     {| data := dict_set pid
                                  {| u_id := pid; u_email := email;
                                     u_hashed_password :=
                                       hash (default "" (ui !! "password"));
                                     u_social_accounts := [] |} (data st);
                        drawn := drawn st |} provider pid = None).
  { rewrite mem_find_social_account_identity. cbn [data].
    apply find_accounts_set_fresh; [reflexivity|].
    rewrite <- mem_find_social_account_identity. exact Hnone. }
  destruct (mem_create_found uuid _ _ _ _ _ _ _ _ Hfresh Hcreate) as [Hfound Howner].
  exists account, st2.
  pose proof Hcreate as Hcopy.
  unfold mem_create_social_account in Hcopy. cbn [data drawn] in Hcopy.
  rewrite dict_get_set, String.eqb_refl in Hcopy.
  injection Hcopy as _ Hst2.
  eexists. split; [reflexivity|]. split; [reflexivity|].
  split; [exact Hcreate|]. split; [exact Hfound|]. split; [exact Howner|].
  rewrite <- Hst2. unfold mem_find_user_by_id. cbn [data].
  rewrite dict_get_set, String.eqb_refl. split; reflexivity.
Qed.

Context `{!BaseModel OAuth2AuthorizationRequestData}
        `{!BaseModel OAuth2LinkCodeData}
        `{!BaseModel AuthorizationCodeGrantData}
        `{!BaseModel OAuth2TokenEndpointResponse}.

(** X23. With the in-memory account store, the first login of an upstream
    identity creates a user and a social account, and a later login of
    the same upstream identity through the same provider signs in the
    same user: the grants of the two callbacks read back with the same
    [user_id], whatever e-mail address the provider reports the second
    time. *)
Theorem login_again_same_user (self : OAuth2Provider) (env env' : Env)
    (request request' : AsyncHTTPRequest)
    (context context' : Context MemoryAccountsStorage)
    (provider_data provider_data' : OAuth2AuthorizationRequestData)
    (user_info user_info' : UserInfo) (token_response token_response' : TokenResponse)
    (email email' provider_user_id : string) :
  let callback := callback (AccountsStorage0 := memory_accounts uuid hash) self in
  CallbackFacts.grant_round_trips ->
  ar_code_challenge_method provider_data = "S256" ->
  ar_code_challenge_method provider_data' = "S256" ->
  login_callback_resolves self env request context provider_data
    user_info token_response email provider_user_id ->
  mem_find_social_account (accounts_storage context) (id self) provider_user_id
  = None ->
  mem_find_user_by_email (accounts_storage context) email = None ->
  email <> "not-allowed@example.com" ->
  accounts_storage context' = accounts_storage (snd (callback env request context)) ->
  login_callback_resolves self env' request' context' provider_data'
    user_info' token_response' email' provider_user_id ->
  exists user_id,
    (model_validate_json <$>
       storage_get ("oauth:code:" +:+ uuid4 env)
         (secondary_storage (snd (callback env request context))))
    = Some (Some (CallbackFacts.grant_for self env provider_data user_id)) /\
    fst (callback env' request' context')
    = Ok (Response_redirect (ar_redirect_uri provider_data')
            [("code", uuid4 env')]) /\
    (model_validate_json <$>
       storage_get ("oauth:code:" +:+ uuid4 env')
         (secondary_storage (snd (callback env' request' context'))))
    = Some (Some (CallbackFacts.grant_for self env' provider_data' user_id)).
Proof.
  cbv zeta.
  intros Hrt Hmethod Hmethod'
    (state & raw & code & Hs & Hr & Hv & Hc & Hl & Hf & He & Hi)
    Hnone Hnouser Hallowed Hstore
    (state' & raw' & code' & Hs' & Hr' & Hv' & Hc' & Hl' & Hf' & He' & Hi').
  destruct (first_login_store (accounts_storage context) (id self) user_info
              token_response email provider_user_id He Hi Hnone Hnouser Hallowed)
    as (user & st1 & account & st2 & owner & Hcreate & Huid & Hsocial & Hfound
          & Howner & Hget & Hownerid).
  assert (Hfirst : callback (AccountsStorage0 := memory_accounts uuid hash)
                     self env request context
                   = callback_grant self env (with_accounts context st2)
                       provider_data (Some user)).
  { unfold callback. rewrite Hs, Hr, Hv, Hc, Hl, Hf, He, Hi.
    cbn [find_social_account find_user_by_email create_user
           create_social_account memory_accounts].
    rewrite Hnone, Hnouser, Hcreate, Huid, Hsocial. reflexivity. }
  rewrite Hfirst in Hstore. rewrite Hfirst.
  unfold callback_grant in Hstore. cbn [snd accounts_storage with_secondary
                                          with_accounts] in Hstore.
  destruct (mem_update_found st2 (id self) provider_user_id account
              token_response' user_info' Hfound)
    as (updated & st3 & Hupdate & _).
  destruct (mem_update_preserved _ _ _ _ _ _ Hupdate provider_user_id owner Hget)
    as (owner' & Hget' & Hid' & _).
  assert (Hsecond : callback (AccountsStorage0 := memory_accounts uuid hash)
                      self env' request' context'
                    = callback_grant self env' (with_accounts context' st3)
                        provider_data' (Some owner')).
  { unfold callback. rewrite Hs', Hr', Hv', Hc', Hl', Hf', He', Hi', Hstore.
    cbn [find_social_account find_user_by_id update_social_account
           memory_accounts].
    rewrite Hfound, Hupdate, Howner. unfold mem_find_user_by_id.
    now rewrite Hget'. }
  rewrite Hsecond. exists provider_user_id.
  unfold callback_grant, CallbackFacts.grant_for.
  cbn [fst snd secondary_storage with_secondary with_accounts].
  unfold storage_get, storage_set. rewrite !lookup_insert_eq.
  cbn [fmap option_fmap option_map].
  rewrite Huid, Hid', Hownerid.
  split; [|split; [reflexivity|]].
  - match goal with |- context [model_dump_json ?d] =>
      now rewrite (Hrt d Hmethod) end.
  - match goal with |- context [model_dump_json ?d] =>
      now rewrite (Hrt d Hmethod') end.
Qed.

End First_login.

End LoginAgain.

Module LinkMore.
Import Py Storage Memory OAuth MemoryFacts LinkFacts.

Section Link.

Variable uuid : nat -> string.
Variable hash : string -> string.
Context `{!BaseModel OAuth2LinkCodeData} `{!BaseModel OAuth2TokenEndpointResponse}.
Variable json_loads : string -> option (gmap string string).

(** X24. With the in-memory account store, a call of [finalize_link]
    that answers 200 has passed every check for the authenticated
    caller, and leaves the upstream identity linked to that caller: the
    social account that [find_social_account] finds afterwards for the
    provider and the upstream [id] is owned by the caller. *)
Theorem finalize_link_links_caller (self : OAuth2Provider) (env : Env)
    (request : AsyncHTTPRequest) (context : Context MemoryAccountsStorage) :
  let outcome :=
    finalize_link (AccountsStorage0 := memory_accounts uuid hash)
      json_loads self env request context in
  fst outcome = Ok (Response_new 200 link_finalized_body) ->
  exists user user_info token_response provider_user_id account,
    link_resolves json_loads self env request context user user_info
      token_response provider_user_id /\
    mem_find_social_account (accounts_storage (snd outcome)) (id self)
      provider_user_id = Some account /\
    sa_user_id account = u_id user.
Proof.
  cbv zeta.
  destruct (finalize_link_cases (AccountsStorage0 := memory_accounts uuid hash)
              json_loads self env request context)
    as [(r & -> & Hr) | (user & ui & tr & pid & Hresolves)].
  { cbn [fst]. intros ->. now destruct (Hr link_finalized_body). }
  rewrite (finalize_link_resolved (AccountsStorage0 := memory_accounts uuid hash)
             json_loads _ _ _ _ _ _ _ _ Hresolves).
  unfold link_account.
  cbn [find_social_account update_social_account create_social_account
         memory_accounts].
  destruct (mem_find_social_account (accounts_storage context) (id self) pid)
    as [a|] eqn:Hfind.
  - destruct (String.eqb (sa_user_id a) (u_id user)) eqn:Howner;
      cbn [negb]; [|discriminate].
    apply String.eqb_eq in Howner.
    destruct (mem_update_found _ _ _ a tr ui Hfind)
      as (updated & st' & -> & a' & Hfound & Hidentity).
    cbn [fst snd accounts_storage with_accounts]. intros _.
    exists user, ui, tr, pid, a'. split; [exact Hresolves|].
    split; [exact Hfound|].
    rewrite <- Howner. unfold identity in Hidentity. congruence.
  - destruct (mem_create_social_account uuid (accounts_storage context)
                (u_id user) (id self) pid tr ui) as [[a|e] st'] eqn:Hcreate;
      cbn [fst snd accounts_storage with_accounts]; [|discriminate].
    intros _. exists user, ui, tr, pid, a. split; [exact Hresolves|].
    exact (mem_create_found uuid _ _ _ _ _ _ _ _ Hfind Hcreate).
Qed.

End Link.

Import Wire Reference Example LinkWitnesses.

Lemma finalize_link_links_caller_witness :
  exists user user_info token_response provider_user_id account,
    link_resolves example_json_loads example_provider
      (example_env 1020 "test@example.com") finalize_request
      (after_link_callback initial_accounts) user user_info token_response
      provider_user_id /\
    mem_find_social_account
      (accounts_storage
         (snd (finalize_link example_json_loads example_provider
                 (example_env 1020 "test@example.com") finalize_request
                 (after_link_callback initial_accounts))))
      (id example_provider) provider_user_id = Some account /\
    sa_user_id account = u_id user.
Proof.
  apply (finalize_link_links_caller example_uuid4 example_pwd_hash
           example_json_loads example_provider
           (example_env 1020 "test@example.com") finalize_request
           (after_link_callback initial_accounts)).
  vm_compute. reflexivity.
Defined.

End LinkMore.

Module ReferenceMore.
Import Py Storage OAuth Wire WireFacts Reference.

Lemma reference_request_data_round_trips : AuthorizeFacts.request_data_round_trips.
Proof.
  intros [uri hint cstate st challenge method lnk] Hmethod.
  cbn in Hmethod. subst method.
  unfold model_validate_json, model_dump_json, request_data_model.
  unfold validate_request_data, dump_request_data. rewrite unpack_pack.
  destruct hint, cstate, lnk; reflexivity.
Qed.

Lemma reference_grant_round_trips : CallbackFacts.grant_round_trips.
Proof.
  intros [uid expires client uri challenge method] Hmethod.
  cbn in Hmethod. subst method.
  unfold model_validate_json, model_dump_json, grant_model.
  unfold validate_grant, dump_grant. rewrite unpack_pack.
  cbn. now rewrite read_show_Z.
Qed.

Lemma reference_link_data_round_trips : CallbackFacts.link_data_round_trips.
Proof.
  intros [expires client uri challenge method pcode] Hmethod.
  cbn in Hmethod. subst method. split.
  - exact (pack_cons_nonempty _ _).
  - unfold model_validate_json, model_dump_json, link_data_model.
    unfold validate_link_data, dump_link_data. rewrite unpack_pack.
    cbn. now rewrite read_show_Z.
Qed.

End ReferenceMore.

(** ** The further properties of the handlers on the concrete deployment *)

Module HandlerWitnesses.
Import Py Storage Memory OAuth Wire Reference Example OAuthWitnesses
  LinkWitnesses ReferenceMore.

Lemma authorize_stores_request_witness :
  fst (authorize example_validate_http_url example_provider
         (example_env 1000 "test@example.com")
         (authorize_request good_authorize_params)
         (example_context initial_accounts))
  = Ok (Response_redirect "https://example.com/authorize"
          [ ("client_id", "test_client_id");
            ("scope", "openid email profile");
            ("redirect_uri", "http://localhost:8000/test/callback");
            ("state", "00112233445566778899aabbccddeeff");
            ("response_type", "code");
            ("code_challenge", "n4bQgYhMfWWaL-qgxVrQFaO_TxsrC4Is0V1sFbDwCgg");
            ("code_challenge_method", "S256") ]).
Proof.
  apply (AuthorizeFacts.authorize_stores_request example_validate_http_url
           example_provider (example_env 1000 "test@example.com")
           (authorize_request good_authorize_params)
           (example_context initial_accounts)
           "http://valid-frontend.com/callback"
           "http://valid-frontend.com/callback" "code"
           "n4bQgYhMfWWaL-qgxVrQFaO_TxsrC4Is0V1sFbDwCgg"
           ["openid"; "email"; "profile"] true
           reference_request_data_round_trips).
  - reflexivity.
  - reflexivity.
  - vm_compute. reflexivity.
  - vm_compute. reflexivity.
  - vm_compute. reflexivity.
  - vm_compute. reflexivity.
  - left. reflexivity.
  - vm_compute. reflexivity.
  - vm_compute. reflexivity.
Defined.

(** [class DiscordProvider(OAuth2Provider)] of [discord.py], which sets
    neither [scopes] nor [supports_pkce]. *)
Definition DiscordProvider (client_id_ client_secret_ : string) : OAuth2Provider :=
  {| id := "discord";
     authorization_endpoint := "https://discord.com/oauth2/authorize";
     token_endpoint := "https://discord.com/api/oauth2/token";
     user_info_endpoint := "https://discord.com/api/users/@me";
     scopes := None;
     supports_pkce := None;
     client_id := client_id_;
     client_secret := client_secret_ |}.

(** With [DiscordProvider], a request that passes every check of
    [authorize] is stored and then raises [AttributeError]. *)
Example authorize_discord_raises :
  fst (authorize example_validate_http_url
         (DiscordProvider "test_client_id" "test_client_secret")
         (example_env 1000 "test@example.com")
         (authorize_request good_authorize_params)
         (example_context initial_accounts))
  = Raise AttributeError /\
  secondary_storage
    (snd (authorize example_validate_http_url
            (DiscordProvider "test_client_id" "test_client_secret")
            (example_env 1000 "test@example.com")
            (authorize_request good_authorize_params)
            (example_context initial_accounts)))
  = secondary_storage (after_authorize initial_accounts).
Proof. split; reflexivity. Qed.

(** The first login of [new@example.com]: the browser is sent to the
    redirect URI given to [authorize]. *)
Lemma callback_redirects_to_stored_uri_witness :
  exists state raw provider_data,
    truthy (query_params (callback_request good_callback_params) !! "state")
    = Some state /\
    truthy (storage_get ("oauth:authorization_request:" +:+ state)
              (secondary_storage (after_authorize initial_accounts))) = Some raw /\
    model_validate_json raw = Some provider_data /\
    "http://valid-frontend.com/callback" = ar_redirect_uri provider_data.
Proof.
  apply (CallbackFacts.callback_redirects_to_stored_uri example_provider
           (example_env 1010 "new@example.com")
           (callback_request good_callback_params)
           (after_authorize initial_accounts)
           (Response_redirect "http://valid-frontend.com/callback"
              [("code", "7d444840-9dc0-11d1-b245-5ffdce74fad2")])
           "http://valid-frontend.com/callback").
  - vm_compute. reflexivity.
  - reflexivity.
Defined.

Lemma example_callback_loads (accounts : MemoryAccountsStorage) :
  CallbackFacts.callback_loads (callback_request good_callback_params)
    (after_authorize accounts) stored_request "upstream-code".
Proof.
  exists "00112233445566778899aabbccddeeff", (model_dump_json stored_request).
  repeat split; vm_compute; reflexivity.
Defined.

(** A provider whose token endpoint refuses the code. *)
Definition refusing_env : Env :=
  {| now := 1010;
     token_hex := "00112233445566778899aabbccddeeff";
     uuid4 := "7d444840-9dc0-11d1-b245-5ffdce74fad2";
     send_token_request :=
       fun _ _ => Some {| http_status_code := 400; http_text := "invalid_grant" |};
     http_get_json := fun _ _ => None |}.

Lemma callback_upstream_failure_witness :
  callback example_provider refusing_env
    (callback_request good_callback_params) (after_authorize initial_accounts)
  = (Ok (Response_error_redirect "http://valid-frontend.com/callback"
           "server_error" "Token exchange failed"),
     after_authorize initial_accounts).
Proof.
  destruct (CallbackFacts.callback_upstream_failure example_provider refusing_env
              (callback_request good_callback_params)
              (after_authorize initial_accounts) stored_request "upstream-code")
    as [Hcaught _].
  - apply example_callback_loads.
  - reflexivity.
  - apply (Hcaught "server_error" "Token exchange failed").
    vm_compute. reflexivity.
Defined.

Definition after_link_authorize (accounts : MemoryAccountsStorage)
  : Context MemoryAccountsStorage :=
  snd (authorize example_validate_http_url example_provider
         (example_env 1000 "test@example.com")
         (authorize_request link_authorize_params)
         (example_context accounts)).

Definition stored_link_request : OAuth2AuthorizationRequestData :=
  {| ar_redirect_uri := "http://valid-frontend.com/callback";
     ar_login_hint := None;
     ar_client_state := None;
     ar_state := "00112233445566778899aabbccddeeff";
     ar_code_challenge := "n4bQgYhMfWWaL-qgxVrQFaO_TxsrC4Is0V1sFbDwCgg";
     ar_code_challenge_method := "S256";
     ar_link := true |}.

Lemma example_link_callback_loads (accounts : MemoryAccountsStorage) :
  CallbackFacts.callback_loads (callback_request good_callback_params)
    (after_link_authorize accounts) stored_link_request "upstream-code".
Proof.
  exists "00112233445566778899aabbccddeeff", (model_dump_json stored_link_request).
  repeat split; vm_compute; reflexivity.
Defined.

(** In link mode the callback answers the same with a provider that
    refuses every code. *)
Lemma callback_link_defers_witness :
  callback example_provider refusing_env
    (callback_request good_callback_params) (after_link_authorize initial_accounts)
  = callback example_provider (example_env 1010 "test@example.com")
      (callback_request good_callback_params)
      (after_link_authorize initial_accounts).
Proof.
  apply (CallbackFacts.callback_link_defers example_provider
           (example_env 1010 "test@example.com") refusing_env
           (callback_request good_callback_params)
           (after_link_authorize initial_accounts) stored_link_request
           "upstream-code" reference_link_data_round_trips).
  - apply example_link_callback_loads.
  - reflexivity.
  - reflexivity.
  - reflexivity.
  - reflexivity.
Defined.

Lemma example_login_resolves_not_allowed :
  OAuthFacts.login_callback_resolves example_provider
    (example_env 1010 "not-allowed@example.com")
    (callback_request good_callback_params) (after_authorize initial_accounts)
    stored_request
    {[ "email" := "not-allowed@example.com"; "id" := "provider-user-1" ]}
    example_token_response "not-allowed@example.com" "provider-user-1".
Proof.
  exists "00112233445566778899aabbccddeeff",
    (model_dump_json stored_request), "upstream-code".
  repeat split; vm_compute; reflexivity.
Defined.

Lemma callback_policy_rejection_witness :
  callback example_provider (example_env 1010 "not-allowed@example.com")
    (callback_request good_callback_params) (after_authorize initial_accounts)
  = (Ok (Response_error_redirect "http://valid-frontend.com/callback"
           "email_not_invited"
           "This email has not yet been invited to join FastAPI Cloud"),
     with_accounts (after_authorize initial_accounts) initial_accounts).
Proof.
  apply (CallbackFacts.callback_policy_rejection example_provider
           (example_env 1010 "not-allowed@example.com")
           (callback_request good_callback_params)
           (after_authorize initial_accounts) stored_request
           {[ "email" := "not-allowed@example.com"; "id" := "provider-user-1" ]}
           example_token_response "not-allowed@example.com" "provider-user-1").
  - apply example_login_resolves_not_allowed.
  - vm_compute. reflexivity.
  - vm_compute. reflexivity.
  - vm_compute. reflexivity.
Defined.

Lemma example_login_resolves_new :
  OAuthFacts.login_callback_resolves example_provider
    (example_env 1010 "new@example.com")
    (callback_request good_callback_params) (after_authorize initial_accounts)
    stored_request
    {[ "email" := "new@example.com"; "id" := "provider-user-1" ]}
    example_token_response "new@example.com" "provider-user-1".
Proof.
  exists "00112233445566778899aabbccddeeff",
    (model_dump_json stored_request), "upstream-code".
  repeat split; vm_compute; reflexivity.
Defined.

Definition new_user : User :=
  {| u_id := "provider-user-1"; u_email := "new@example.com";
     u_hashed_password := example_pwd_hash "";
     u_social_accounts := [] |}.

(** The first login of [new@example.com]: the grant names the user that
    the callback has created and the challenge given to [authorize]. *)
Lemma callback_issues_bound_grant_witness :
  (model_validate_json <$>
     storage_get ("oauth:code:" +:+ "7d444840-9dc0-11d1-b245-5ffdce74fad2")
       (secondary_storage
          (snd (callback example_provider (example_env 1010 "new@example.com")
                  (callback_request good_callback_params)
                  (after_authorize initial_accounts)))))
  = Some (Some {| cg_user_id := "provider-user-1";
                  cg_expires_at := 1610;
                  cg_client_id := "test_client_id";
                  cg_redirect_uri := "http://valid-frontend.com/callback";
                  cg_code_challenge := "n4bQgYhMfWWaL-qgxVrQFaO_TxsrC4Is0V1sFbDwCgg";
                  cg_code_challenge_method := "S256" |}).
Proof.
  apply (CallbackFacts.callback_issues_bound_grant example_provider
           (example_env 1010 "new@example.com")
           (callback_request good_callback_params)
           (after_authorize initial_accounts) stored_request
           {[ "email" := "new@example.com"; "id" := "provider-user-1" ]}
           example_token_response "new@example.com" "provider-user-1" new_user
           reference_grant_round_trips).
  - reflexivity.
  - apply example_login_resolves_new.
  - right. eexists _, _, _.
    repeat split; vm_compute; reflexivity.
Defined.

(** The user [test] presents the link code with the verifier [wrong]. *)
Definition wrong_verifier_request : AsyncHTTPRequest :=
  {| query_params := ∅;
     url := "http://localhost:8000/test/finalize-link";
     headers := {[ "Authorization" := "Bearer test" ]};
     body := pack [ "link_code"; "7d444840-9dc0-11d1-b245-5ffdce74fad2";
                    "code_verifier"; "wrong" ] |}.

Definition stored_link_data : OAuth2LinkCodeData :=
  {| lc_expires_at := 1610;
     lc_client_id := "test_client_id";
     lc_redirect_uri := "http://valid-frontend.com/callback";
     lc_code_challenge := "n4bQgYhMfWWaL-qgxVrQFaO_TxsrC4Is0V1sFbDwCgg";
     lc_code_challenge_method := "S256";
     lc_provider_code := "upstream-code" |}.

Lemma finalize_link_checks_verifier_witness :
  finalize_link example_json_loads example_provider
    (example_env 1020 "test@example.com") wrong_verifier_request
    (after_link_callback initial_accounts)
  = (Ok (Response_error "server_error" (Some "Invalid code challenge") None),
     after_link_callback initial_accounts).
Proof.
  destruct (FinalizeFacts.finalize_link_checks_verifier example_json_loads
              example_provider (example_env 1020 "test@example.com")
              wrong_verifier_request (after_link_callback initial_accounts)
              stored_link_data "wrong") as [Hchecked _].
  - eexists _, _, _, _.
    repeat split; try (vm_compute; reflexivity).
    vm_compute. discriminate.
  - destruct (Hchecked
                (default "" (match Pkce.calculate_s256_challenge "wrong" with
                             | Ok c => Some c | Raise _ => None end)))
      as [Hrefused _].
    + vm_compute. reflexivity.
    + apply Hrefused.
      * vm_compute. reflexivity.
      * vm_compute. discriminate.
Defined.

Lemma link_code_expires_witness :
  finalize_link example_json_loads example_provider
    (example_env 1611 "test@example.com") finalize_request
    (after_link_callback initial_accounts)
  = (Ok (Response_error "server_error" (Some "Link code has expired") None),
     after_link_callback initial_accounts).
Proof.
  apply (FinalizeFacts.link_code_expires example_json_loads example_provider
           (example_env 1010 "test@example.com")
           (example_env 1611 "test@example.com")
           (callback_request good_callback_params) finalize_request
           (after_link_authorize initial_accounts) stored_link_request
           "upstream-code" test_user
           (list_to_map [("link_code", "7d444840-9dc0-11d1-b245-5ffdce74fad2");
                         ("code_verifier", "test")])
           reference_link_data_round_trips).
  - apply example_link_callback_loads.
  - reflexivity.
  - reflexivity.
  - vm_compute. reflexivity.
  - vm_compute. reflexivity.
  - vm_compute. reflexivity.
  - cbn. lia.
Defined.

(** The identity [provider-user-1] logs in as [new@example.com] and
    later with the e-mail address of the user [test]: the second
    callback succeeds. *)
Lemma login_again_same_user_witness :
  fst (callback example_provider (example_env 1010 "test@example.com")
         (callback_request good_callback_params)
         (after_authorize
            (accounts_storage
               (snd (callback example_provider (example_env 1010 "new@example.com")
                       (callback_request good_callback_params)
                       (after_authorize initial_accounts))))))
  = Ok (Response_redirect "http://valid-frontend.com/callback"
          [("code", "7d444840-9dc0-11d1-b245-5ffdce74fad2")]).
Proof.
  destruct (LoginAgain.login_again_same_user example_uuid4 example_pwd_hash
              example_provider (example_env 1010 "new@example.com")
              (example_env 1010 "test@example.com")
              (callback_request good_callback_params)
              (callback_request good_callback_params)
              (after_authorize initial_accounts)
              (after_authorize
                 (accounts_storage
                    (snd (callback example_provider
                            (example_env 1010 "new@example.com")
                            (callback_request good_callback_params)
                            (after_authorize initial_accounts)))))
              stored_request stored_request
              {[ "email" := "new@example.com"; "id" := "provider-user-1" ]}
              {[ "email" := "test@example.com"; "id" := "provider-user-1" ]}
              example_token_response example_token_response
              "new@example.com" "test@example.com" "provider-user-1"
              reference_grant_round_trips eq_refl eq_refl
              example_login_resolves_new)
    as (user_id & _ & Hsecond & _).
  - vm_compute. reflexivity.
  - vm_compute. reflexivity.
  - discriminate.
  - reflexivity.
  - apply example_login_callback_resolves.
  - exact Hsecond.
Defined.

End HandlerWitnesses.

Module FlowFacts.
Import Py Storage OAuth OAuthFacts.

Section Flow.

Context {S : Type} `{!AccountsStorage S}.
Context `{!BaseModel OAuth2AuthorizationRequestData}
        `{!BaseModel OAuth2LinkCodeData}
        `{!BaseModel AuthorizationCodeGrantData}
        `{!BaseModel OAuth2TokenEndpointResponse}.
Variable validate_http_url : string -> option string.

(** X25. From [authorize] to [callback]: when [authorize] has accepted a
    request and the provider comes back with the [state] that [authorize]
    drew, every redirect that [callback] answers with, the successful one
    and the ones that carry an error, goes to the [redirect_uri] that
    [authorize] validated and that [is_valid_redirect_uri] trusts. *)
Theorem callback_redirects_to_validated_uri (self : OAuth2Provider)
    (env env' : Env) (request request' : AsyncHTTPRequest)
    (context : Context S) (endpoint : string) (params : list (string * string))
    (response : Response) (target : string) :
  AuthorizeFacts.request_data_round_trips ->
  dumps_nonempty OAuth2AuthorizationRequestData ->
  fst (authorize validate_http_url self env request context)
  = Ok (Response_redirect endpoint params) ->
  truthy (query_params request' !! "state") = Some (token_hex env) ->
  fst (callback self env' request'
         (snd (authorize validate_http_url self env request context)))
  = Ok response ->
  redirect_target response = Some target ->
  is_valid_redirect_uri context target = true /\
  exists uri,
    truthy (query_params request !! "redirect_uri") = Some uri /\
    validate_http_url uri = Some target.
Proof.
  intros Hrt Hne Haccepted Hstate.
  unfold authorize in Haccepted |- *.
  destruct (truthy (query_params request !! "redirect_uri")) as [uri|] eqn:Huri;
    [|discriminate].
  destruct (validate_http_url uri) as [validated|] eqn:Hvalidated; [|discriminate].
  destruct (is_valid_redirect_uri context validated) eqn:Htrusted;
    cbn [negb] in Haccepted |- *; [|discriminate].
  destruct (truthy (query_params request !! "response_type")) as [response_type|];
    [|discriminate].
  destruct (existsb (String.eqb response_type) ["code"; "link_code"]);
    cbn [negb] in Haccepted |- *; [|discriminate].
  destruct (truthy (query_params request !! "code_challenge")) as [challenge|];
    [|discriminate].
  destruct (bool_decide (query_params request !! "code_challenge_method"
                         = Some "S256"));
    cbn [negb] in Haccepted |- *; [|discriminate].
  destruct (build_authorization_params self (token_hex env) _ _ _ _ _)
    as [query|e]; [|discriminate].
  clear Haccepted. cbn [snd].
  unfold callback. rewrite Hstate.
  cbn [secondary_storage with_secondary].
  unfold storage_get at 1, storage_set at 1. rewrite lookup_insert_eq.
  rewrite DeviceFacts.truthy_nonempty by apply Hne.
  match goal with |- context [model_dump_json ?d] =>
    rewrite (Hrt d eq_refl) end.
  cbn [ar_redirect_uri ar_link].
  unfold _link_flow, callback_grant. cbn [ar_redirect_uri].
  intros Hresponse Htarget.
  assert (target = validated) as ->; [|eauto].
  revert Hresponse Htarget.
  repeat case_match; cbn [fst]; intros Hresponse Htarget;
    try discriminate; injection Hresponse as <-; cbn in Htarget; congruence.
Qed.

End Flow.

Import Wire WireFacts Reference Example OAuthWitnesses.

Lemma reference_request_data_dumps_nonempty :
  dumps_nonempty OAuth2AuthorizationRequestData.
Proof. intros d. exact (pack_cons_nonempty _ _). Qed.

Lemma callback_redirects_to_validated_uri_witness :
  is_valid_redirect_uri (example_context initial_accounts)
    "http://valid-frontend.com/callback" = true /\
  exists uri,
    truthy (query_params (authorize_request good_authorize_params) !! "redirect_uri")
    = Some uri /\
    example_validate_http_url uri = Some "http://valid-frontend.com/callback".
Proof.
  apply (callback_redirects_to_validated_uri example_validate_http_url
           example_provider (example_env 1000 "test@example.com")
           (example_env 1010 "new@example.com")
           (authorize_request good_authorize_params)
           (callback_request good_callback_params)
           (example_context initial_accounts)
           "https://example.com/authorize"
           (AuthorizeFacts.authorization_params example_provider
              ["openid"; "email"; "profile"] true
              "00112233445566778899aabbccddeeff"
              "http://localhost:8000/test/callback"
              "n4bQgYhMfWWaL-qgxVrQFaO_TxsrC4Is0V1sFbDwCgg" None)
           (Response_redirect "http://valid-frontend.com/callback"
              [("code", "7d444840-9dc0-11d1-b245-5ffdce74fad2")])
           "http://valid-frontend.com/callback"
           ReferenceMore.reference_request_data_round_trips
           reference_request_data_dumps_nonempty).
  - vm_compute. reflexivity.
  - vm_compute. reflexivity.
  - vm_compute. reflexivity.
  - reflexivity.
Defined.

End FlowFacts.

Module Slugify.
Import Py.

Definition between (low high : N) (c : ascii) : bool :=
  (low <=? N_of_ascii c)%N && (N_of_ascii c <=? high)%N.

(** [unicodedata.normalize("NFKD", c).encode("ascii", "ignore")] for one
    character: an ASCII character is kept, and another character leaves
    the ASCII characters of its compatibility decomposition, the base
    letter of an accented letter or the digits of a fraction, if it has
    any. Normalisation moves combining marks only, so the result for a
    string is the concatenation of the results for its characters. *)
Definition nfkd_ascii (c : ascii) : list ascii :=
  if (N_of_ascii c <? 128)%N then [c]
  else
    match N_of_ascii c with
    | 160 | 168 | 175 | 180 | 184 => [" "%char]
    | 170 => ["a"%char]
    | 178 => ["2"%char]
    | 179 => ["3"%char]
    | 185 => ["1"%char]
    | 186 => ["o"%char]
    | 188 => ["1"%char; "4"%char]
    | 189 => ["1"%char; "2"%char]
    | 190 => ["3"%char; "4"%char]
    | 192 | 193 | 194 | 195 | 196 | 197 => ["A"%char]
    | 199 => ["C"%char]
    | 200 | 201 | 202 | 203 => ["E"%char]
    | 204 | 205 | 206 | 207 => ["I"%char]
    | 209 => ["N"%char]
    | 210 | 211 | 212 | 213 | 214 => ["O"%char]
    | 217 | 218 | 219 | 220 => ["U"%char]
    | 221 => ["Y"%char]
    | 224 | 225 | 226 | 227 | 228 | 229 => ["a"%char]
    | 231 => ["c"%char]
    | 232 | 233 | 234 | 235 => ["e"%char]
    | 236 | 237 | 238 | 239 => ["i"%char]
    | 241 => ["n"%char]
    | 242 | 243 | 244 | 245 | 246 => ["o"%char]
    | 249 | 250 | 251 | 252 => ["u"%char]
    | 253 | 255 => ["y"%char]
    | _ => []
    end%N.

(** [str.lower] on an ASCII character. *)
Definition lower (c : ascii) : ascii :=
  if between 65 90 c then ascii_of_N (N_of_ascii c + 32) else c.

(** The classes [\w] and [\s] of [re] on ASCII characters: letters,
    digits and the underscore; the characters 9 to 13 and 28 to 32. *)
Definition is_word (c : ascii) : bool :=
  between 48 57 c || between 65 90 c || between 97 122 c || Ascii.eqb c "_".

Definition is_space (c : ascii) : bool := between 9 13 c || between 28 32 c.

(** The characters that [[^\w\s-]] does not match, and those that
    [[-\s]] matches. *)
Definition kept (c : ascii) : bool := is_word c || is_space c || Ascii.eqb c "-".

Definition is_separator (c : ascii) : bool := Ascii.eqb c "-" || is_space c.

(** [re.sub(r"[-\s]+", "-", value)]: every maximal run of separators
    becomes one dash. [in_run] tells that the character before was a
    separator. *)
Fixpoint sub_runs (in_run : bool) (value : list ascii) : list ascii :=
  match value with
  | [] => []
  | c :: rest =>
      if is_separator c
      then if in_run then sub_runs true rest else "-"%char :: sub_runs true rest
      else c :: sub_runs false rest
  end.

Fixpoint lstrip (p : ascii -> bool) (value : list ascii) : list ascii :=
  match value with
  | [] => []
  | c :: rest => if p c then lstrip p rest else value
  end.

Fixpoint rstrip (p : ascii -> bool) (value : list ascii) : list ascii :=
  match value with
  | [] => []
  | c :: rest =>
      match rstrip p rest with
      | [] => if p c then [] else [c]
      | rest' => c :: rest'
      end
  end.

(** [value.strip("-_")] *)
Definition stripped (c : ascii) : bool := Ascii.eqb c "-" || Ascii.eqb c "_".

Definition strip (value : list ascii) : list ascii :=
  rstrip stripped (lstrip stripped value).

Definition slugify_chars (value : list ascii) : list ascii :=
  let value := List.flat_map nfkd_ascii value in
  let value := List.filter kept (List.map lower value) in
  strip (sub_runs false value).

Definition slugify (value : string) : string :=
  string_of_list_ascii (slugify_chars (list_ascii_of_string value)).

End Slugify.

Module SlugifyFacts.
Import Py Slugify.

(** The characters of a slug: lower-case letters, digits, the underscore
    and the dash. *)
Definition slug_char (c : ascii) : bool :=
  between 48 57 c || between 97 122 c || Ascii.eqb c "_" || Ascii.eqb c "-".

Fixpoint no_double_dash (value : list ascii) : bool :=
  match value with
  | c :: rest =>
      match rest with
      | d :: _ => negb (Ascii.eqb c "-" && Ascii.eqb d "-") && no_double_dash rest
      | [] => true
      end
  | [] => true
  end.

(** A slug: only slug characters, no two dashes in a row, and neither a
    dash nor an underscore at either end. *)
Definition slug_chars (value : list ascii) : bool :=
  forallb slug_char value && no_double_dash value
  && negb (stripped (List.hd "a"%char value))
  && negb (stripped (List.last value "a"%char)).

Definition is_slug (value : string) : bool := slug_chars (list_ascii_of_string value).

(** Facts about single characters, by enumeration. *)
Lemma kept_lower_cases (c : ascii) :
  kept (lower c) = true ->
  is_separator (lower c) = true
  \/ (is_separator (lower c) = false /\ slug_char (lower c) = true
      /\ Ascii.eqb (lower c) "-" = false).
Proof.
  destruct c as [[] [] [] [] [] [] [] []]; vm_compute; intros H;
    first [discriminate H | left; reflexivity | right; repeat split].
Qed.

Lemma slug_char_stable (c : ascii) :
  slug_char c = true ->
  nfkd_ascii c = [c] /\ lower c = c /\ kept c = true
  /\ is_separator c = Ascii.eqb c "-".
Proof.
  destruct c as [[] [] [] [] [] [] [] []]; vm_compute; intros H;
    first [discriminate H | repeat split].
Qed.

(** The output of [sub_runs]. *)
Lemma sub_runs_slug (value : list ascii) :
  forall in_run,
    let result := sub_runs in_run (List.filter kept (List.map lower value)) in
    forallb slug_char result = true /\ no_double_dash result = true
    /\ (in_run = true -> Ascii.eqb (List.hd "a"%char result) "-" = false).
Proof.
  induction value as [|c value IH]; intros in_run; cbn zeta.
  - cbn. auto.
  - cbn [List.map List.filter].
    destruct (kept (lower c)) eqn:Hkept; [|apply IH].
    cbn [sub_runs].
    destruct (kept_lower_cases c Hkept) as [Hsep | (Hsep & Hslug & Hdash)];
      rewrite Hsep.
    + destruct (IH true) as (Hall & Hnodup & Hhead). specialize (Hhead eq_refl).
      destruct in_run; [auto|].
      split; [cbn; exact Hall|]. split; [|discriminate].
      cbn [no_double_dash].
      destruct (sub_runs true (List.filter kept (List.map lower value)))
        as [|d rest]; [reflexivity|].
      cbn [List.hd] in Hhead. rewrite Hhead. cbn. exact Hnodup.
    + destruct (IH false) as (Hall & Hnodup & _).
      split; [cbn; now rewrite Hslug|]. split; [|intros _; exact Hdash].
      cbn [no_double_dash].
      destruct (sub_runs false (List.filter kept (List.map lower value)))
        as [|d rest]; [reflexivity|].
      rewrite Hdash. cbn. exact Hnodup.
Qed.

Lemma no_double_dash_tail (c : ascii) (value : list ascii) :
  no_double_dash (c :: value) = true -> no_double_dash value = true.
Proof.
  cbn. destruct value as [|d rest]; [reflexivity|].
  intros H. now apply andb_true_iff in H as [_ H].
Qed.

Lemma lstrip_slug (value : list ascii) :
  forallb slug_char value = true -> no_double_dash value = true ->
  forallb slug_char (lstrip stripped value) = true
  /\ no_double_dash (lstrip stripped value) = true
  /\ stripped (List.hd "a"%char (lstrip stripped value)) = false.
Proof.
  induction value as [|c value IH]; intros Hall Hnodup.
  - cbn. auto.
  - cbn [lstrip]. destruct (stripped c) eqn:E.
    + apply IH.
      * cbn in Hall. now apply andb_true_iff in Hall as [_ Hall].
      * now apply no_double_dash_tail in Hnodup.
    + auto.
Qed.

Lemma rstrip_head (p : ascii -> bool) (c : ascii) (value : list ascii) :
  rstrip p (c :: value) = []
  \/ exists rest, rstrip p (c :: value) = c :: rest.
Proof.
  cbn [rstrip]. destruct (rstrip p value); [destruct (p c)|]; eauto.
Qed.

Lemma rstrip_kept_head (p : ascii -> bool) (c : ascii) (value : list ascii) :
  p c = false -> exists rest, rstrip p (c :: value) = c :: rest.
Proof.
  intros Hc. cbn [rstrip]. destruct (rstrip p value); [rewrite Hc|]; eauto.
Qed.

Lemma rstrip_slug (value : list ascii) :
  forallb slug_char value = true -> no_double_dash value = true ->
  forallb slug_char (rstrip stripped value) = true
  /\ no_double_dash (rstrip stripped value) = true
  /\ stripped (List.last (rstrip stripped value) "a"%char) = false.
Proof.
  induction value as [|c value IH]; intros Hall Hnodup.
  - cbn. auto.
  - cbn in Hall. apply andb_true_iff in Hall as [Hc Hall].
    destruct (IH Hall (no_double_dash_tail _ _ Hnodup)) as (Hall' & Hnodup' & Hlast).
    cbn [rstrip].
    destruct (rstrip stripped value) as [|d rest] eqn:Hrest.
    + destruct (stripped c) eqn:E; cbn; [auto|]. now rewrite Hc, E.
    + split; [cbn; cbn in Hall'; now rewrite Hc|]. split; [|exact Hlast].
      destruct value as [|d' value]; [discriminate|].
      destruct (rstrip_head stripped d' value) as [E | [rest' E]];
        rewrite E in Hrest; [discriminate|]. injection Hrest as <- <-.
      cbn [no_double_dash] in Hnodup |- *.
      apply andb_true_iff in Hnodup as [Hpair _]. now rewrite Hpair.
Qed.

(** The list that [slugify_chars] returns is a slug. *)
Lemma slugify_chars_slug (value : list ascii) :
  slug_chars (slugify_chars value) = true.
Proof.
  unfold slugify_chars, strip, slug_chars. cbv zeta.
  destruct (sub_runs_slug (List.flat_map nfkd_ascii value) false)
    as (Hall & Hnodup & _). cbv zeta in Hall, Hnodup.
  destruct (lstrip_slug _ Hall Hnodup) as (Hall' & Hnodup' & Hhead).
  destruct (rstrip_slug _ Hall' Hnodup') as (Hall'' & Hnodup'' & Hlast).
  rewrite Hall'', Hnodup'', Hlast. cbn [andb negb].
  destruct (lstrip stripped _) as [|c rest] eqn:Hl; [reflexivity|].
  cbn [List.hd] in Hhead.
  destruct (rstrip_kept_head stripped c rest Hhead) as [rest' ->].
  cbn [List.hd]. now rewrite Hhead.
Qed.

(** A slug goes through every step of [slugify_chars] unchanged. *)
Lemma flat_map_stable (value : list ascii) :
  forallb slug_char value = true ->
  List.flat_map nfkd_ascii value = value
  /\ List.map lower value = value
  /\ List.filter kept value = value.
Proof.
  induction value as [|c value IH]; intros Hall; [auto|].
  cbn in Hall. apply andb_true_iff in Hall as [Hc Hall].
  destruct (IH Hall) as (H1 & H2 & H3).
  destruct (slug_char_stable c Hc) as (Hn & Hl & Hk & _).
  cbn. rewrite Hn, Hl, Hk, H1, H2, H3. auto.
Qed.

Lemma sub_runs_stable (value : list ascii) :
  forall in_run,
    forallb slug_char value = true -> no_double_dash value = true ->
    (in_run = true -> Ascii.eqb (List.hd "a"%char value) "-" = false) ->
    sub_runs in_run value = value.
Proof.
  induction value as [|c value IH]; intros in_run Hall Hnodup Hhead;
    [reflexivity|].
  cbn in Hall. apply andb_true_iff in Hall as [Hc Hall].
  destruct (slug_char_stable c Hc) as (_ & _ & _ & Hsep).
  cbn [sub_runs]. rewrite Hsep.
  destruct (Ascii.eqb c "-") eqn:E.
  - destruct in_run; [specialize (Hhead eq_refl); cbn in Hhead; congruence|].
    apply Ascii.eqb_eq in E. subst c. f_equal.
    apply IH; [exact Hall | now apply no_double_dash_tail in Hnodup|].
    intros _. destruct value as [|d rest]; [reflexivity|].
    cbn in Hnodup. apply andb_true_iff in Hnodup as [Hpair _].
    cbn. now destruct (Ascii.eqb d "-").
  - f_equal. apply IH; [exact Hall | now apply no_double_dash_tail in Hnodup|].
    discriminate.
Qed.

Lemma lstrip_stable (value : list ascii) :
  stripped (List.hd "a"%char value) = false -> lstrip stripped value = value.
Proof. destruct value as [|c rest]; cbn; [reflexivity|]. now intros ->. Qed.

Lemma rstrip_stable (value : list ascii) :
  stripped (List.last value "a"%char) = false -> rstrip stripped value = value.
Proof.
  induction value as [|c value IH]; [reflexivity|].
  destruct value as [|d rest].
  - cbn. now intros ->.
  - intros Hlast. cbn [rstrip]. change (List.last (c :: d :: rest) "a"%char)
      with (List.last (d :: rest) "a"%char) in Hlast.
    specialize (IH Hlast). cbn [rstrip] in IH. now rewrite IH.
Qed.

Lemma slug_chars_fixed (value : list ascii) :
  slug_chars value = true -> slugify_chars value = value.
Proof.
  unfold slug_chars. intros H.
  apply andb_true_iff in H as [H Hlast].
  apply andb_true_iff in H as [H Hhead].
  apply andb_true_iff in H as [Hall Hnodup].
  apply negb_true_iff in Hlast. apply negb_true_iff in Hhead.
  unfold slugify_chars, strip. cbv zeta.
  destruct (flat_map_stable value Hall) as (-> & -> & ->).
  rewrite (sub_runs_stable value false Hall Hnodup) by discriminate.
  rewrite (lstrip_stable value Hhead). now apply rstrip_stable.
Qed.

(** X26. Whatever the input, [slugify] returns a slug: a string of
    lower-case ASCII letters, digits, underscores and dashes, without two
    dashes in a row and with neither a dash nor an underscore at its
    beginning or end. *)
Theorem slugify_returns_slug (value : string) :
  let result := list_ascii_of_string (slugify value) in
  (forall c, In c result ->
     between 97 122 c = true \/ between 48 57 c = true
     \/ c = "_"%char \/ c = "-"%char) /\
  (forall before after, result <> (before ++ "-"%char :: "-"%char :: after)%list) /\
  (forall c rest, result = c :: rest -> c <> "-"%char /\ c <> "_"%char) /\
  (forall c rest, result = (rest ++ [c])%list -> c <> "-"%char /\ c <> "_"%char).
Proof.
  cbv zeta. unfold slugify. rewrite list_ascii_of_string_of_list_ascii.
  pose proof (slugify_chars_slug (list_ascii_of_string value)) as H.
  set (result := slugify_chars (list_ascii_of_string value)) in *. clearbody result.
  unfold slug_chars in H.
  apply andb_true_iff in H as [H Hlast].
  apply andb_true_iff in H as [H Hhead].
  apply andb_true_iff in H as [Hall Hnodup].
  apply negb_true_iff in Hlast. apply negb_true_iff in Hhead.
  assert (Hedge : forall c, stripped c = false -> c <> "-"%char /\ c <> "_"%char).
  { intros c Hc. unfold stripped in Hc. apply orb_false_iff in Hc as [H1 H2].
    split; intros ->; discriminate. }
  split; [|split; [|split]].
  - intros c Hin. rewrite forallb_forall in Hall. specialize (Hall c Hin).
    unfold slug_char in Hall.
    repeat (apply orb_true_iff in Hall as [Hall|Hall]); auto.
    + right. right. left. now apply Ascii.eqb_eq.
    + right. right. right. now apply Ascii.eqb_eq.
  - intros before after ->. clear Hall Hhead Hlast.
    induction before as [|c before IH].
    + cbn in Hnodup. discriminate.
    + apply IH. now apply no_double_dash_tail in Hnodup.
  - intros c rest ->. now apply Hedge.
  - intros c rest ->. rewrite List.last_last in Hlast. now apply Hedge.
Qed.

(** X27. The strings that [slugify] leaves as they are are exactly the
    slugs; so [slugify] is idempotent: applied to its own result it
    changes nothing. *)
Theorem slugify_fixed_points (value : string) :
  (slugify value = value <-> is_slug value = true) /\
  slugify (slugify value) = slugify value.
Proof.
  assert (Hfixed : forall s, is_slug s = true -> slugify s = s).
  { intros s Hs. unfold slugify. rewrite (slug_chars_fixed _ Hs).
    apply string_of_list_ascii_of_string. }
  assert (Hslug : forall s, is_slug (slugify s) = true).
  { intros s. unfold is_slug, slugify.
    rewrite list_ascii_of_string_of_list_ascii. apply slugify_chars_slug. }
  split; [split|].
  - intros <-. apply Hslug.
  - apply Hfixed.
  - apply Hfixed, Hslug.
Qed.

Example slugify_examples :
  slugify "  Hello,  World! -- ok_ " = "hello-world-ok" /\
  slugify (String (ascii_of_N 201) "t" +:+ String (ascii_of_N 233) " 1"
             +:+ String (ascii_of_N 189) "") = "ete-112" /\
  slugify "___" = "".
Proof. vm_compute. repeat split. Qed.

End SlugifyFacts.
